(** * Launchpad backend: pricing, instruction assembly and lifecycle gating

    A shallow embedding of the Express route handlers of the launchpad
    backend (buy, sell, graduate, generate-safe, check-and-generate-safe
    and the spot-price decoder), with the properties the specification
    states about them.

    Conventions of the embedding:
    - a JavaScript [bigint] is a [Z]; [a / b] on bigints is [Z.quot a b]
      (truncation toward zero) and throws a [RangeError] when [b] is [0n];
    - a JavaScript [number] is an IEEE-754 binary64 value, [spec_float];
    - a handler is a computation that emits the events it causes (network
      fetches, submissions, bridge calls, the calculation log) and either
      goes on, returns a response early, or throws; the [try]/[catch] around
      every handler body turns a throw into the 500 response;
    - the libraries the handlers call (RPC client, generated program client,
      address derivation, instruction encoders, the held key pair) are the
      fields of [Collaborators]. *)

From Stdlib Require Import ZArith String List Lia Bool.
From Stdlib Require Import Floats.SpecFloat.
From stdpp Require Import gmap strings.

Local Open Scope string_scope.
Local Open Scope Z_scope.

(** ** JavaScript values and failure *)

(** The outcome of a library call or of an expression that may throw;
    [Throw] carries [err.message]. *)
Inductive Try (A : Type) : Type :=
| Ok (a : A)
| Throw (message : string).
Arguments Ok {A} a.
Arguments Throw {A} message.

(** The TypeScript type [string | number | bigint] of the amount fields. *)
Inductive Amount : Type :=
| AString (s : string)
| ANumber (n : spec_float)
| ABigInt (z : Z).

(** JavaScript truthiness on [string | number | bigint]: the empty string,
    [0], [-0], [NaN] and [0n] are falsy. *)
Definition truthy (a : Amount) : bool :=
  match a with
  | AString s => match s with EmptyString => false | _ => true end
  | ANumber (S754_zero _) => false
  | ANumber S754_nan => false
  | ANumber _ => true
  | ABigInt z => negb (z =? 0)
  end.

(** Truthiness of an optional field: [undefined] is falsy. *)
Definition truthy_field (a : option Amount) : bool :=
  match a with
  | None => false
  | Some v => truthy v
  end.

(** Truthiness of an optional string field. *)
Definition truthy_string (s : option string) : bool :=
  match s with
  | None => false
  | Some EmptyString => false
  | Some _ => true
  end.

(** [BigInt(Math.trunc(value))] on a number: the integer part, toward zero;
    [NaN] and the infinities are not integers and make [BigInt] throw. *)
Definition BigInt_trunc (n : spec_float) : Try Z :=
  match n with
  | S754_zero _ => Ok 0
  | S754_infinity false =>
      Throw "The number Infinity cannot be converted to a BigInt because it is not an integer"
  | S754_infinity true =>
      Throw "The number -Infinity cannot be converted to a BigInt because it is not an integer"
  | S754_nan =>
      Throw "The number NaN cannot be converted to a BigInt because it is not an integer"
  | S754_finite s m e =>
      let magnitude := Z.shiftl (Zpos m) e in
      Ok (if s then - magnitude else magnitude)
  end.

(** Bigint division [a / b]; the [RangeError] of a zero divisor has the
    message "Division by zero". *)
Definition bigint_div (a b : Z) : Try Z :=
  if b =? 0 then Throw "Division by zero" else Ok (Z.quot a b).

(** The expression of [tokenAmountWithDecimals] in the buy route (line 86):
    [(solAmountLamports * virtualTokenReserves) /
     (virtualSolReserves + solAmountLamports)]. *)
Definition buy_tokenAmountWithDecimals
    (virtualSolReserves virtualTokenReserves solAmountLamports : Z) : Try Z :=
  bigint_div (solAmountLamports * virtualTokenReserves)
             (virtualSolReserves + solAmountLamports).

(** The expression of [tokenAmountWithDecimals] in the sell route
    (line 135): [(solAmountLamports * virtualTokenReserves) /
     (virtualSolReserves - solAmountLamports)]. *)
Definition sell_tokenAmountWithDecimals
    (virtualSolReserves virtualTokenReserves solAmountLamports : Z) : Try Z :=
  bigint_div (solAmountLamports * virtualTokenReserves)
             (virtualSolReserves - solAmountLamports).

(** ** The payout of a sale, as the specification gives it *)

(** Modelled from the spec: the SOL paid out for a token amount. The
    sources never compute it (a sale by token amount passes the amount on
    and the program on chain works out the SOL), so it is taken from the
    contract of the AMM engine: under the invariant
    [(x - dx) * (y + dy) = k] the counter-amount is [dx = x - k / (y + dy)],
    by integer division. *)
Definition sell_solOut (x y k dy : Z) : Try Z :=
  match bigint_div k (y + dy) with
  | Ok q => Ok (x - q)
  | Throw e => Throw e
  end.

(** Modelled from the spec: the same counter-amount with [k] eliminated,
    [(dy * x) / (y + dy)], the form the engine's contract gives for the buy
    direction. *)
Definition sell_solOut_product (x y dy : Z) : Try Z :=
  bigint_div (dy * x) (y + dy).

(** ** The data model *)

Definition bytes : Type := list Byte.byte.

(** Modelled from the spec: the [LaunchpadStatus] enum of the generated
    program client (dist/js-client), whose declaration is not among the
    sources: Trading, Transition, Safe. *)
Inductive LaunchpadStatus : Type := Trading | Transition | Safe.

(** [LaunchpadStatus[status]], the enum's reverse mapping to its name. *)
Definition LaunchpadStatus_name (s : LaunchpadStatus) : string :=
  match s with
  | Trading => "Trading"
  | Transition => "Transition"
  | Safe => "Safe"
  end.

Definition LaunchpadStatus_eqb (a b : LaunchpadStatus) : bool :=
  match a, b with
  | Trading, Trading | Transition, Transition | Safe, Safe => true
  | _, _ => false
  end.

(** The decoded account the handlers read, with the fields they use.
    [mint] and [tokenVault] are [Option<Address>]. *)
Record LaunchpadState : Type := {
  status : LaunchpadStatus;
  virtualSolReserves : Z;
  virtualTokenReserves : Z;
  k : Z;
  mint : option string;
  tokenVault : option string;
  solRaised : Z;
  tokensSold : Z;
  solRaiseTarget : Z;
  tokensForSale : Z;
  platformAuthority : string
}.

Record AccountMeta : Type := {
  pubkey : string;
  isSigner : bool;
  isWritable : bool
}.

(** An instruction descriptor; [data] stands for the encoded bytes (the
    routes send them in base64). *)
Record Instruction : Type := {
  programId : string;
  keys : list AccountMeta;
  data : bytes
}.

Definition writable (a : string) : AccountMeta :=
  {| pubkey := a; isSigner := false; isWritable := true |}.
Definition readonly (a : string) : AccountMeta :=
  {| pubkey := a; isSigner := false; isWritable := false |}.
Definition signer_writable (a : string) : AccountMeta :=
  {| pubkey := a; isSigner := true; isWritable := true |}.

(** The [info] block of the graduate and generate-safe responses, also the
    [blockchainData] sent to the bridge. *)
Record RaiseInfo : Type := {
  info_solRaised : Z;
  info_solTarget : Z;
  info_tokensSold : Z;
  info_tokensForSale : Z
}.

Definition raise_info (d : LaunchpadState) : RaiseInfo :=
  {| info_solRaised := solRaised d;
     info_solTarget := solRaiseTarget d;
     info_tokensSold := tokensSold d;
     info_tokensForSale := tokensForSale d |}.

(** What the document bridge answers with: the two fields the routes read,
    either of which may be missing. *)
Record SafeDocument : Type := {
  pdfUrl : option string;
  filename : option string
}.

(** The HTTP response of the bridge: [ok] with its JSON, or not [ok] with
    its text. *)
Inductive BridgeResponse : Type :=
| BridgeOk (doc : SafeDocument)
| BridgeNotOk (errorText : string).

(** The JSON bodies the handlers answer with, one constructor per shape.
    Bigints sent as decimal strings are kept as numbers; the fields that
    only echo the request or the environment (the [received] block of the
    graduate route's 400, the [stack] of a 500) are left out. *)
Inductive Body : Type :=
| BError (error : string)
| BErrorDetails (error details : string)
| BFailure (error : string)
| BAuthorityMismatch (error expected actual : string)
| BInstruction (program : string) (instruction : Instruction)
               (debug : option (Z * Z))
| BGraduated (signature launchpadState previousStatus newStatus : string)
             (info : RaiseInfo)
| BSafeGenerated (launchpadState statusName : string)
                 (safeDocument : SafeDocument) (info : RaiseInfo)
| BCached (message : string) (cachedDocument : string * string)
| BCheckGenerated (message : string) (statusChanged : bool)
                  (newStatus : string) (safeDocument : SafeDocument)
| BNoAction (message : string) (statusChanged : bool)
            (currentStatus : string).

Record Response : Type := {
  code : Z;
  body : Body
}.

(** What a handler does to the outside world, in order: the state fetch,
    the submission primitives, the call of the document bridge (with the
    launchpad address and the on-chain figures of its payload; the campaign
    block of the payload is placeholder data), and the log line of the swap
    calculation, the one place the fetched [k] goes to. *)
Inductive Event : Type :=
| EFetchLaunchpadState (address : string)
| ECalculationLog (label : string) (values : list Z)
| EGetLatestBlockhash
| ESendAndConfirmTransaction (ix : Instruction)
| EBridgeGenerateSafe (launchpadAddress : string) (blockchainData : RaiseInfo).

(** ** Collaborators *)

Record Collaborators : Type := {
  (** [BigInt(string)] of the runtime *)
  StringToBigInt : string -> Try Z;
  (** the program address constant of the generated client *)
  LAUNCHPAD_PROGRAM_ADDRESS : string;
  (** [fetchMaybeLaunchpadState(rpc, address)]; [None] is [exists: false] *)
  fetchMaybeLaunchpadState : string -> Try (option LaunchpadState);
  (** [getProgramDerivedAddress] for the launchpad program, from the seed
      tag and the state address (encoding the address may throw) *)
  getProgramDerivedAddress : string -> string -> Try string;
  (** [getAssociatedTokenAddress(new PublicKey(mint), new PublicKey(owner),
      false)], as base58 *)
  getAssociatedTokenAddress : string -> string -> Try string;
  (** the instruction-data encoders of the generated client *)
  encodeBuyToken : Z -> Try bytes;
  encodeSellToken : Z -> Try bytes;
  encodeGraduateToSafe : bytes;
  (** [address(s)] of @solana/addresses: validates and returns [s] *)
  address : string -> Try string;
  (** [new PublicKey(s)] of @solana/web3.js, as base58 *)
  PublicKey : string -> Try string;
  (** [PLATFORM_AUTHORITY_KEYPAIR.publicKey.toBase58()] *)
  PLATFORM_AUTHORITY_PUBLIC_KEY : string;
  (** [connection.getLatestBlockhash('confirmed')] *)
  getLatestBlockhash : Try (string * Z);
  (** [sendAndConfirmTransaction], giving the signature *)
  sendAndConfirmTransaction : Instruction -> Try string;
  (** the POST to the document bridge *)
  bridgeGenerateSafe : string -> RaiseInfo -> Try BridgeResponse
}.

(** ** Handler computations *)

Inductive Step (R A : Type) : Type :=
| Next (a : A)
| Returned (r : R)
| Threw (message : string).
Arguments Next {R A} a.
Arguments Returned {R A} r.
Arguments Threw {R A} message.

Definition M (R A : Type) : Type := (list Event * Step R A)%type.

Definition ret {R A} (a : A) : M R A := (nil, Next a).

Definition bind {R A B} (m : M R A) (f : A -> M R B) : M R B :=
  match m with
  | (t, Next a) => let '(t', s) := f a in ((t ++ t')%list, s)
  | (t, Returned r) => (t, Returned r)
  | (t, Threw e) => (t, Threw e)
  end.

Notation "'let*' x ':=' m 'in' f" := (bind m (fun x => f))
  (at level 10, x pattern, m at level 100, f at level 200).

(** [return res...json(...)] *)
Definition reply {R A} (r : R) : M R A := (nil, Returned r).

(** [throw] *)
Definition throw {R A} (message : string) : M R A := (nil, Threw message).

(** An expression that may throw. *)
Definition try_ {R A} (x : Try A) : M R A :=
  match x with
  | Ok a => ret a
  | Throw e => throw e
  end.

(** An effect observable from outside. *)
Definition emit {R} (e : Event) : M R unit := (e :: nil, Next tt).

(** [after e m]: the event [e], then [m]. *)
Definition after {R A} (e : Event) (m : M R A) : M R A :=
  (e :: fst m, snd m).

(** [if (c) return res...json(...)] *)
Definition reply_if {R} (c : bool) (r : R) : M R unit :=
  if c then reply r else ret tt.

Definition json (c : Z) (b : Body) : Response := {| code := c; body := b |}.

(** The [try { ... } catch (e) { return res.status(500).json(...) }] that
    wraps a handler body. *)
Definition handle {R} (on_throw : string -> R) (m : M R R)
  : list Event * R :=
  match m with
  | (t, Next r) => (t, r)
  | (t, Returned r) => (t, r)
  | (t, Threw e) => (t, on_throw e)
  end.

(** No event of the trace satisfies [p]. *)
Definition never (p : Event -> bool) (t : list Event) : bool :=
  forallb (fun e => negb (p e)) t.

Definition is_submission (e : Event) : bool :=
  match e with
  | EGetLatestBlockhash => true
  | ESendAndConfirmTransaction _ => true
  | _ => false
  end.
Definition is_bridge_call (e : Event) : bool :=
  match e with EBridgeGenerateSafe _ _ => true | _ => false end.

Definition is_calculation (e : Event) : bool :=
  match e with ECalculationLog _ _ => true | _ => false end.

(** The response carries an instruction. *)
Definition instruction_of (r : Response) : option Instruction :=
  match body r with
  | BInstruction _ ix _ => Some ix
  | _ => None
  end.

Definition is_error (r : Response) : bool := 400 <=? code r.

Section Handlers.

Variable W : Collaborators.

(** [toBigInt], the same function in the buy and the sell route. *)
Definition toBigInt (value : Amount) : Try Z :=
  match value with
  | ABigInt z => Ok z
  | ANumber n => BigInt_trunc n
  | AString s => StringToBigInt W s
  end.

Definition SYSTEM_PROGRAM_ID : string := "11111111111111111111111111111111".
Definition TOKEN_PROGRAM_ID : string :=
  "TokenkegQfeZyiNwAJbNbGKPFXCWuBvf9Ss623VQ5DA".
Definition ASSOCIATED_TOKEN_PROGRAM : string :=
  "ATokenGPvbdGVxr1b2hvZbsiqW5xWH25efTNsLJA8knL".
Definition LAMPORTS_PER_SOL : Z := 1000000000.

(** [await fetchMaybeLaunchpadState(rpc, address)] *)
Definition fetch_state {R} (a : string) : M R (option LaunchpadState) :=
  let* _ := emit (EFetchLaunchpadState a) in
  try_ (fetchMaybeLaunchpadState W a).

(** The [catch] of the buy and sell routes. *)
Definition on_throw_error (e : string) : Response := json 500 (BError e).

(** *** POST /buy *)

Record BuyRequestBody : Type := {
  buy_launchpadStateAddress : option string;
  buy_solAmount : option Amount;
  buy_buyer : option string
}.

(** One round of the loop over the required fields: a field that is absent
    or [undefined] ends the request. *)
Definition required {A} (name : string) (field : option A)
  : M Response A :=
  match field with
  | None => reply (json 400 (BError (String.append "Missing field: " name)))
  | Some v => ret v
  end.

Definition buyTokenKeys (launchpadStateAddress launchpadAuthority solVault
    tokenVaultAddress mintAddress buyer buyerTokenAccount : string)
  : list AccountMeta :=
  [ writable launchpadStateAddress;
    readonly launchpadAuthority;
    writable solVault;
    writable tokenVaultAddress;
    writable mintAddress;
    signer_writable buyer;
    writable buyerTokenAccount;
    readonly SYSTEM_PROGRAM_ID;
    readonly TOKEN_PROGRAM_ID;
    readonly ASSOCIATED_TOKEN_PROGRAM ].

Definition buy_body (b : BuyRequestBody) : M Response Response :=
  let* launchpadStateAddress :=
    required "launchpadStateAddress" (buy_launchpadStateAddress b) in
  let* solAmount := required "solAmount" (buy_solAmount b) in
  let* buyer := required "buyer" (buy_buyer b) in
  let* maybeAccount := fetch_state launchpadStateAddress in
  match maybeAccount with
  | None => reply (json 404 (BError "Launchpad state account not found"))
  | Some launchpadData =>
    match mint launchpadData, tokenVault launchpadData with
    | Some mintAddress, Some tokenVaultAddress =>
      let* virtualSolReserves :=
        try_ (toBigInt (ABigInt (virtualSolReserves launchpadData))) in
      let* virtualTokenReserves :=
        try_ (toBigInt (ABigInt (virtualTokenReserves launchpadData))) in
      let* k := try_ (toBigInt (ABigInt (k launchpadData))) in
      let* solAmountBig := try_ (toBigInt solAmount) in
      let solAmountLamports := solAmountBig * LAMPORTS_PER_SOL in
      let* _ := reply_if
        ((virtualSolReserves =? 0) || (virtualTokenReserves =? 0))
        (json 400 (BError "Invalid launchpad state: Virtual reserves are zero.")) in
      let* tokenAmountWithDecimals :=
        try_ (buy_tokenAmountWithDecimals virtualSolReserves
                virtualTokenReserves solAmountLamports) in
      let* _ := reply_if (tokenAmountWithDecimals <=? 0)
        (json 400 (BError "SOL amount is too low to purchase any tokens.")) in
      let* tokenAmount := try_ (bigint_div tokenAmountWithDecimals 1000000) in
      let* _ := emit (ECalculationLog "Buy instruction calculation:"
        [solAmountLamports; virtualSolReserves; virtualTokenReserves; k;
         tokenAmountWithDecimals; tokenAmount]) in
      let* launchpadAuthority :=
        try_ (getProgramDerivedAddress W "launchpad_authority"
                launchpadStateAddress) in
      let* solVault :=
        try_ (getProgramDerivedAddress W "sol_vault"
                launchpadStateAddress) in
      let* buyerTokenAccountAddress :=
        try_ (getAssociatedTokenAddress W mintAddress buyer) in
      let* buyTokenData := try_ (encodeBuyToken W tokenAmount) in
      reply (json 200 (BInstruction (LAUNCHPAD_PROGRAM_ADDRESS W)
        {| programId := LAUNCHPAD_PROGRAM_ADDRESS W;
           keys := buyTokenKeys launchpadStateAddress launchpadAuthority
                     solVault tokenVaultAddress mintAddress buyer
                     buyerTokenAccountAddress;
           data := buyTokenData |}
        (Some (tokenAmountWithDecimals, tokenAmount))))
    | _, _ =>
      reply (json 400
        (BError "Token mint or vault not initialized in launchpad data"))
    end
  end.

Definition post_buy (b : BuyRequestBody) : list Event * Response :=
  handle on_throw_error (buy_body b).

(** *** POST /sell *)

Record SellRequestBody : Type := {
  sell_launchpadStateAddress : option string;
  sell_tokenAmount : option Amount;
  sell_solAmount : option Amount;
  sell_seller : option string
}.

Definition sellTokenKeys (launchpadStateAddress solVault tokenVaultAddress
    mintAddress seller sellerTokenAccount : string) : list AccountMeta :=
  [ writable launchpadStateAddress;
    writable solVault;
    writable tokenVaultAddress;
    writable mintAddress;
    signer_writable seller;
    writable sellerTokenAccount;
    readonly SYSTEM_PROGRAM_ID;
    readonly TOKEN_PROGRAM_ID;
    readonly ASSOCIATED_TOKEN_PROGRAM ].

(** Step 4 of the sell route with [solAmount !== undefined]: the token
    amount for a requested SOL amount. *)
Definition sell_amount_from_sol (launchpadData : LaunchpadState)
    (solAmount : Amount) : M Response Z :=
  let* virtualSolReserves :=
    try_ (toBigInt (ABigInt (virtualSolReserves launchpadData))) in
  let* virtualTokenReserves :=
    try_ (toBigInt (ABigInt (virtualTokenReserves launchpadData))) in
  let* k := try_ (toBigInt (ABigInt (k launchpadData))) in
  let* solAmountBig := try_ (toBigInt solAmount) in
  let solAmountLamports := solAmountBig * LAMPORTS_PER_SOL in
  let* _ := reply_if
    ((virtualSolReserves =? 0) || (virtualTokenReserves =? 0))
    (json 400 (BError "Invalid launchpad state: Virtual reserves are zero.")) in
  let* _ := reply_if (virtualSolReserves <=? solAmountLamports)
    (json 400 (BError "SOL amount exceeds available reserves.")) in
  let* tokenAmountWithDecimals :=
    try_ (sell_tokenAmountWithDecimals virtualSolReserves
            virtualTokenReserves solAmountLamports) in
  let* _ := reply_if (tokenAmountWithDecimals <=? 0)
    (json 400 (BError "SOL amount is too low to sell any tokens.")) in
  let* finalTokenAmount := try_ (bigint_div tokenAmountWithDecimals 1000000) in
  let* _ := emit (ECalculationLog "Sell instruction calculation:"
    [solAmountLamports; virtualSolReserves; virtualTokenReserves; k;
     tokenAmountWithDecimals; finalTokenAmount]) in
  ret finalTokenAmount.

Definition sell_body (b : SellRequestBody) : M Response Response :=
  let* launchpadStateAddress :=
    required "launchpadStateAddress" (sell_launchpadStateAddress b) in
  let* seller := required "seller" (sell_seller b) in
  let* _ := reply_if
    (negb (truthy_field (sell_tokenAmount b))
     && negb (truthy_field (sell_solAmount b)))
    (json 400 (BError "Either tokenAmount or solAmount must be provided")) in
  let* _ := reply_if
    (truthy_field (sell_tokenAmount b) && truthy_field (sell_solAmount b))
    (json 400 (BError "Provide either tokenAmount or solAmount, not both")) in
  let* maybeAccount := fetch_state launchpadStateAddress in
  match maybeAccount with
  | None => reply (json 404 (BError "Launchpad state account not found"))
  | Some launchpadData =>
    match mint launchpadData, tokenVault launchpadData with
    | Some mintAddress, Some tokenVaultAddress =>
      let* finalTokenAmount :=
        match sell_solAmount b with
        | Some solAmount => sell_amount_from_sol launchpadData solAmount
        | None =>
          match sell_tokenAmount b with
          | Some tokenAmount => try_ (toBigInt tokenAmount)
          | None => throw "Cannot convert undefined to a BigInt"
          end
        end in
      let* solVault :=
        try_ (getProgramDerivedAddress W "sol_vault"
                launchpadStateAddress) in
      let* sellerTokenAccountAddress :=
        try_ (getAssociatedTokenAddress W mintAddress seller) in
      let* sellTokenData := try_ (encodeSellToken W finalTokenAmount) in
      reply (json 200 (BInstruction (LAUNCHPAD_PROGRAM_ADDRESS W)
        {| programId := LAUNCHPAD_PROGRAM_ADDRESS W;
           keys := sellTokenKeys launchpadStateAddress solVault
                     tokenVaultAddress mintAddress seller
                     sellerTokenAccountAddress;
           data := sellTokenData |}
        None))
    | _, _ =>
      reply (json 400
        (BError "Token mint or vault not initialized in launchpad data"))
    end
  end.

Definition post_sell (b : SellRequestBody) : list Event * Response :=
  handle on_throw_error (sell_body b).

(** *** POST /graduate *)

(** The request body of the graduate and the two SAFE routes. *)
Record StateRequestBody : Type := {
  req_launchpadStateAddress : option string
}.

(** [!body || !body.launchpadStateAddress] *)
Definition state_address (body : option StateRequestBody) : option string :=
  match body with
  | None => None
  | Some b =>
    if truthy_string (req_launchpadStateAddress b)
    then req_launchpadStateAddress b
    else None
  end.

(** The [catch] of the graduate and the SAFE routes. *)
Definition on_throw_failure (e : string) : Response := json 500 (BFailure e).

Definition graduate_body (body : option StateRequestBody)
  : M Response Response :=
  match state_address body with
  | None => reply (json 400 (BError "Missing field: launchpadStateAddress"))
  | Some launchpadStateAddress =>
    let* stateAddress := try_ (address W launchpadStateAddress) in
    let* maybeAccount := fetch_state stateAddress in
    match maybeAccount with
    | None => reply (json 404 (BError "Launchpad state account not found"))
    | Some launchpadData =>
      let* _ := reply_if
        (negb (LaunchpadStatus_eqb (status launchpadData) Transition))
        (json 400 (BError (String.append
           "Launchpad must be in Transition state to graduate. Current state: "
           (LaunchpadStatus_name (status launchpadData))))) in
      let platformAuthorityAddress := PLATFORM_AUTHORITY_PUBLIC_KEY W in
      let launchpadPlatformAuthority := platformAuthority launchpadData in
      let* _ := reply_if
        (negb (String.eqb launchpadPlatformAuthority platformAuthorityAddress))
        (json 403 (BAuthorityMismatch
           "Platform authority keypair does not match the launchpad platform authority"
           launchpadPlatformAuthority platformAuthorityAddress)) in
      let graduateData := encodeGraduateToSafe W in
      let* program := try_ (PublicKey W (LAUNCHPAD_PROGRAM_ADDRESS W)) in
      let* statePublicKey := try_ (PublicKey W launchpadStateAddress) in
      let instruction :=
        {| programId := program;
           keys := [ writable statePublicKey;
                     signer_writable (PLATFORM_AUTHORITY_PUBLIC_KEY W) ];
           data := graduateData |} in
      let* _ := emit EGetLatestBlockhash in
      let* recent := try_ (getLatestBlockhash W) in
      let* _ := emit (ESendAndConfirmTransaction instruction) in
      let* signature := try_ (sendAndConfirmTransaction W instruction) in
      reply (json 200 (BGraduated signature launchpadStateAddress
        "Transition" "Safe" (raise_info launchpadData)))
    end
  end.

Definition post_graduate (body : option StateRequestBody)
  : list Event * Response :=
  handle on_throw_failure (graduate_body body).

(** *** POST /generate-safe *)

Definition generate_safe_body (body : option StateRequestBody)
  : M Response Response :=
  match state_address body with
  | None => reply (json 400 (BError "Missing field: launchpadStateAddress"))
  | Some launchpadStateAddress =>
    let* stateAddress := try_ (address W launchpadStateAddress) in
    let* maybeAccount := fetch_state stateAddress in
    match maybeAccount with
    | None => reply (json 404 (BError "Launchpad state account not found"))
    | Some launchpadData =>
      let* _ := reply_if
        (negb (LaunchpadStatus_eqb (status launchpadData) Transition))
        (json 400 (BError (String.append
           "Launchpad must be in Transition state to generate SAFE. Current state: "
           (LaunchpadStatus_name (status launchpadData))))) in
      let blockchainData := raise_info launchpadData in
      let* _ := emit (EBridgeGenerateSafe launchpadStateAddress
                        blockchainData) in
      let* agentResponse :=
        try_ (bridgeGenerateSafe W launchpadStateAddress blockchainData) in
      match agentResponse with
      | BridgeNotOk errorText =>
        reply (json 500 (BErrorDetails
          "Failed to generate SAFE document via AI agent" errorText))
      | BridgeOk agentData =>
        reply (json 200 (BSafeGenerated launchpadStateAddress "Transition"
          agentData (raise_info launchpadData)))
      end
    end
  end.

Definition post_generate_safe (body : option StateRequestBody)
  : list Event * Response :=
  handle on_throw_failure (generate_safe_body body).

(** *** POST /check-and-generate-safe *)

(** [safeGeneratedCache], the module-level [Map] from launchpad address to
    the document generated for it; it lives across requests, so the handler
    takes the cache it finds and gives back the cache it leaves. *)
Definition SafeCache : Type := gmap string (string * string).

(** [docInfo.pdfUrl && docInfo.filename]: both present and non-empty. *)
Definition cacheable (doc : SafeDocument) : option (string * string) :=
  match pdfUrl doc, filename doc with
  | Some u, Some f =>
    if truthy_string (Some u) && truthy_string (Some f)
    then Some (u, f) else None
  | _, _ => None
  end.

Definition check_and_generate_safe_body (cache : SafeCache)
    (body : option StateRequestBody)
  : M (SafeCache * Response) (SafeCache * Response) :=
  match state_address body with
  | None =>
    reply (cache, json 400 (BError "Missing field: launchpadStateAddress"))
  | Some launchpadStateAddress =>
    match cache !! launchpadStateAddress with
    | Some cachedDoc =>
      reply (cache, json 200 (BCached
        "SAFE document already generated for this launchpad" cachedDoc))
    | None =>
      let* stateAddress := try_ (address W launchpadStateAddress) in
      let* maybeAccount := fetch_state stateAddress in
      match maybeAccount with
      | None =>
        reply (cache, json 404 (BError "Launchpad state account not found"))
      | Some launchpadData =>
        let statusName := LaunchpadStatus_name (status launchpadData) in
        if LaunchpadStatus_eqb (status launchpadData) Transition
           || LaunchpadStatus_eqb (status launchpadData) Safe
        then
          let blockchainData := raise_info launchpadData in
          let* _ := emit (EBridgeGenerateSafe launchpadStateAddress
                            blockchainData) in
          match bridgeGenerateSafe W launchpadStateAddress blockchainData with
          | Throw e =>
            reply (cache, json 500 (BErrorDetails
              "Failed to generate SAFE document" e))
          | Ok (BridgeNotOk errorText) =>
            reply (cache, json 500 (BErrorDetails
              "Failed to generate SAFE document"
              (String.append "Failed to generate SAFE: " errorText)))
          | Ok (BridgeOk safeData) =>
            let cache' :=
              match cacheable safeData with
              | Some docInfo => <[launchpadStateAddress := docInfo]> cache
              | None => cache
              end in
            reply (cache', json 200 (BCheckGenerated
              (String.append "SAFE document generated for "
                 (String.append statusName " status"))
              (LaunchpadStatus_eqb (status launchpadData) Transition)
              statusName safeData))
          end
        else
          reply (cache, json 200 (BNoAction
            (String.append "Status is "
               (String.append statusName ", no action needed"))
            false statusName))
      end
    end
  end.

Definition post_check_and_generate_safe (cache : SafeCache)
    (body : option StateRequestBody) : list Event * (SafeCache * Response) :=
  handle (fun e => (cache, json 500 (BFailure e)))
         (check_and_generate_safe_body cache body).

End Handlers.

(** The token amount the sell route encodes: computed from the requested
    SOL, or taken from the request. *)
Inductive sell_amount (W : Collaborators) (b : SellRequestBody)
    (st : LaunchpadState) (final : Z) : Prop :=
| sell_by_sol (amount : Amount) (n : Z) :
    sell_solAmount b = Some amount ->
    toBigInt W amount = Ok n ->
    virtualSolReserves st <> 0 ->
    virtualTokenReserves st <> 0 ->
    n * LAMPORTS_PER_SOL < virtualSolReserves st ->
    0 < Z.quot (n * LAMPORTS_PER_SOL * virtualTokenReserves st)
               (virtualSolReserves st - n * LAMPORTS_PER_SOL) ->
    final = Z.quot (Z.quot (n * LAMPORTS_PER_SOL * virtualTokenReserves st)
                      (virtualSolReserves st - n * LAMPORTS_PER_SOL))
                   1000000 ->
    sell_amount W b st final
| sell_by_tokens (amount : Amount) :
    sell_solAmount b = None ->
    sell_tokenAmount b = Some amount ->
    toBigInt W amount = Ok final ->
    sell_amount W b st final.

(** ** The account-layout decoder of the spot-price route *)

Module Decoder.

(** [new BN(bytes, 'le')]: the little-endian value of the bytes given; no
    bytes give 0. *)
Fixpoint BN_le (l : bytes) : Z :=
  match l with
  | nil => 0
  | b :: rest => Z.of_N (Byte.to_N b) + 256 * BN_le rest
  end.

(** [data.slice(start, end)]: the bytes from [start] up to [end], as many as
    the buffer has; never an error. *)
Definition slice (buf : bytes) (first last : Z) : bytes :=
  firstn (Z.to_nat (last - first)) (skipn (Z.to_nat first) buf).

(** [data.readUInt32LE(offset)]: out of range unless the four bytes are
    inside the buffer. *)
Definition readUInt32LE (buf : bytes) (offset : Z) : Try Z :=
  if offset + 4 <=? Z.of_nat (length buf)
  then Ok (BN_le (slice buf offset (offset + 4)))
  else Throw "ERR_OUT_OF_RANGE".

Record SpotPriceModel : Type := {
  tokensSoldRaw : Z;
  initialPriceLamports : Z;
  slope : Z
}.

Definition decodeLaunchpadState (buf : bytes) : Try SpotPriceModel :=
  let offset := 8 in
  let offset := offset + 32 in
  match readUInt32LE buf offset with
  | Throw e => Throw e
  | Ok len =>
    let offset := offset + (4 + len) in
    match readUInt32LE buf offset with
    | Throw e => Throw e
    | Ok len =>
      let offset := offset + (4 + len) in
      match readUInt32LE buf offset with
      | Throw e => Throw e
      | Ok len =>
        let offset := offset + (4 + len) in
        let offset := offset + 8 in
        let offset := offset + 8 in
        let initialPriceLamports := BN_le (slice buf offset (offset + 8)) in
        let offset := offset + 8 in
        let slope := BN_le (slice buf offset (offset + 16)) in
        let offset := offset + 16 in
        let offset := offset + 8 in
        let tokensSoldRaw := BN_le (slice buf offset (offset + 8)) in
        Ok {| tokensSoldRaw := tokensSoldRaw;
              initialPriceLamports := initialPriceLamports;
              slope := slope |}
      end
    end
  end.

End Decoder.

(** ** Networks that differ in what they hold *)

(** The collaborators [W] on a network where [fetch] answers the state
    fetches. *)
Definition with_fetch (W : Collaborators)
    (fetch : string -> Try (option LaunchpadState)) : Collaborators :=
  {| StringToBigInt := StringToBigInt W;
     LAUNCHPAD_PROGRAM_ADDRESS := LAUNCHPAD_PROGRAM_ADDRESS W;
     fetchMaybeLaunchpadState := fetch;
     getProgramDerivedAddress := getProgramDerivedAddress W;
     getAssociatedTokenAddress := getAssociatedTokenAddress W;
     encodeBuyToken := encodeBuyToken W;
     encodeSellToken := encodeSellToken W;
     encodeGraduateToSafe := encodeGraduateToSafe W;
     address := address W;
     PublicKey := PublicKey W;
     PLATFORM_AUTHORITY_PUBLIC_KEY := PLATFORM_AUTHORITY_PUBLIC_KEY W;
     getLatestBlockhash := getLatestBlockhash W;
     sendAndConfirmTransaction := sendAndConfirmTransaction W;
     bridgeGenerateSafe := bridgeGenerateSafe W |}.

(** Two states with the same virtual reserves, mint and token vault; [k]
    and every other field are free. *)
Definition same_reserves (s1 s2 : LaunchpadState) : Prop :=
  virtualSolReserves s1 = virtualSolReserves s2 /\
  virtualTokenReserves s1 = virtualTokenReserves s2 /\
  mint s1 = mint s2 /\
  tokenVault s1 = tokenVault s2.

(** Two answers to a state fetch that differ at most in such fields. *)
Inductive same_fetch : Try (option LaunchpadState) ->
    Try (option LaunchpadState) -> Prop :=
| same_fetch_throw (e : string) : same_fetch (Throw e) (Throw e)
| same_fetch_absent : same_fetch (Ok None) (Ok None)
| same_fetch_state (s1 s2 : LaunchpadState) :
    same_reserves s1 s2 -> same_fetch (Ok (Some s1)) (Ok (Some s2)).

(** The events of a trace other than the calculation log. *)
Definition effects (t : list Event) : list Event :=
  filter (fun e => negb (is_calculation e)) t.

(** ** A concrete deployment, for running the handlers *)

Module Sample.

Definition byte_of_Z (z : Z) : Byte.byte :=
  match Byte.of_N (Z.to_N (z mod 256)) with
  | Some b => b
  | None => Byte.x00
  end.

Fixpoint le_bytes (n : nat) (z : Z) : bytes :=
  match n with
  | O => nil
  | S n' => byte_of_Z z :: le_bytes n' (z / 256)
  end.

(** A [u64] encoder: out-of-range values are refused. *)
Definition encode_u64 (tag : Byte.byte) (z : Z) : Try bytes :=
  if (0 <=? z) && (z <? 2 ^ 64)
  then Ok (tag :: le_bytes 8 z)
  else Throw "value out of range".

Definition state (s : LaunchpadStatus) (x y : Z) (authority : string)
  : LaunchpadState :=
  {| status := s;
     virtualSolReserves := x;
     virtualTokenReserves := y;
     k := x * y;
     mint := Some "Mint";
     tokenVault := Some "TokenVault";
     solRaised := 0;
     tokensSold := 0;
     solRaiseTarget := 85000000000;
     tokensForSale := 800000000;
     platformAuthority := authority |}.

(** A network on which every address holds the account [st]. *)
Definition world (st : LaunchpadState) : Collaborators :=
  {| StringToBigInt := fun _ => Throw "SyntaxError: Cannot convert to a BigInt";
     LAUNCHPAD_PROGRAM_ADDRESS := "Launchpad";
     fetchMaybeLaunchpadState := fun _ => Ok (Some st);
     getProgramDerivedAddress := fun tag a =>
       Ok (String.append tag (String.append "/" a));
     getAssociatedTokenAddress := fun m owner =>
       Ok (String.append "ata/" (String.append m (String.append "/" owner)));
     encodeBuyToken := encode_u64 Byte.x01;
     encodeSellToken := encode_u64 Byte.x02;
     encodeGraduateToSafe := [Byte.x03];
     address := fun s => Ok s;
     PublicKey := fun s => Ok s;
     PLATFORM_AUTHORITY_PUBLIC_KEY := "Platform";
     getLatestBlockhash := Ok ("blockhash", 100);
     sendAndConfirmTransaction := fun _ => Ok "signature";
     bridgeGenerateSafe := fun _ _ =>
       Ok (BridgeOk {| pdfUrl := Some "safe.pdf";
                       filename := Some "safe.pdf" |}) |}.

(** The number 1 and the number 0 as binary64 values. *)
Definition one : Amount := ANumber (S754_finite false 4503599627370496 (-52)).
Definition zero : Amount := ANumber (S754_zero false).

Definition buy (amount : Amount) : BuyRequestBody :=
  {| buy_launchpadStateAddress := Some "State";
     buy_solAmount := Some amount;
     buy_buyer := Some "Buyer" |}.

Definition sell (tokens sol : option Amount) : SellRequestBody :=
  {| sell_launchpadStateAddress := Some "State";
     sell_tokenAmount := tokens;
     sell_solAmount := sol;
     sell_seller := Some "Seller" |}.

Definition request : option StateRequestBody :=
  Some {| req_launchpadStateAddress := Some "State" |}.

(** The instructions the routes build on this deployment. *)
Definition buy_instruction (payload : bytes) : Instruction :=
  {| programId := "Launchpad";
     keys := buyTokenKeys "State" "launchpad_authority/State"
               "sol_vault/State" "TokenVault" "Mint" "Buyer"
               "ata/Mint/Buyer";
     data := payload |}.

Definition sell_instruction (payload : bytes) : Instruction :=
  {| programId := "Launchpad";
     keys := sellTokenKeys "State" "sol_vault/State" "TokenVault" "Mint"
               "Seller" "ata/Mint/Seller";
     data := payload |}.

(** The launchpad of the specification's scenario, and one late in its
    curve with 20 tokens (scaled by [10^6]) of virtual token reserves. *)
Definition fresh : LaunchpadState :=
  state Trading 30000000000 1073000000000000 "Platform".
Definition depleted : LaunchpadState :=
  state Trading 30000000000 20000000 "Platform".

End Sample.

(** ** The integer square root kept beside the sell route *)

Module Sqrt.

(** The [while (x1 < x0)] loop of [bigIntSqrt], run for at most [fuel]
    rounds; [None] when the fuel is used up before the loop ends. *)
Fixpoint bigIntSqrt_loop (fuel : nat) (n x0 x1 : Z) : option (Try Z) :=
  if x1 <? x0 then
    match fuel with
    | O => None
    | S fuel' =>
      match bigint_div n x1 with
      | Throw e => Some (Throw e)
      | Ok q =>
        match bigint_div (q + x1) 2 with
        | Throw e => Some (Throw e)
        | Ok x1' => bigIntSqrt_loop fuel' n x1 x1'
        end
      end
    end
  else Some (Ok x0).

Definition bigIntSqrt (fuel : nat) (n : Z) : option (Try Z) :=
  if n <? 0
  then Some (Throw "Cannot calculate square root of a negative number")
  else if n =? 0 then Some (Ok 0)
  else
    match bigint_div n 2 with
    | Throw e => Some (Throw e)
    | Ok half => bigIntSqrt_loop fuel n n (half + 1)
    end.

End Sqrt.

(** ** POST /build of the campaign initialisation *)

Module Build.

Definition METADATA_PROGRAM_ID : string :=
  "metaqbxxUerdq28cj1RbAWkYQm3ybzjb6a8bt518x1s".
Definition SYSVAR_RENT_ID : string :=
  "SysvarRent111111111111111111111111111111111".
Definition PLATFORM_AUTHORITY : string :=
  "5FQZcz1ja7ohFxBgjfbhnSCg9Juxvqj6TNAaDuzjF2XX".
(** This route spells the token program address out. *)
Definition BUILD_TOKEN_PROGRAM_ID : string :=
  "TokenkegQfeZyiNwAJbNbGKPFXCWuBvf9Ss623VQ5DA".

(** A seed of an address derivation: the numbers of a [Uint8Array], or an
    address to be encoded. *)
Inductive Seed : Type :=
| SeedBytes (numbers : list Z)
| SeedAddress (a : string).

(** The fields handed to the initialize encoder. *)
Record InitializeArgs : Type := {
  arg_raiseTokenName : string;
  arg_raiseTokenSymbol : string;
  arg_uri : string;
  arg_totalSupply : Z;
  arg_tokensForSale : Z;
  arg_initialPriceLamportsPerToken : Z;
  arg_solRaiseTarget : Z;
  arg_platformAuthority : string
}.

(** What the route calls besides [toBigInt]: the address derivation for a
    program and its seeds (encoding a seed address may throw) and the two
    encoders of the generated client. *)
Record Library : Type := {
  derive : string -> list Seed -> Try string;
  encodeInitialize : InitializeArgs -> Try bytes;
  encodeCreateToken : bytes
}.

Record BuildRequestBody : Type := {
  authority : option string;
  launchpadState : option string;
  mintKey : option string;
  tokenVaultKey : option string;
  raiseTokenName : option string;
  raiseTokenSymbol : option string;
  raiseTokenUri : option string;
  totalSupply : option Amount;
  tokensForSaleField : option Amount;
  initialPriceLamportsPerToken : option Amount;
  solRaiseTargetField : option Amount
}.

(** The answers of the route: an error response, or the two instructions. *)
Inductive Answer : Type :=
| Failed (r : Response)
| Built (program : string) (initialize createToken : Instruction).

Definition needed {A} (name : string) (field : option A) : M Answer A :=
  match field with
  | None =>
    reply (Failed (json 400 (BError (String.append "Missing field: " name))))
  | Some v => ret v
  end.

Definition initializeKeys (launchpadState authority : string)
  : list AccountMeta :=
  [ signer_writable launchpadState;
    signer_writable authority;
    readonly SYSTEM_PROGRAM_ID ].

Definition createTokenKeys (launchpadState launchpadAuthority mint
    metadataAccount tokenVault authority : string) : list AccountMeta :=
  [ writable launchpadState;
    readonly launchpadAuthority;
    signer_writable mint;
    writable metadataAccount;
    signer_writable tokenVault;
    signer_writable authority;
    readonly SYSTEM_PROGRAM_ID;
    readonly BUILD_TOKEN_PROGRAM_ID;
    readonly SYSVAR_RENT_ID;
    readonly METADATA_PROGRAM_ID ].

Section Route.

Variable W : Collaborators.
Variable L : Library.

Definition getMetadataPDA (mint : string) : Try string :=
  derive L METADATA_PROGRAM_ID
    [ SeedBytes [109; 101; 116; 97; 100; 97; 116; 97];
      SeedAddress METADATA_PROGRAM_ID;
      SeedAddress mint ].

Definition build_body (b : BuildRequestBody) : M Answer Answer :=
  let* authority := needed "authority" (authority b) in
  let* launchpadState := needed "launchpadState" (launchpadState b) in
  let* mint := needed "mint" (mintKey b) in
  let* tokenVault := needed "tokenVault" (tokenVaultKey b) in
  let* raiseTokenName := needed "raiseTokenName" (raiseTokenName b) in
  let* raiseTokenSymbol := needed "raiseTokenSymbol" (raiseTokenSymbol b) in
  let* raiseTokenUri := needed "raiseTokenUri" (raiseTokenUri b) in
  let* totalSupply := needed "totalSupply" (totalSupply b) in
  let* tokensForSale := needed "tokensForSale" (tokensForSaleField b) in
  let* initialPriceLamportsPerToken :=
    needed "initialPriceLamportsPerToken" (initialPriceLamportsPerToken b) in
  let* solRaiseTarget := needed "solRaiseTarget" (solRaiseTargetField b) in
  let* totalSupplyBig := try_ (toBigInt W totalSupply) in
  let* tokensForSaleBig := try_ (toBigInt W tokensForSale) in
  let* initialPriceBig := try_ (toBigInt W initialPriceLamportsPerToken) in
  let* solRaiseTargetBig := try_ (toBigInt W solRaiseTarget) in
  let* initializeData := try_ (encodeInitialize L
    {| arg_raiseTokenName := raiseTokenName;
       arg_raiseTokenSymbol := raiseTokenSymbol;
       arg_uri := raiseTokenUri;
       arg_totalSupply := totalSupplyBig;
       arg_tokensForSale := tokensForSaleBig;
       arg_initialPriceLamportsPerToken := initialPriceBig;
       arg_solRaiseTarget := solRaiseTargetBig;
       arg_platformAuthority := PLATFORM_AUTHORITY |}) in
  let* launchpadAuthority := try_ (derive L (LAUNCHPAD_PROGRAM_ADDRESS W)
    [ SeedBytes [108; 97; 117; 110; 99; 104; 112; 97; 100; 95; 97; 117; 116;
                 104; 111; 114; 105; 116; 121];
      SeedAddress launchpadState ]) in
  let* metadataAccount := try_ (getMetadataPDA mint) in
  let createTokenData := encodeCreateToken L in
  reply (Built (LAUNCHPAD_PROGRAM_ADDRESS W)
    {| programId := LAUNCHPAD_PROGRAM_ADDRESS W;
       keys := initializeKeys launchpadState authority;
       data := initializeData |}
    {| programId := LAUNCHPAD_PROGRAM_ADDRESS W;
       keys := createTokenKeys launchpadState launchpadAuthority mint
                 metadataAccount tokenVault authority;
       data := createTokenData |}).

Definition post_build (b : BuildRequestBody) : list Event * Answer :=
  handle (fun e => Failed (json 500 (BError e))) (build_body b).

End Route.

(** The bytes of a seed tag written as text, as [Buffer.from(tag)] gives
    them for the buy and sell routes. *)
Definition tag_numbers (tag : string) : list Z :=
  map (fun c => Z.of_N (Ascii.N_of_ascii c)) (list_ascii_of_string tag).

End Build.

(** ** GET /current-price/:launchpadPubkey *)

Module Price.
Import Decoder.

Definition TOKEN_MULTIPLIER : Z := 10 ^ 6.

(** What the route calls: [connection.getAccountInfo], giving the data of
    the account when there is one, and the binary64 computation
    [parseFloat(lamports.toString()) / LAMPORTS_PER_SOL]. *)
Record Library : Type := {
  getAccountInfo : string -> Try (option bytes);
  lamportsToSol : Z -> spec_float
}.

(** The [debug.atomic] block of the answer. *)
Record Breakdown : Type := {
  dbg_initialPriceLamports : Z;
  dbg_tokensSoldRaw : Z;
  dbg_slope : Z;
  dbg_priceIncreaseLamports : Z;
  dbg_currentPriceAtomicLamports : Z
}.

Inductive Answer : Type :=
| PriceError (code : Z) (error : string)
| PriceOk (currentPriceSol : spec_float) (currentPriceLamports : Z)
          (atomic : Breakdown).

Definition failed : Answer :=
  PriceError 500 "Failed to fetch live price from the blockchain.".

Definition get_current_price (W : Collaborators) (L : Library)
    (launchpadPubkey : string) : Answer :=
  match launchpadPubkey with
  | EmptyString => PriceError 400 "launchpadPubkey is required"
  | _ =>
    match PublicKey W launchpadPubkey with
    | Throw _ => failed
    | Ok key =>
      match getAccountInfo L key with
      | Throw _ => failed
      | Ok None => PriceError 404 "Launchpad account not found on-chain."
      | Ok (Some accountData) =>
        match decodeLaunchpadState accountData with
        | Throw _ => failed
        | Ok decoded =>
          let priceIncrease := slope decoded * tokensSoldRaw decoded in
          let currentPriceAtomicLamports :=
            initialPriceLamports decoded + priceIncrease in
          let currentPriceFullTokenLamports :=
            currentPriceAtomicLamports * TOKEN_MULTIPLIER in
          PriceOk (lamportsToSol L currentPriceFullTokenLamports)
            currentPriceFullTokenLamports
            {| dbg_initialPriceLamports := initialPriceLamports decoded;
               dbg_tokensSoldRaw := tokensSoldRaw decoded;
               dbg_slope := slope decoded;
               dbg_priceIncreaseLamports := priceIncrease;
               dbg_currentPriceAtomicLamports :=
                 currentPriceAtomicLamports |}
        end
      end
    end
  end.

End Price.

(** ** The account layout the decoder walks *)

Module Layout.

(** The [n] little-endian bytes of [z]. *)
Definition le (n : nat) (z : Z) : bytes := Sample.le_bytes n z.

(** A string field: its length in four bytes, then its bytes. *)
Definition text (s : bytes) : bytes :=
  (le 4 (Z.of_nat (length s)) ++ s)%list.

(** The fields of a launchpad account in the order the decoder skips and
    reads them: discriminator, authority, the three strings, total supply,
    tokens for sale, initial price, slope, SOL raised, tokens sold, and
    whatever follows. *)
Record Account : Type := {
  discriminator : bytes;
  authorityKey : bytes;
  name : bytes;
  symbol : bytes;
  uri : bytes;
  supply : Z;
  forSale : Z;
  initialPrice : Z;
  priceSlope : Z;
  raised : Z;
  sold : Z;
  rest : bytes
}.

Definition encode (a : Account) : bytes :=
  (discriminator a ++ authorityKey a
   ++ text (name a) ++ text (symbol a) ++ text (uri a)
   ++ le 8 (supply a) ++ le 8 (forSale a)
   ++ le 8 (initialPrice a) ++ le 16 (priceSlope a)
   ++ le 8 (raised a) ++ le 8 (sold a) ++ rest a)%list.

(** The sizes and ranges the layout fixes. *)
Definition well_formed (a : Account) : Prop :=
  length (discriminator a) = 8%nat /\
  length (authorityKey a) = 32%nat /\
  Z.of_nat (length (name a)) < 2 ^ 32 /\
  Z.of_nat (length (symbol a)) < 2 ^ 32 /\
  Z.of_nat (length (uri a)) < 2 ^ 32 /\
  0 <= initialPrice a < 2 ^ 64 /\
  0 <= priceSlope a < 2 ^ 128 /\
  0 <= sold a < 2 ^ 64.

End Layout.

(** ** The display helpers for token data *)

Module Format.

(** A string is the list of its code units. *)
Definition text : Type := list Ascii.ascii.

(** An index of [String.prototype.slice] brought into the string: counted
    from the end when negative. *)
Definition clamp (len i : Z) : Z :=
  if i <? 0 then Z.max (len + i) 0 else Z.min i len.

(** [s.slice(start, stop)]; without [stop], up to the end. *)
Definition slice (s : text) (start : Z) (stop : option Z) : text :=
  let len := Z.of_nat (length s) in
  let from := clamp len start in
  let to :=
    match stop with
    | None => len
    | Some e => clamp len e
    end in
  firstn (Z.to_nat (to - from)) (skipn (Z.to_nat from) s).

Definition dots : text := list_ascii_of_string "...".

(** [formatTokenAddress]; a missing or empty address is falsy. *)
Definition formatTokenAddress (address : option text) : text :=
  match address with
  | None => list_ascii_of_string "N/A"
  | Some nil => list_ascii_of_string "N/A"
  | Some a => (slice a 0 (Some 6) ++ dots ++ slice a (-4) None)%list
  end.

(** [formatTokenName]; [maxLength] is 20 when it is not given. *)
Definition formatTokenName (description : option text)
    (maxLength : option Z) : text :=
  let maxLength :=
    match maxLength with
    | None => 20
    | Some m => m
    end in
  match description with
  | None => list_ascii_of_string "Unknown"
  | Some nil => list_ascii_of_string "Unknown"
  | Some d =>
    if maxLength <? Z.of_nat (length d)
    then (slice d 0 (Some maxLength) ++ dots)%list
    else d
  end.

End Format.

(** ** More of the concrete deployment *)

Module Demo.

(** Derivation and encoders that build readable values. *)
Definition seed_text (s : Build.Seed) : string :=
  match s with
  | Build.SeedBytes numbers =>
    string_of_list_ascii
      (map (fun z => Ascii.ascii_of_N (Z.to_N z)) numbers)
  | Build.SeedAddress a => a
  end.

Definition library : Build.Library :=
  {| Build.derive := fun program seeds =>
       Ok (fold_left (fun acc s =>
             String.append acc (String.append "/" (seed_text s)))
           seeds program);
     Build.encodeInitialize := fun args =>
       Sample.encode_u64 Byte.x00 (Build.arg_totalSupply args);
     Build.encodeCreateToken := [Byte.x04] |}.

Definition build_request : Build.BuildRequestBody :=
  {| Build.authority := Some "Creator";
     Build.launchpadState := Some "State";
     Build.mintKey := Some "Mint";
     Build.tokenVaultKey := Some "TokenVault";
     Build.raiseTokenName := Some "Token";
     Build.raiseTokenSymbol := Some "TKN";
     Build.raiseTokenUri := Some "https://example.com/token.json";
     Build.totalSupply := Some (ABigInt 1000000000);
     Build.tokensForSaleField := Some (ABigInt 800000000);
     Build.initialPriceLamportsPerToken := Some (ABigInt 28);
     Build.solRaiseTargetField := Some (ABigInt 85000000000) |}.

(** An account with empty strings, initial price 28, slope 3 and 1000
    tokens sold. *)
Definition account : Layout.Account :=
  {| Layout.discriminator := repeat Byte.x07 8;
     Layout.authorityKey := repeat Byte.x09 32;
     Layout.name := [Byte.x41; Byte.x42];
     Layout.symbol := [Byte.x41];
     Layout.uri := nil;
     Layout.supply := 1000000000;
     Layout.forSale := 800000000;
     Layout.initialPrice := 28;
     Layout.priceSlope := 3;
     Layout.raised := 5;
     Layout.sold := 1000;
     Layout.rest := [Byte.xff] |}.

Definition price_library (held : option bytes) : Price.Library :=
  {| Price.getAccountInfo := fun _ => Ok held;
     Price.lamportsToSol := fun _ => S754_zero false |}.

(** The sample network, with a bridge that answers [doc]. *)
Definition world_with_bridge (st : LaunchpadState) (doc : SafeDocument)
  : Collaborators :=
  {| StringToBigInt := StringToBigInt (Sample.world st);
     LAUNCHPAD_PROGRAM_ADDRESS := LAUNCHPAD_PROGRAM_ADDRESS (Sample.world st);
     fetchMaybeLaunchpadState := fetchMaybeLaunchpadState (Sample.world st);
     getProgramDerivedAddress := getProgramDerivedAddress (Sample.world st);
     getAssociatedTokenAddress :=
       getAssociatedTokenAddress (Sample.world st);
     encodeBuyToken := encodeBuyToken (Sample.world st);
     encodeSellToken := encodeSellToken (Sample.world st);
     encodeGraduateToSafe := encodeGraduateToSafe (Sample.world st);
     address := address (Sample.world st);
     PublicKey := PublicKey (Sample.world st);
     PLATFORM_AUTHORITY_PUBLIC_KEY :=
       PLATFORM_AUTHORITY_PUBLIC_KEY (Sample.world st);
     getLatestBlockhash := getLatestBlockhash (Sample.world st);
     sendAndConfirmTransaction :=
       sendAndConfirmTransaction (Sample.world st);
     bridgeGenerateSafe := fun _ _ => Ok (BridgeOk doc) |}.

Definition graduated : LaunchpadState :=
  Sample.state Safe 30000000000 1073000000000000 "Platform".

End Demo.

(** ** The document cache under overlapping requests *)

(** The check-and-generate-safe route reads [safeGeneratedCache] once, at
    its start ([get], line 35), and writes it at most once ([set],
    line 111), after the awaits of the state fetch and of the bridge call
    (lines 48, 66, 100). Other requests run during these awaits, so the
    map that [set] writes need not be the map that [get] read. Here the
    route is given the cache it sees at its lookup and answers with the
    store it asks for, to be carried out on the cache of that later
    moment. *)
Module Overlap.

(** [safeGeneratedCache.set(launchpadStateAddress, docInfo)], or no call. *)
Definition Store : Type := option (string * (string * string)).

(** The call carried out on the cache as it is by then: [Map.set] adds the
    entry, or replaces the one the key has. *)
Definition store (w : Store) (current : SafeCache) : SafeCache :=
  match w with
  | Some (launchpadStateAddress, docInfo) =>
    <[launchpadStateAddress := docInfo]> current
  | None => current
  end.

Section Route.

Variable W : Collaborators.

Definition check_and_generate_safe_phases (seen : SafeCache)
    (body : option StateRequestBody)
  : M (Store * Response) (Store * Response) :=
  match state_address body with
  | None =>
    reply (None, json 400 (BError "Missing field: launchpadStateAddress"))
  | Some launchpadStateAddress =>
    match seen !! launchpadStateAddress with
    | Some cachedDoc =>
      reply (None, json 200 (BCached
        "SAFE document already generated for this launchpad" cachedDoc))
    | None =>
      let* stateAddress := try_ (address W launchpadStateAddress) in
      let* maybeAccount := fetch_state W stateAddress in
      match maybeAccount with
      | None =>
        reply (None, json 404 (BError "Launchpad state account not found"))
      | Some launchpadData =>
        let statusName := LaunchpadStatus_name (status launchpadData) in
        if LaunchpadStatus_eqb (status launchpadData) Transition
           || LaunchpadStatus_eqb (status launchpadData) Safe
        then
          let blockchainData := raise_info launchpadData in
          let* _ := emit (EBridgeGenerateSafe launchpadStateAddress
                            blockchainData) in
          match bridgeGenerateSafe W launchpadStateAddress blockchainData with
          | Throw e =>
            reply (None, json 500 (BErrorDetails
              "Failed to generate SAFE document" e))
          | Ok (BridgeNotOk errorText) =>
            reply (None, json 500 (BErrorDetails
              "Failed to generate SAFE document"
              (String.append "Failed to generate SAFE: " errorText)))
          | Ok (BridgeOk safeData) =>
            let asked :=
              match cacheable safeData with
              | Some docInfo => Some (launchpadStateAddress, docInfo)
              | None => None
              end in
            reply (asked, json 200 (BCheckGenerated
              (String.append "SAFE document generated for "
                 (String.append statusName " status"))
              (LaunchpadStatus_eqb (status launchpadData) Transition)
              statusName safeData))
          end
        else
          reply (None, json 200 (BNoAction
            (String.append "Status is "
               (String.append statusName ", no action needed"))
            false statusName))
      end
    end
  end.

Definition post_check_and_generate_safe_overlapping (seen : SafeCache)
    (body : option StateRequestBody) : list Event * (Store * Response) :=
  handle (fun e => (None, json 500 (BFailure e)))
         (check_and_generate_safe_phases seen body).

End Route.

(** Two requests that overlap: both look the cache up before either
    stores, on the networks [W1] and [W2] they meet; the stores are
    carried out in the order first, second. *)
Definition two_overlapping (W1 W2 : Collaborators) (cache : SafeCache)
    (first second : option StateRequestBody) : SafeCache :=
  store (fst (snd (post_check_and_generate_safe_overlapping W2 cache second)))
    (store (fst (snd (post_check_and_generate_safe_overlapping W1 cache
                        first)))
       cache).

End Overlap.

(** ** The required fields of the build route *)

Module BuildFields.

(** Whether a request has a field: [k in body] and not [undefined]. *)
Definition present {A} (field : option A) : bool :=
  match field with
  | Some _ => true
  | None => false
  end.

(** The [required] array of the build route (lines 229-241), each name with
    whether the request has the field. *)
Definition required_fields (b : Build.BuildRequestBody)
  : list (string * bool) :=
  [ ("authority", present (Build.authority b));
    ("launchpadState", present (Build.launchpadState b));
    ("mint", present (Build.mintKey b));
    ("tokenVault", present (Build.tokenVaultKey b));
    ("raiseTokenName", present (Build.raiseTokenName b));
    ("raiseTokenSymbol", present (Build.raiseTokenSymbol b));
    ("raiseTokenUri", present (Build.raiseTokenUri b));
    ("totalSupply", present (Build.totalSupply b));
    ("tokensForSale", present (Build.tokensForSaleField b));
    ("initialPriceLamportsPerToken",
     present (Build.initialPriceLamportsPerToken b));
    ("solRaiseTarget", present (Build.solRaiseTargetField b)) ].

(** The name at which a walk through the array in its order stops. *)
Definition first_missing (b : Build.BuildRequestBody) : option string :=
  match find (fun field => negb (snd field)) (required_fields b) with
  | Some field => Some (fst field)
  | None => None
  end.

End BuildFields.

(** ** Laws of handler computations *)

Section Laws.

Context {R A B : Type}.

Lemma bind_ret (a : A) (f : A -> M R B) : bind (ret a) f = f a.
Proof. unfold bind, ret. now destruct (f a). Qed.

Lemma bind_reply (r : R) (f : A -> M R B) : bind (reply r) f = reply r.
Proof. reflexivity. Qed.

Lemma bind_throw (e : string) (f : A -> M R B) : bind (throw e) f = throw e.
Proof. reflexivity. Qed.

Lemma bind_emit (e : Event) (f : unit -> M R B) :
  bind (emit e) f = after e (f tt).
Proof. unfold bind, emit, after. now destruct (f tt). Qed.

Lemma bind_after (e : Event) (m : M R A) (f : A -> M R B) :
  bind (after e m) f = after e (bind m f).
Proof.
  destruct m as [t [a | r | x]]; unfold after, bind; cbn; try reflexivity.
  now destruct (f a).
Qed.

Lemma try_Ok (a : A) : try_ (R := R) (Ok a) = ret a.
Proof. reflexivity. Qed.

Lemma try_Throw (e : string) : try_ (R := R) (A := A) (Throw e) = throw e.
Proof. reflexivity. Qed.

Lemma reply_if_true (r : R) : reply_if true r = reply r.
Proof. reflexivity. Qed.

Lemma reply_if_false (r : R) : reply_if false r = ret tt.
Proof. reflexivity. Qed.

Lemma bind_assoc {C} (m : M R A) (f : A -> M R B) (g : B -> M R C) :
  bind (bind m f) g = bind m (fun a => bind (f a) g).
Proof.
  destruct m as [t [a | r | x]]; cbn; try reflexivity.
  destruct (f a) as [t1 [b | r | x]]; cbn; try reflexivity.
  destruct (g b) as [t2 s]. now rewrite app_assoc.
Qed.

End Laws.

Section HandleLaws.

Context {R : Type} (h : string -> R).

Lemma handle_reply (r : R) : handle h (reply r) = (nil, r).
Proof. reflexivity. Qed.

Lemma handle_ret (r : R) : handle h (ret r) = (nil, r).
Proof. reflexivity. Qed.

Lemma handle_throw (e : string) : handle h (throw e) = (nil, h e).
Proof. reflexivity. Qed.

Lemma handle_after (e : Event) (m : M R R) :
  handle h (after e m) = (e :: fst (handle h m), snd (handle h m)).
Proof. now destruct m as [t [a | r | x]]. Qed.

End HandleLaws.

(** Run a handler as far as the facts at hand decide it. *)
Ltac run_laws :=
  rewrite ?bind_assoc, ?bind_ret, ?bind_reply, ?bind_throw, ?bind_emit,
    ?bind_after, ?try_Ok, ?try_Throw, ?reply_if_true, ?reply_if_false,
    ?handle_reply, ?handle_ret, ?handle_throw, ?handle_after.
Ltac run_laws_in H :=
  rewrite ?bind_assoc, ?bind_ret, ?bind_reply, ?bind_throw, ?bind_emit,
    ?bind_after, ?try_Ok, ?try_Throw, ?reply_if_true, ?reply_if_false,
    ?handle_reply, ?handle_ret, ?handle_throw, ?handle_after in H.
Ltac run := repeat (progress run_laws); cbn [fst snd toBigInt].
Ltac run_in H :=
  repeat (progress run_laws_in H); cbn [fst snd toBigInt] in H.

(** Name the message literals of the goal and the hypotheses, to keep the
    terms small while a handler is run. *)
Ltac name_message c s :=
  let m := fresh "message" in set (m := String c s) in *.
Ltac name_messages :=
  repeat match goal with
  | |- context [BError (String ?c ?s)] => name_message c s
  | |- context [BErrorDetails (String ?c ?s)] => name_message c s
  | |- context [BAuthorityMismatch (String ?c ?s)] => name_message c s
  | |- context [throw (String ?c ?s)] => name_message c s
  | |- context [ECalculationLog (String ?c ?s)] => name_message c s
  | |- context [String.append (String ?c ?s)] => name_message c s
  | |- context [BCached (String ?c ?s)] => name_message c s
  | H : context [BError (String ?c ?s)] |- _ => name_message c s
  | H : context [BErrorDetails (String ?c ?s)] |- _ => name_message c s
  | H : context [BAuthorityMismatch (String ?c ?s)] |- _ => name_message c s
  | H : context [throw (String ?c ?s)] |- _ => name_message c s
  | H : context [ECalculationLog (String ?c ?s)] |- _ => name_message c s
  | H : context [String.append (String ?c ?s)] |- _ => name_message c s
  | H : context [BCached (String ?c ?s)] |- _ => name_message c s
  end.

(** Decide the next test of the handler run in hypothesis [H]. *)
Ltac branch H :=
  match type of H with
  | context [handle _ (bind (required _ ?o) _)] =>
      destruct o eqn:?; unfold required in H
  | context [handle _ (bind (try_ ?x) _)] => destruct x eqn:?
  | context [handle _ (bind (reply_if ?c _) _)] => destruct c eqn:?
  | context [handle _ (bind (match ?o with _ => _ end) _)] =>
      destruct o eqn:?
  | context [handle _ (match ?o with _ => _ end)] => destruct o eqn:?
  end;
  run_in H.

(** A finished run that did not answer with an instruction. *)
Ltac no_instruction H Hix :=
  solve [inversion H; subst; cbn in Hix; discriminate Hix].

(** ** Arithmetic of the two quotients *)

Lemma bigint_div_Ok (a b q : Z) :
  bigint_div a b = Ok q <-> b <> 0 /\ q = Z.quot a b.
Proof.
  unfold bigint_div. destruct (Z.eqb_spec b 0) as [E | E]; split.
  - discriminate.
  - intros [H _]. contradiction.
  - intros H. injection H as <-. now split.
  - intros [_ ->]. reflexivity.
Qed.

Lemma bigint_div_nonzero (a b : Z) :
  b <> 0 -> bigint_div a b = Ok (Z.quot a b).
Proof. intros H. now apply bigint_div_Ok. Qed.

Lemma reserves_test (x y : Z) :
  (x =? 0) || (y =? 0) = false <-> x <> 0 /\ y <> 0.
Proof.
  rewrite orb_false_iff, !Z.eqb_neq. tauto.
Qed.

(** Bigint division truncates toward zero: the magnitude of the quotient is
    the integer part of the quotient of the magnitudes. *)
Lemma quot_truncates (a b : Z) :
  b <> 0 ->
  Z.abs (Z.quot a b) * Z.abs b <= Z.abs a
    < (Z.abs (Z.quot a b) + 1) * Z.abs b.
Proof.
  intros Hb. rewrite <- (Z.quot_abs a b Hb).
  assert (P : 0 < Z.abs b) by now apply Z.abs_pos.
  pose proof (Z.quot_rem' (Z.abs a) (Z.abs b)) as E.
  pose proof (Z.rem_bound_pos (Z.abs a) (Z.abs b) (Z.abs_nonneg a) P) as Bd.
  nia.
Qed.

(** ** The buy route *)

(** A buy request that answers with an instruction went through every step
    of the route. *)
Lemma buy_instruction_inv (W : Collaborators) (b : BuyRequestBody)
    (t : list Event) (r : Response) (ix : Instruction) :
  post_buy W b = (t, r) ->
  instruction_of r = Some ix ->
  exists addr amount buyer st m v n authority vault account payload,
    b = {| buy_launchpadStateAddress := Some addr;
           buy_solAmount := Some amount;
           buy_buyer := Some buyer |} /\
    fetchMaybeLaunchpadState W addr = Ok (Some st) /\
    mint st = Some m /\ tokenVault st = Some v /\
    toBigInt W amount = Ok n /\
    virtualSolReserves st <> 0 /\ virtualTokenReserves st <> 0 /\
    virtualSolReserves st + n * LAMPORTS_PER_SOL <> 0 /\
    0 < Z.quot (n * LAMPORTS_PER_SOL * virtualTokenReserves st)
               (virtualSolReserves st + n * LAMPORTS_PER_SOL) /\
    getProgramDerivedAddress W "launchpad_authority" addr = Ok authority /\
    getProgramDerivedAddress W "sol_vault" addr = Ok vault /\
    getAssociatedTokenAddress W m buyer = Ok account /\
    encodeBuyToken W
      (Z.quot (Z.quot (n * LAMPORTS_PER_SOL * virtualTokenReserves st)
                      (virtualSolReserves st + n * LAMPORTS_PER_SOL))
              1000000) = Ok payload /\
    ix = {| programId := LAUNCHPAD_PROGRAM_ADDRESS W;
            keys := buyTokenKeys addr authority vault v m buyer account;
            data := payload |} /\
    r = json 200 (BInstruction (LAUNCHPAD_PROGRAM_ADDRESS W) ix
          (Some (Z.quot (n * LAMPORTS_PER_SOL * virtualTokenReserves st)
                        (virtualSolReserves st + n * LAMPORTS_PER_SOL),
                 Z.quot (Z.quot (n * LAMPORTS_PER_SOL * virtualTokenReserves st)
                           (virtualSolReserves st + n * LAMPORTS_PER_SOL))
                        1000000))).
Proof.
  intros Hrun Hix. destruct b as [oa os ob].
  unfold post_buy, buy_body, fetch_state in Hrun.
  cbn [buy_launchpadStateAddress buy_solAmount buy_buyer] in Hrun.
  name_messages. run_in Hrun.
  repeat (branch Hrun; try no_instruction Hrun Hix).
  injection Hrun as <- <-. cbn in Hix. injection Hix as <-.
  match goal with H : _ || _ = false |- _ =>
    apply reserves_test in H; destruct H end.
  match goal with H : buy_tokenAmountWithDecimals _ _ _ = Ok _ |- _ =>
    apply bigint_div_Ok in H; destruct H as [? ->] end.
  match goal with H : bigint_div _ 1000000 = Ok _ |- _ =>
    apply bigint_div_Ok in H; destruct H as [_ ->] end.
  match goal with H : (_ <=? 0) = false |- _ => apply Z.leb_gt in H end.
  do 11 eexists. repeat split; eauto.
Qed.

(** The buy route, run on a request that passes every check. *)
Lemma buy_runs (W : Collaborators) (addr buyer m v authority vault account
    : string) (amount : Amount) (st : LaunchpadState) (n x y dx : Z)
    (payload : bytes) :
  fetchMaybeLaunchpadState W addr = Ok (Some st) ->
  mint st = Some m -> tokenVault st = Some v ->
  virtualSolReserves st = x -> virtualTokenReserves st = y ->
  toBigInt W amount = Ok n -> dx = n * 1000000000 ->
  x <> 0 -> y <> 0 -> x + dx <> 0 ->
  0 < Z.quot (dx * y) (x + dx) ->
  getProgramDerivedAddress W "launchpad_authority" addr = Ok authority ->
  getProgramDerivedAddress W "sol_vault" addr = Ok vault ->
  getAssociatedTokenAddress W m buyer = Ok account ->
  encodeBuyToken W (Z.quot (Z.quot (dx * y) (x + dx)) 1000000) = Ok payload ->
  post_buy W {| buy_launchpadStateAddress := Some addr;
                buy_solAmount := Some amount;
                buy_buyer := Some buyer |}
  = ([ EFetchLaunchpadState addr;
       ECalculationLog "Buy instruction calculation:"
         [dx; x; y; k st; Z.quot (dx * y) (x + dx);
          Z.quot (Z.quot (dx * y) (x + dx)) 1000000] ],
     json 200 (BInstruction (LAUNCHPAD_PROGRAM_ADDRESS W)
       {| programId := LAUNCHPAD_PROGRAM_ADDRESS W;
          keys := buyTokenKeys addr authority vault v m buyer account;
          data := payload |}
       (Some (Z.quot (dx * y) (x + dx),
              Z.quot (Z.quot (dx * y) (x + dx)) 1000000)))).
Proof.
  intros Hfetch Hmint Hvault Hx Hy Hn Hdx Hx0 Hy0 Hden Hpos Ha Hs Ht He.
  unfold post_buy, buy_body, fetch_state, required.
  cbn [buy_launchpadStateAddress buy_solAmount buy_buyer].
  name_messages. run. rewrite Hfetch. run. rewrite Hmint, Hvault. run.
  rewrite Hn, Hx, Hy. run. fold LAMPORTS_PER_SOL in Hdx. rewrite <- Hdx.
  rewrite (proj2 (reserves_test x y) (conj Hx0 Hy0)). run.
  unfold buy_tokenAmountWithDecimals.
  rewrite (bigint_div_nonzero _ _ Hden). run.
  rewrite (proj2 (Z.leb_gt _ _) Hpos). run.
  rewrite bigint_div_nonzero by discriminate. run.
  rewrite Ha. run. rewrite Hs. run. rewrite Ht. run. rewrite He. run.
  reflexivity.
Qed.

(** C1. A buy whose checks pass computes the scaled token amount
    [(dx * y) / (x + dx)] by bigint division, which truncates toward zero,
    and places that amount divided by [10^6] in the instruction; every buy
    that answers with an instruction carries these two amounts; with
    [x = 30_000_000_000], [y = 1_073_000_000_000_000] and
    [dx = 1_000_000_000] they are [34_612_903_225_806] and [34_612_903]. *)
Theorem buy_amount_is_truncated_quotient :
  (forall (W : Collaborators) (addr buyer m v authority vault account
      : string) (amount : Amount) (st : LaunchpadState) (n x y dx : Z)
      (payload : bytes),
    fetchMaybeLaunchpadState W addr = Ok (Some st) ->
    mint st = Some m -> tokenVault st = Some v ->
    virtualSolReserves st = x -> virtualTokenReserves st = y ->
    toBigInt W amount = Ok n -> dx = n * 1000000000 ->
    x <> 0 -> y <> 0 -> x + dx <> 0 ->
    0 < Z.quot (dx * y) (x + dx) ->
    getProgramDerivedAddress W "launchpad_authority" addr = Ok authority ->
    getProgramDerivedAddress W "sol_vault" addr = Ok vault ->
    getAssociatedTokenAddress W m buyer = Ok account ->
    encodeBuyToken W (Z.quot (Z.quot (dx * y) (x + dx)) 1000000)
      = Ok payload ->
    snd (post_buy W {| buy_launchpadStateAddress := Some addr;
                       buy_solAmount := Some amount;
                       buy_buyer := Some buyer |})
    = json 200 (BInstruction (LAUNCHPAD_PROGRAM_ADDRESS W)
        {| programId := LAUNCHPAD_PROGRAM_ADDRESS W;
           keys := buyTokenKeys addr authority vault v m buyer account;
           data := payload |}
        (Some (Z.quot (dx * y) (x + dx),
               Z.quot (Z.quot (dx * y) (x + dx)) 1000000))))
  /\ (forall (W : Collaborators) (b : BuyRequestBody) (ix : Instruction),
        instruction_of (snd (post_buy W b)) = Some ix ->
        exists addr amount st n,
          buy_launchpadStateAddress b = Some addr /\
          buy_solAmount b = Some amount /\
          fetchMaybeLaunchpadState W addr = Ok (Some st) /\
          toBigInt W amount = Ok n /\
          let x := virtualSolReserves st in
          let y := virtualTokenReserves st in
          let dx := n * 1000000000 in
          let scaled := Z.quot (dx * y) (x + dx) in
          let raw := Z.quot scaled 1000000 in
          Z.abs scaled * Z.abs (x + dx) <= Z.abs (dx * y)
            < (Z.abs scaled + 1) * Z.abs (x + dx) /\
          body (snd (post_buy W b))
            = BInstruction (LAUNCHPAD_PROGRAM_ADDRESS W) ix
                (Some (scaled, raw)) /\
          encodeBuyToken W raw = Ok (data ix))
  /\ buy_tokenAmountWithDecimals 30000000000 1073000000000000 1000000000
       = Ok 34612903225806
  /\ bigint_div 34612903225806 1000000 = Ok 34612903.
Proof.
  split; [| split; [| split; reflexivity]].
  - intros. erewrite buy_runs; eauto.
  - intros W b ix Hix.
    destruct (post_buy W b) as [t r] eqn:Hrun. cbn [snd] in *.
    destruct (buy_instruction_inv W b t r ix Hrun Hix)
      as (addr & amount & buyer & st & m & v & n & authority & vault
          & account & payload & -> & Hf & Hm & Hv & Hn & Hx & Hy & Hden
          & Hpos & Ha & Hs & Ht & He & Hixeq & ->).
    exists addr, amount, st, n. cbn zeta.
    unfold LAMPORTS_PER_SOL in *.
    repeat split; try assumption; try reflexivity.
    + now apply quot_truncates.
    + now apply quot_truncates.
    + rewrite Hixeq. cbn. exact He.
Qed.

(** ** The sell route *)

(** A sell request that answers with an instruction went through every step
    of the route. *)
Lemma sell_instruction_inv (W : Collaborators) (b : SellRequestBody)
    (t : list Event) (r : Response) (ix : Instruction) :
  post_sell W b = (t, r) ->
  instruction_of r = Some ix ->
  exists addr seller st m v final vault account payload,
    sell_launchpadStateAddress b = Some addr /\
    sell_seller b = Some seller /\
    truthy_field (sell_tokenAmount b) || truthy_field (sell_solAmount b)
      = true /\
    truthy_field (sell_tokenAmount b) && truthy_field (sell_solAmount b)
      = false /\
    fetchMaybeLaunchpadState W addr = Ok (Some st) /\
    mint st = Some m /\ tokenVault st = Some v /\
    sell_amount W b st final /\
    getProgramDerivedAddress W "sol_vault" addr = Ok vault /\
    getAssociatedTokenAddress W m seller = Ok account /\
    encodeSellToken W final = Ok payload /\
    ix = {| programId := LAUNCHPAD_PROGRAM_ADDRESS W;
            keys := sellTokenKeys addr vault v m seller account;
            data := payload |} /\
    r = json 200 (BInstruction (LAUNCHPAD_PROGRAM_ADDRESS W) ix None).
Proof.
  intros Hrun Hix. destruct b as [oa ot os ob].
  unfold post_sell, sell_body, sell_amount_from_sol, fetch_state in Hrun.
  cbn [sell_launchpadStateAddress sell_tokenAmount sell_solAmount
       sell_seller] in *.
  name_messages. run_in Hrun.
  repeat (branch Hrun; try no_instruction Hrun Hix).
  - injection Hrun as <- <-. cbn in Hix. injection Hix as <-.
    match goal with H : _ || _ = false |- _ =>
      apply reserves_test in H; destruct H end.
    match goal with H : sell_tokenAmountWithDecimals _ _ _ = Ok _ |- _ =>
      apply bigint_div_Ok in H; destruct H as [? ->] end.
    match goal with H : bigint_div _ 1000000 = Ok _ |- _ =>
      apply bigint_div_Ok in H; destruct H as [_ ->] end.
    repeat match goal with
    | H : (_ <=? _) = false |- _ => apply Z.leb_gt in H
    | H : negb _ && negb _ = false |- _ =>
        rewrite <- negb_orb in H; apply negb_false_iff in H
    end.
    do 9 eexists. repeat split; eauto.
    eapply sell_by_sol; eauto.
  - injection Hrun as <- <-. cbn in Hix. injection Hix as <-.
    repeat match goal with
    | H : negb _ && negb _ = false |- _ =>
        rewrite <- negb_orb in H; apply negb_false_iff in H
    end.
    do 9 eexists. repeat split; eauto.
    eapply sell_by_tokens; eauto.
Qed.


(** A finished run whose answer is an error built without any calculation. *)
Ltac rejected H :=
  solve [injection H as <- <-; cbn; repeat split; reflexivity].

(** C7. A sell by SOL amount whose lamports reach or exceed the virtual SOL
    reserves is rejected with an error, without the inverse-swap
    calculation and without an instruction; when the request is otherwise
    in order the answer is the 400 "exceeds available reserves"; and an
    instruction built from a SOL amount always has [dx < x]. *)
Theorem sell_by_sol_rejects_at_or_above_reserves :
  (forall (W : Collaborators) (b : SellRequestBody) (addr : string)
      (amount : Amount) (st : LaunchpadState) (n : Z),
    sell_launchpadStateAddress b = Some addr ->
    sell_solAmount b = Some amount ->
    fetchMaybeLaunchpadState W addr = Ok (Some st) ->
    toBigInt W amount = Ok n ->
    virtualSolReserves st <= n * 1000000000 ->
    is_error (snd (post_sell W b)) = true /\
    instruction_of (snd (post_sell W b)) = None /\
    never is_calculation (fst (post_sell W b)) = true)
  /\ (forall (W : Collaborators) (b : SellRequestBody) (addr seller m v
        : string) (amount : Amount) (st : LaunchpadState) (n : Z),
    sell_launchpadStateAddress b = Some addr ->
    sell_seller b = Some seller ->
    sell_solAmount b = Some amount ->
    truthy amount = true ->
    truthy_field (sell_tokenAmount b) = false ->
    fetchMaybeLaunchpadState W addr = Ok (Some st) ->
    mint st = Some m -> tokenVault st = Some v ->
    toBigInt W amount = Ok n ->
    virtualSolReserves st <> 0 -> virtualTokenReserves st <> 0 ->
    virtualSolReserves st <= n * 1000000000 ->
    post_sell W b
    = ([EFetchLaunchpadState addr],
       json 400 (BError "SOL amount exceeds available reserves.")))
  /\ (forall (W : Collaborators) (b : SellRequestBody) (addr : string)
        (amount : Amount) (st : LaunchpadState) (n : Z) (ix : Instruction),
    sell_launchpadStateAddress b = Some addr ->
    sell_solAmount b = Some amount ->
    fetchMaybeLaunchpadState W addr = Ok (Some st) ->
    toBigInt W amount = Ok n ->
    instruction_of (snd (post_sell W b)) = Some ix ->
    n * 1000000000 < virtualSolReserves st /\
    encodeSellToken W
      (Z.quot (Z.quot (n * 1000000000 * virtualTokenReserves st)
                      (virtualSolReserves st - n * 1000000000))
              1000000) = Ok (data ix)).
Proof.
  split; [| split].
  - intros W b addr amount st n Ha Hs Hf Hn Hge.
    destruct (post_sell W b) as [t r] eqn:Hrun. cbn [fst snd].
    destruct b as [oa ot os ob].
    cbn [sell_launchpadStateAddress sell_solAmount] in Ha, Hs. subst oa os.
    unfold post_sell, sell_body, sell_amount_from_sol, fetch_state,
      required in Hrun.
    cbn [sell_launchpadStateAddress sell_tokenAmount sell_solAmount
         sell_seller] in Hrun.
    name_messages. run_in Hrun. rewrite Hf, Hn in Hrun.
    repeat (branch Hrun; try rejected Hrun;
            try match goal with H : (_ <=? _) = false |- _ =>
              apply Z.leb_gt in H; unfold LAMPORTS_PER_SOL in H; lia end).
  - intros W b addr seller m v amount st n Ha Hse Hs Ht Htok Hf Hm Hv Hn
      Hx Hy Hge.
    unfold post_sell, sell_body, sell_amount_from_sol, fetch_state, required.
    rewrite Ha, Hse, Hs, Htok. cbn [truthy_field negb andb]. rewrite Ht.
    cbn [negb andb]. name_messages. run. rewrite Hf. run. rewrite Hm, Hv. run.
    rewrite Hn. run.
    rewrite (proj2 (reserves_test _ _) (conj Hx Hy)). run.
    unfold LAMPORTS_PER_SOL. rewrite (proj2 (Z.leb_le _ _) Hge). run.
    reflexivity.
  - intros W b addr amount st n ix Ha Hs Hf Hn Hix.
    destruct (post_sell W b) as [t r] eqn:Hrun. cbn [snd] in Hix.
    destruct (sell_instruction_inv W b t r ix Hrun Hix)
      as (addr' & seller & st' & m & v & final & vault & account & payload
          & Ha' & _ & _ & _ & Hf' & _ & _ & Hamount & _ & _ & He & -> & _).
    rewrite Ha in Ha'. injection Ha' as <-.
    rewrite Hf in Hf'. injection Hf' as <-.
    destruct Hamount as [amount' n' Hs' Hn' _ _ Hlt _ ->
                        | amount' Hs' _ _].
    + rewrite Hs in Hs'. injection Hs' as <-.
      rewrite Hn in Hn'. injection Hn' as <-.
      unfold LAMPORTS_PER_SOL in *. now split.
    + congruence.
Qed.

(** ** The graduate route *)

(** A finished run that called no submission primitive. *)
Ltac no_submission H Hsub :=
  solve [injection H as <- <-; cbn in Hsub; discriminate Hsub].

(** A graduate request that reached the submission primitives passed the
    lifecycle gate and the authority check, and what it sends is the
    two-account instruction. *)
Lemma graduate_submission_inv (W : Collaborators)
    (body : option StateRequestBody) (t : list Event) (r : Response) :
  post_graduate W body = (t, r) ->
  never is_submission t = false ->
  exists a a' st program pk,
    state_address body = Some a /\
    address W a = Ok a' /\
    fetchMaybeLaunchpadState W a' = Ok (Some st) /\
    status st = Transition /\
    platformAuthority st = PLATFORM_AUTHORITY_PUBLIC_KEY W /\
    PublicKey W (LAUNCHPAD_PROGRAM_ADDRESS W) = Ok program /\
    PublicKey W a = Ok pk /\
    forall ix, In (ESendAndConfirmTransaction ix) t ->
      ix = {| programId := program;
              keys := [ writable pk;
                        signer_writable (platformAuthority st) ];
              data := encodeGraduateToSafe W |}.
Proof.
  intros Hrun Hsub.
  unfold post_graduate, graduate_body, fetch_state in Hrun.
  name_messages. run_in Hrun.
  repeat (branch Hrun; try no_submission Hrun Hsub).
  all: repeat match goal with
    | H : negb _ = false |- _ => apply negb_false_iff in H
    | H : String.eqb _ _ = true |- _ => apply String.eqb_eq in H
    | H : LaunchpadStatus_eqb ?s Transition = true |- _ =>
        assert (s = Transition) by (now destruct s); clear H
    end.
  all: do 5 eexists; repeat split; eauto.
  all: intros ix Hin; injection Hrun as <- <-; cbn in Hin.
  all: repeat match goal with
    | H : _ \/ _ |- _ => destruct H
    | H : False |- _ => destruct H
    | H : ESendAndConfirmTransaction _ = ESendAndConfirmTransaction _ |- _ =>
        injection H as <-
    | H : _ = ESendAndConfirmTransaction _ |- _ => discriminate H
    end.
  all: congruence.
Qed.

Lemma LaunchpadStatus_eqb_neq (s s' : LaunchpadStatus) :
  s <> s' -> LaunchpadStatus_eqb s s' = false.
Proof. destruct s, s'; intros H; try reflexivity; now contradiction H. Qed.

Lemma LaunchpadStatus_eqb_refl (s : LaunchpadStatus) :
  LaunchpadStatus_eqb s s = true.
Proof. now destruct s. Qed.

(** The lifecycle gate of the graduate route. *)
Lemma graduate_gate (W : Collaborators) (body : option StateRequestBody)
    (a a' : string) (st : LaunchpadState) :
  state_address body = Some a ->
  address W a = Ok a' ->
  fetchMaybeLaunchpadState W a' = Ok (Some st) ->
  status st <> Transition ->
  post_graduate W body
  = ([EFetchLaunchpadState a'],
     json 400 (BError (String.append
       "Launchpad must be in Transition state to graduate. Current state: "
       (LaunchpadStatus_name (status st))))).
Proof.
  intros Hb Ha Hf Hs. unfold post_graduate, graduate_body, fetch_state.
  rewrite Hb, Ha. name_messages. run. rewrite Hf. run.
  rewrite (LaunchpadStatus_eqb_neq _ _ Hs). cbn [negb]. run. reflexivity.
Qed.

(** The lifecycle gate of the generate-safe route. *)
Lemma generate_safe_gate (W : Collaborators)
    (body : option StateRequestBody) (a a' : string) (st : LaunchpadState) :
  state_address body = Some a ->
  address W a = Ok a' ->
  fetchMaybeLaunchpadState W a' = Ok (Some st) ->
  status st <> Transition ->
  post_generate_safe W body
  = ([EFetchLaunchpadState a'],
     json 400 (BError (String.append
       "Launchpad must be in Transition state to generate SAFE. Current state: "
       (LaunchpadStatus_name (status st))))).
Proof.
  intros Hb Ha Hf Hs.
  unfold post_generate_safe, generate_safe_body, fetch_state.
  rewrite Hb, Ha. name_messages. run. rewrite Hf. run.
  rewrite (LaunchpadStatus_eqb_neq _ _ Hs). cbn [negb]. run. reflexivity.
Qed.

(** What the check-and-generate-safe route does with a fetched state it
    has no cached document for. *)
Lemma check_and_generate_safe_runs (W : Collaborators) (cache : SafeCache)
    (body : option StateRequestBody) (a a' : string) (st : LaunchpadState) :
  state_address body = Some a ->
  cache !! a = None ->
  address W a = Ok a' ->
  fetchMaybeLaunchpadState W a' = Ok (Some st) ->
  (status st = Trading ->
   post_check_and_generate_safe W cache body
   = ([EFetchLaunchpadState a'],
      (cache, json 200 (BNoAction "Status is Trading, no action needed"
                          false "Trading"))))
  /\
  (status st <> Trading ->
   fst (post_check_and_generate_safe W cache body)
   = [EFetchLaunchpadState a'; EBridgeGenerateSafe a (raise_info st)]).
Proof.
  intros Hb Hc Ha Hf.
  unfold post_check_and_generate_safe, check_and_generate_safe_body,
    fetch_state.
  rewrite Hb, Hc, Ha. run. rewrite Hf. run.
  split; intros Hs.
  - rewrite Hs. cbn. reflexivity.
  - replace (LaunchpadStatus_eqb (status st) Transition
             || LaunchpadStatus_eqb (status st) Safe) with true
      by (destruct (status st); try reflexivity; now contradiction Hs).
    run.
    destruct (bridgeGenerateSafe W a (raise_info st)) as [[doc | e] | e];
      run; reflexivity.
Qed.

(** C4 (as amended). On a fetched state whose status is not Transition the
    graduate route and the generate-safe route answer 400 with a message
    that names the current status, and call neither the submission
    primitives nor the document bridge; either route answers 200 only when
    the status is Transition. The check-and-generate-safe route, when it
    holds no cached document, answers for Trading that no action is needed,
    naming the status and without calling the bridge, and calls the bridge
    for Transition and for Safe. *)
Theorem lifecycle_gate_requires_Transition
    (W : Collaborators) (body : option StateRequestBody) (a a' : string)
    (st : LaunchpadState) :
  state_address body = Some a ->
  address W a = Ok a' ->
  fetchMaybeLaunchpadState W a' = Ok (Some st) ->
  (status st <> Transition ->
     post_graduate W body
     = ([EFetchLaunchpadState a'],
        json 400 (BError (String.append
          "Launchpad must be in Transition state to graduate. Current state: "
          (LaunchpadStatus_name (status st))))) /\
     never is_submission (fst (post_graduate W body)) = true /\
     post_generate_safe W body
     = ([EFetchLaunchpadState a'],
        json 400 (BError (String.append
          "Launchpad must be in Transition state to generate SAFE. Current state: "
          (LaunchpadStatus_name (status st))))) /\
     never is_bridge_call (fst (post_generate_safe W body)) = true)
  /\ (code (snd (post_graduate W body)) = 200 -> status st = Transition)
  /\ (code (snd (post_generate_safe W body)) = 200 ->
      status st = Transition)
  /\ (forall cache : SafeCache, cache !! a = None ->
      (status st = Trading ->
       post_check_and_generate_safe W cache body
       = ([EFetchLaunchpadState a'],
          (cache, json 200 (BNoAction "Status is Trading, no action needed"
                              false "Trading")))) /\
      (status st <> Trading ->
       fst (post_check_and_generate_safe W cache body)
       = [EFetchLaunchpadState a'; EBridgeGenerateSafe a (raise_info st)])).
Proof.
  intros Hb Ha Hf.
  assert (Hgate : status st <> Transition ->
     post_graduate W body
     = ([EFetchLaunchpadState a'],
        json 400 (BError (String.append
          "Launchpad must be in Transition state to graduate. Current state: "
          (LaunchpadStatus_name (status st))))) /\
     post_generate_safe W body
     = ([EFetchLaunchpadState a'],
        json 400 (BError (String.append
          "Launchpad must be in Transition state to generate SAFE. Current state: "
          (LaunchpadStatus_name (status st)))))).
  { intros Hs. split.
    - now apply graduate_gate with (a := a).
    - now apply generate_safe_gate with (a := a). }
  assert (Hdec : status st = Transition \/ status st <> Transition)
    by (destruct (status st); (now left) || (now right)).
  split; [| split; [| split]].
  - intros Hs. destruct (Hgate Hs) as [E1 E2]. rewrite E1, E2.
    repeat split.
  - intros Hcode. destruct Hdec as [E | N]; [exact E |].
    destruct (Hgate N) as [E _]. rewrite E in Hcode. discriminate Hcode.
  - intros Hcode. destruct Hdec as [E | N]; [exact E |].
    destruct (Hgate N) as [_ E]. rewrite E in Hcode. discriminate Hcode.
  - intros cache Hc.
    exact (check_and_generate_safe_runs W cache body a a' st Hb Hc Ha Hf).
Qed.

(** The check-and-generate-safe route on a launchpad whose status is Safe:
    the bridge is called and the route answers 200 with the document. *)
Lemma check_and_generate_safe_generates_on_Safe :
  let st := Sample.state Safe 30000000000 1073000000000000 "Platform" in
  let run := post_check_and_generate_safe (Sample.world st) ∅
               Sample.request in
  status st <> Transition /\
  fst run = [EFetchLaunchpadState "State";
             EBridgeGenerateSafe "State" (raise_info st)] /\
  never is_bridge_call (fst run) = false /\
  snd (snd run)
  = json 200 (BCheckGenerated "SAFE document generated for Safe status"
       false "Safe"
       {| pdfUrl := Some "safe.pdf"; filename := Some "safe.pdf" |}).
Proof.
  cbn zeta. split; [discriminate |].
  split; [| split]; vm_compute; reflexivity.
Qed.

Lemma lifecycle_gate_requires_Transition_witness :
  post_graduate
    (Sample.world Sample.fresh)
    Sample.request
  = ([EFetchLaunchpadState "State"],
     json 400 (BError
       "Launchpad must be in Transition state to graduate. Current state: Trading")).
Proof.
  apply (lifecycle_gate_requires_Transition
           (Sample.world Sample.fresh)
           Sample.request "State" "State"
           Sample.fresh
           eq_refl eq_refl eq_refl).
  discriminate.
Defined.

(** C5. A graduate request on a state in Transition whose recorded platform
    authority is not the address of the held key pair is answered 403 with
    the authority-mismatch error, and no submission primitive is called. *)
Theorem graduate_rejects_authority_mismatch
    (W : Collaborators) (body : option StateRequestBody) (a a' : string)
    (st : LaunchpadState) :
  state_address body = Some a ->
  address W a = Ok a' ->
  fetchMaybeLaunchpadState W a' = Ok (Some st) ->
  status st = Transition ->
  platformAuthority st <> PLATFORM_AUTHORITY_PUBLIC_KEY W ->
  post_graduate W body
  = ([EFetchLaunchpadState a'],
     json 403 (BAuthorityMismatch
       "Platform authority keypair does not match the launchpad platform authority"
       (platformAuthority st) (PLATFORM_AUTHORITY_PUBLIC_KEY W)))
  /\ never is_submission (fst (post_graduate W body)) = true.
Proof.
  intros Hb Ha Hf Hs Hp.
  assert (E : post_graduate W body
    = ([EFetchLaunchpadState a'],
       json 403 (BAuthorityMismatch
         "Platform authority keypair does not match the launchpad platform authority"
         (platformAuthority st) (PLATFORM_AUTHORITY_PUBLIC_KEY W)))).
  { unfold post_graduate, graduate_body, fetch_state.
    rewrite Hb, Ha. name_messages. run. rewrite Hf. run.
    rewrite Hs. cbn [LaunchpadStatus_eqb negb]. run.
    rewrite (proj2 (String.eqb_neq _ _) Hp). cbn [negb]. run. reflexivity. }
  split; [exact E | now rewrite E].
Qed.

Lemma graduate_rejects_authority_mismatch_witness :
  post_graduate
    (Sample.world (Sample.state Transition 30000000000 1073000000000000
                     "Somebody"))
    Sample.request
  = ([EFetchLaunchpadState "State"],
     json 403 (BAuthorityMismatch
       "Platform authority keypair does not match the launchpad platform authority"
       "Somebody" "Platform"))
  /\ never is_submission
       (fst (post_graduate
          (Sample.world (Sample.state Transition 30000000000
                           1073000000000000 "Somebody"))
          Sample.request)) = true.
Proof.
  apply (graduate_rejects_authority_mismatch
           (Sample.world (Sample.state Transition 30000000000
                            1073000000000000 "Somebody"))
           Sample.request "State" "State"
           (Sample.state Transition 30000000000 1073000000000000 "Somebody")
           eq_refl eq_refl eq_refl eq_refl).
  discriminate.
Defined.

(** The sell route, run on a request that passes every check, by either
    way of giving the amount. *)
Lemma sell_runs (W : Collaborators) (b : SellRequestBody)
    (addr seller m v vault account : string) (st : LaunchpadState)
    (final : Z) (payload : bytes) :
  sell_launchpadStateAddress b = Some addr ->
  sell_seller b = Some seller ->
  xorb (truthy_field (sell_tokenAmount b)) (truthy_field (sell_solAmount b))
    = true ->
  fetchMaybeLaunchpadState W addr = Ok (Some st) ->
  mint st = Some m -> tokenVault st = Some v ->
  sell_amount W b st final ->
  getProgramDerivedAddress W "sol_vault" addr = Ok vault ->
  getAssociatedTokenAddress W m seller = Ok account ->
  encodeSellToken W final = Ok payload ->
  snd (post_sell W b)
  = json 200 (BInstruction (LAUNCHPAD_PROGRAM_ADDRESS W)
      {| programId := LAUNCHPAD_PROGRAM_ADDRESS W;
         keys := sellTokenKeys addr vault v m seller account;
         data := payload |}
      None).
Proof.
  intros Ha Hse Hxor Hf Hm Hv Hamount Hsv Hata He.
  assert (Hnone : negb (truthy_field (sell_tokenAmount b))
                  && negb (truthy_field (sell_solAmount b)) = false)
    by (destruct (truthy_field (sell_tokenAmount b)),
          (truthy_field (sell_solAmount b));
        try reflexivity; discriminate Hxor).
  assert (Hboth : truthy_field (sell_tokenAmount b)
                  && truthy_field (sell_solAmount b) = false)
    by (destruct (truthy_field (sell_tokenAmount b)),
          (truthy_field (sell_solAmount b));
        try reflexivity; discriminate Hxor).
  unfold post_sell, sell_body, sell_amount_from_sol, fetch_state, required.
  rewrite Ha, Hse, Hnone, Hboth. clear Hnone Hboth Hxor.
  name_messages. run. rewrite Hf. run. rewrite Hm, Hv.
  destruct Hamount as [amount n Hs Hn Hx Hy Hlt Hpos Hfinal | amount Hs Ht Hn].
  - rewrite Hs. run. rewrite Hn. run.
    rewrite (proj2 (reserves_test _ _) (conj Hx Hy)). run.
    rewrite (proj2 (Z.leb_gt _ _) Hlt). run.
    unfold sell_tokenAmountWithDecimals.
    rewrite bigint_div_nonzero by lia. run.
    rewrite (proj2 (Z.leb_gt _ _) Hpos). run.
    rewrite bigint_div_nonzero by discriminate. run.
    rewrite <- Hfinal, Hsv. run. rewrite Hata. run. rewrite He. run.
    reflexivity.
  - rewrite Hs, Ht. run. rewrite Hn. run. rewrite Hsv. run.
    rewrite Hata. run. rewrite He. run. reflexivity.
Qed.

(** The graduate route, run on a request that passes the gate and the
    authority check and gets a blockhash: whether the submission is
    confirmed or fails, the instruction has been handed to it. *)
Lemma graduate_runs (W : Collaborators) (body : option StateRequestBody)
    (a a' program pk : string) (st : LaunchpadState)
    (recent : string * Z) :
  state_address body = Some a ->
  address W a = Ok a' ->
  fetchMaybeLaunchpadState W a' = Ok (Some st) ->
  status st = Transition ->
  platformAuthority st = PLATFORM_AUTHORITY_PUBLIC_KEY W ->
  PublicKey W (LAUNCHPAD_PROGRAM_ADDRESS W) = Ok program ->
  PublicKey W a = Ok pk ->
  getLatestBlockhash W = Ok recent ->
  fst (post_graduate W body)
  = [ EFetchLaunchpadState a'; EGetLatestBlockhash;
      ESendAndConfirmTransaction
        {| programId := program;
           keys := [ writable pk;
                     signer_writable (PLATFORM_AUTHORITY_PUBLIC_KEY W) ];
           data := encodeGraduateToSafe W |} ].
Proof.
  intros Hb Ha Hf Hs Hp Hprog Hpk Hr.
  unfold post_graduate, graduate_body, fetch_state.
  rewrite Hb, Ha. name_messages. run. rewrite Hf. run.
  rewrite Hs. cbn [LaunchpadStatus_eqb negb]. run.
  rewrite Hp, String.eqb_refl. cbn [negb]. run.
  rewrite Hprog. run. rewrite Hpk. run. rewrite Hr. run.
  destruct (sendAndConfirmTransaction W _); run; reflexivity.
Qed.

(** C9. Every instruction the buy route answers with lists, in this order,
    state (writable), launchpad authority (read-only), SOL vault, token
    vault, mint (writable), buyer (signer, writable), the buyer's token
    account (writable), then the system, token and associated-token
    programs (read-only); every instruction the sell route answers with
    lists the same without the launchpad authority and with the seller for
    the buyer; every instruction the graduate route submits lists state
    (writable) and the platform authority (signer, writable). And the
    routes do build them: a buy whose checks pass answers with an
    instruction of these ten accounts; a sale whose checks pass, by SOL
    amount or by token amount, with one of these nine; and a graduate
    request that passes the gate and the authority check and gets a
    blockhash hands the submission an instruction of these two. *)
Theorem instruction_accounts_are_protocol_order :
  (forall (W : Collaborators) (b : BuyRequestBody) (ix : Instruction),
     instruction_of (snd (post_buy W b)) = Some ix ->
     exists state authority solVault vault mintAddress buyer account st,
       buy_launchpadStateAddress b = Some state /\
       buy_buyer b = Some buyer /\
       fetchMaybeLaunchpadState W state = Ok (Some st) /\
       mint st = Some mintAddress /\ tokenVault st = Some vault /\
       getProgramDerivedAddress W "launchpad_authority" state
         = Ok authority /\
       getProgramDerivedAddress W "sol_vault" state = Ok solVault /\
       getAssociatedTokenAddress W mintAddress buyer = Ok account /\
       keys ix =
         [ {| pubkey := state; isSigner := false; isWritable := true |};
           {| pubkey := authority; isSigner := false; isWritable := false |};
           {| pubkey := solVault; isSigner := false; isWritable := true |};
           {| pubkey := vault; isSigner := false; isWritable := true |};
           {| pubkey := mintAddress; isSigner := false; isWritable := true |};
           {| pubkey := buyer; isSigner := true; isWritable := true |};
           {| pubkey := account; isSigner := false; isWritable := true |};
           {| pubkey := SYSTEM_PROGRAM_ID;
              isSigner := false; isWritable := false |};
           {| pubkey := TOKEN_PROGRAM_ID;
              isSigner := false; isWritable := false |};
           {| pubkey := ASSOCIATED_TOKEN_PROGRAM;
              isSigner := false; isWritable := false |} ])
  /\
  (forall (W : Collaborators) (b : SellRequestBody) (ix : Instruction),
     instruction_of (snd (post_sell W b)) = Some ix ->
     exists state solVault vault mintAddress seller account st,
       sell_launchpadStateAddress b = Some state /\
       sell_seller b = Some seller /\
       fetchMaybeLaunchpadState W state = Ok (Some st) /\
       mint st = Some mintAddress /\ tokenVault st = Some vault /\
       getProgramDerivedAddress W "sol_vault" state = Ok solVault /\
       getAssociatedTokenAddress W mintAddress seller = Ok account /\
       keys ix =
         [ {| pubkey := state; isSigner := false; isWritable := true |};
           {| pubkey := solVault; isSigner := false; isWritable := true |};
           {| pubkey := vault; isSigner := false; isWritable := true |};
           {| pubkey := mintAddress; isSigner := false; isWritable := true |};
           {| pubkey := seller; isSigner := true; isWritable := true |};
           {| pubkey := account; isSigner := false; isWritable := true |};
           {| pubkey := SYSTEM_PROGRAM_ID;
              isSigner := false; isWritable := false |};
           {| pubkey := TOKEN_PROGRAM_ID;
              isSigner := false; isWritable := false |};
           {| pubkey := ASSOCIATED_TOKEN_PROGRAM;
              isSigner := false; isWritable := false |} ])
  /\
  (forall (W : Collaborators) (body : option StateRequestBody)
      (ix : Instruction),
     In (ESendAndConfirmTransaction ix) (fst (post_graduate W body)) ->
     exists a a' state st,
       state_address body = Some a /\
       address W a = Ok a' /\
       fetchMaybeLaunchpadState W a' = Ok (Some st) /\
       PublicKey W a = Ok state /\
       platformAuthority st = PLATFORM_AUTHORITY_PUBLIC_KEY W /\
       keys ix =
         [ {| pubkey := state; isSigner := false; isWritable := true |};
           {| pubkey := platformAuthority st;
              isSigner := true; isWritable := true |} ])
  /\
  (forall (W : Collaborators)
      (state buyer mintAddress vault authority solVault account : string)
      (amount : Amount) (st : LaunchpadState) (n : Z) (payload : bytes),
     fetchMaybeLaunchpadState W state = Ok (Some st) ->
     mint st = Some mintAddress -> tokenVault st = Some vault ->
     toBigInt W amount = Ok n ->
     virtualSolReserves st <> 0 -> virtualTokenReserves st <> 0 ->
     virtualSolReserves st + n * 1000000000 <> 0 ->
     0 < Z.quot (n * 1000000000 * virtualTokenReserves st)
                (virtualSolReserves st + n * 1000000000) ->
     getProgramDerivedAddress W "launchpad_authority" state
       = Ok authority ->
     getProgramDerivedAddress W "sol_vault" state = Ok solVault ->
     getAssociatedTokenAddress W mintAddress buyer = Ok account ->
     encodeBuyToken W
       (Z.quot (Z.quot (n * 1000000000 * virtualTokenReserves st)
                       (virtualSolReserves st + n * 1000000000))
               1000000) = Ok payload ->
     instruction_of
       (snd (post_buy W {| buy_launchpadStateAddress := Some state;
                           buy_solAmount := Some amount;
                           buy_buyer := Some buyer |}))
     = Some
         {| programId := LAUNCHPAD_PROGRAM_ADDRESS W;
            keys :=
              [ {| pubkey := state; isSigner := false; isWritable := true |};
                {| pubkey := authority;
                   isSigner := false; isWritable := false |};
                {| pubkey := solVault;
                   isSigner := false; isWritable := true |};
                {| pubkey := vault; isSigner := false; isWritable := true |};
                {| pubkey := mintAddress;
                   isSigner := false; isWritable := true |};
                {| pubkey := buyer; isSigner := true; isWritable := true |};
                {| pubkey := account;
                   isSigner := false; isWritable := true |};
                {| pubkey := SYSTEM_PROGRAM_ID;
                   isSigner := false; isWritable := false |};
                {| pubkey := TOKEN_PROGRAM_ID;
                   isSigner := false; isWritable := false |};
                {| pubkey := ASSOCIATED_TOKEN_PROGRAM;
                   isSigner := false; isWritable := false |} ];
            data := payload |})
  /\
  (forall (W : Collaborators) (b : SellRequestBody)
      (state seller mintAddress vault solVault account : string)
      (st : LaunchpadState) (final : Z) (payload : bytes),
     sell_launchpadStateAddress b = Some state ->
     sell_seller b = Some seller ->
     xorb (truthy_field (sell_tokenAmount b))
          (truthy_field (sell_solAmount b)) = true ->
     fetchMaybeLaunchpadState W state = Ok (Some st) ->
     mint st = Some mintAddress -> tokenVault st = Some vault ->
     sell_amount W b st final ->
     getProgramDerivedAddress W "sol_vault" state = Ok solVault ->
     getAssociatedTokenAddress W mintAddress seller = Ok account ->
     encodeSellToken W final = Ok payload ->
     instruction_of (snd (post_sell W b))
     = Some
         {| programId := LAUNCHPAD_PROGRAM_ADDRESS W;
            keys :=
              [ {| pubkey := state; isSigner := false; isWritable := true |};
                {| pubkey := solVault;
                   isSigner := false; isWritable := true |};
                {| pubkey := vault; isSigner := false; isWritable := true |};
                {| pubkey := mintAddress;
                   isSigner := false; isWritable := true |};
                {| pubkey := seller; isSigner := true; isWritable := true |};
                {| pubkey := account;
                   isSigner := false; isWritable := true |};
                {| pubkey := SYSTEM_PROGRAM_ID;
                   isSigner := false; isWritable := false |};
                {| pubkey := TOKEN_PROGRAM_ID;
                   isSigner := false; isWritable := false |};
                {| pubkey := ASSOCIATED_TOKEN_PROGRAM;
                   isSigner := false; isWritable := false |} ];
            data := payload |})
  /\
  (forall (W : Collaborators) (body : option StateRequestBody)
      (a a' program state : string) (st : LaunchpadState)
      (recent : string * Z),
     state_address body = Some a ->
     address W a = Ok a' ->
     fetchMaybeLaunchpadState W a' = Ok (Some st) ->
     status st = Transition ->
     platformAuthority st = PLATFORM_AUTHORITY_PUBLIC_KEY W ->
     PublicKey W (LAUNCHPAD_PROGRAM_ADDRESS W) = Ok program ->
     PublicKey W a = Ok state ->
     getLatestBlockhash W = Ok recent ->
     fst (post_graduate W body)
     = [ EFetchLaunchpadState a'; EGetLatestBlockhash;
         ESendAndConfirmTransaction
           {| programId := program;
              keys :=
                [ {| pubkey := state;
                     isSigner := false; isWritable := true |};
                  {| pubkey := platformAuthority st;
                     isSigner := true; isWritable := true |} ];
              data := encodeGraduateToSafe W |} ]).
Proof.
  split; [| split; [| split; [| split; [| split]]]].
  - intros W b ix Hix.
    destruct (post_buy W b) as [t r] eqn:Hrun. cbn [snd] in Hix.
    destruct (buy_instruction_inv W b t r ix Hrun Hix)
      as (addr & amount & buyer & st & m & v & n & authority & vault
          & account & payload & -> & Hf & Hm & Hv & _ & _ & _ & _ & _
          & Ha & Hs & Ht & _ & -> & _).
    exists addr, authority, vault, v, m, buyer, account, st.
    repeat split; assumption || reflexivity.
  - intros W b ix Hix.
    destruct (post_sell W b) as [t r] eqn:Hrun. cbn [snd] in Hix.
    destruct (sell_instruction_inv W b t r ix Hrun Hix)
      as (addr & seller & st & m & v & final & vault & account & payload
          & Ha & Hse & _ & _ & Hf & Hm & Hv & _ & Hs & Ht & _ & -> & _).
    exists addr, vault, v, m, seller, account, st.
    repeat split; assumption || reflexivity.
  - intros W body ix Hin.
    destruct (post_graduate W body) as [t r] eqn:Hrun. cbn [fst] in Hin.
    assert (Hsub : never is_submission t = false).
    { unfold never. apply not_true_is_false. intros Hall.
      rewrite forallb_forall in Hall. specialize (Hall _ Hin).
      discriminate Hall. }
    destruct (graduate_submission_inv W body t r Hrun Hsub)
      as (a & a' & st & program & pk & Hb & Ha & Hf & _ & Hp & _ & Hpk
          & Hsent).
    exists a, a', pk, st. rewrite (Hsent ix Hin).
    repeat split; assumption || reflexivity.
  - intros W state buyer m v authority vault account amount st n payload
      Hf Hm Hv Hn Hx Hy Hden Hpos Ha Hs Ht He.
    rewrite (buy_runs W state buyer m v authority vault account amount st n
               (virtualSolReserves st) (virtualTokenReserves st)
               (n * 1000000000) payload
               Hf Hm Hv eq_refl eq_refl Hn eq_refl Hx Hy Hden Hpos
               Ha Hs Ht He).
    reflexivity.
  - intros W b state seller m v vault account st final payload
      Ha Hse Hxor Hf Hm Hv Hamount Hs Ht He.
    rewrite (sell_runs W b state seller m v vault account st final payload
               Ha Hse Hxor Hf Hm Hv Hamount Hs Ht He).
    reflexivity.
  - intros W body a a' program pk st recent Hb Ha Hf Hs Hp Hprog Hpk Hr.
    rewrite (graduate_runs W body a a' program pk st recent
               Hb Ha Hf Hs Hp Hprog Hpk Hr).
    rewrite Hp. reflexivity.
Qed.

Lemma instruction_accounts_are_protocol_order_witness :
  instruction_of
    (snd (post_buy (Sample.world Sample.fresh) (Sample.buy Sample.one)))
  = Some (Sample.buy_instruction
            [Byte.x01; Byte.xa7; Byte.x26; Byte.x10; Byte.x02; Byte.x00;
             Byte.x00; Byte.x00; Byte.x00])
  /\ instruction_of
       (snd (post_sell (Sample.world Sample.fresh)
               (Sample.sell None (Some Sample.one))))
     = Some (Sample.sell_instruction
               [Byte.x02; Byte.x40; Byte.x93; Byte.x34; Byte.x02; Byte.x00;
                Byte.x00; Byte.x00; Byte.x00])
  /\ instruction_of
       (snd (post_sell (Sample.world Sample.fresh)
               (Sample.sell (Some (ABigInt 5)) None)))
     = Some (Sample.sell_instruction
               [Byte.x02; Byte.x05; Byte.x00; Byte.x00; Byte.x00; Byte.x00;
                Byte.x00; Byte.x00; Byte.x00])
  /\ fst (post_graduate
            (Sample.world (Sample.state Transition 30000000000
                             1073000000000000 "Platform"))
            Sample.request)
     = [ EFetchLaunchpadState "State"; EGetLatestBlockhash;
         ESendAndConfirmTransaction
           {| programId := "Launchpad";
              keys := [ {| pubkey := "State";
                           isSigner := false; isWritable := true |};
                        {| pubkey := "Platform";
                           isSigner := true; isWritable := true |} ];
              data := [Byte.x03] |} ].
Proof.
  destruct instruction_accounts_are_protocol_order
    as (_ & _ & _ & Hbuy & Hsell & Hgraduate).
  split; [| split; [| split]].
  - apply (Hbuy (Sample.world Sample.fresh) "State" "Buyer" "Mint"
             "TokenVault" "launchpad_authority/State" "sol_vault/State"
             "ata/Mint/Buyer" Sample.one Sample.fresh 1);
      reflexivity || discriminate.
  - apply (Hsell (Sample.world Sample.fresh)
             (Sample.sell None (Some Sample.one))
             "State" "Seller" "Mint" "TokenVault" "sol_vault/State"
             "ata/Mint/Seller" Sample.fresh 37000000);
      try reflexivity.
    apply (sell_by_sol _ _ _ _ Sample.one 1);
      reflexivity || discriminate.
  - apply (Hsell (Sample.world Sample.fresh)
             (Sample.sell (Some (ABigInt 5)) None)
             "State" "Seller" "Mint" "TokenVault" "sol_vault/State"
             "ata/Mint/Seller" Sample.fresh 5);
      try reflexivity.
    apply (sell_by_tokens _ _ _ _ (ABigInt 5)); reflexivity.
  - apply (Hgraduate
             (Sample.world (Sample.state Transition 30000000000
                              1073000000000000 "Platform"))
             Sample.request "State" "State" "Launchpad" "State"
             (Sample.state Transition 30000000000 1073000000000000
                "Platform")
             ("blockhash", 100));
      reflexivity.
Defined.

(** ** Independence of [k] *)

(** Decide the next test of the two handler runs compared in the goal. *)
Ltac branch_both :=
  match goal with
  | |- context [handle _ (bind (required _ ?o) _)] =>
      destruct o eqn:?; unfold required
  | |- context [handle _ (bind (try_ ?x) _)] => destruct x eqn:?
  | |- context [handle _ (bind (reply_if ?c _) _)] => destruct c eqn:?
  | |- context [handle _ (bind (match ?o with _ => _ end) _)] =>
      destruct o eqn:?
  | |- context [handle _ (match ?o with _ => _ end)] => destruct o eqn:?
  end;
  run.

Lemma toBigInt_with_fetch (W : Collaborators)
    (f : string -> Try (option LaunchpadState)) (v : Amount) :
  toBigInt (with_fetch W f) v = toBigInt W v.
Proof. now destruct v. Qed.

Lemma buy_independent_of_k (W : Collaborators)
    (f1 f2 : string -> Try (option LaunchpadState)) (b : BuyRequestBody) :
  (forall a, same_fetch (f1 a) (f2 a)) ->
  snd (post_buy (with_fetch W f1) b) = snd (post_buy (with_fetch W f2) b) /\
  effects (fst (post_buy (with_fetch W f1) b))
  = effects (fst (post_buy (with_fetch W f2) b)).
Proof.
  intros Hsame. destruct b as [oa os ob].
  unfold post_buy, buy_body, fetch_state, required.
  cbn [buy_launchpadStateAddress buy_solAmount buy_buyer with_fetch
       fetchMaybeLaunchpadState getProgramDerivedAddress
       getAssociatedTokenAddress encodeBuyToken LAUNCHPAD_PROGRAM_ADDRESS].
  name_messages.
  destruct oa as [addr |]; run; [| now split].
  destruct os as [amount |]; run; [| now split].
  destruct ob as [buyer |]; run; [| now split].
  destruct (Hsame addr) as [e | | s1 s2 (Hx & Hy & Hm & Hv)]; run;
    try now split.
  rewrite Hx, Hy, Hm, Hv.
  repeat (rewrite ?toBigInt_with_fetch; branch_both; try now split).
Qed.

Lemma sell_independent_of_k (W : Collaborators)
    (f1 f2 : string -> Try (option LaunchpadState)) (b : SellRequestBody) :
  (forall a, same_fetch (f1 a) (f2 a)) ->
  snd (post_sell (with_fetch W f1) b) = snd (post_sell (with_fetch W f2) b) /\
  effects (fst (post_sell (with_fetch W f1) b))
  = effects (fst (post_sell (with_fetch W f2) b)).
Proof.
  intros Hsame. destruct b as [oa ot os ob].
  unfold post_sell, sell_body, sell_amount_from_sol, fetch_state, required.
  cbn [sell_launchpadStateAddress sell_tokenAmount sell_solAmount
       sell_seller with_fetch
       fetchMaybeLaunchpadState getProgramDerivedAddress
       getAssociatedTokenAddress encodeSellToken LAUNCHPAD_PROGRAM_ADDRESS].
  name_messages.
  destruct oa as [addr |]; run; [| now split].
  destruct ob as [seller |]; run; [| now split].
  destruct (negb (truthy_field ot) && negb (truthy_field os)); run;
    [now split |].
  destruct (truthy_field ot && truthy_field os); run; [now split |].
  destruct (Hsame addr) as [e | | s1 s2 (Hx & Hy & Hm & Hv)]; run;
    try now split.
  rewrite Hx, Hy, Hm, Hv.
  repeat (rewrite ?toBigInt_with_fetch; branch_both; try now split).
Qed.

(** C10. The buy route and the sell route do not depend on the fetched [k]:
    on two networks whose states have the same virtual reserves, mint and
    token vault, a request gets the same response (the same error, or the
    same instruction with the same accounts and the same encoded amount)
    and causes the same effects; [k] only appears in the calculation log. *)
Theorem swap_routes_independent_of_k (W : Collaborators)
    (f1 f2 : string -> Try (option LaunchpadState)) :
  (forall a, same_fetch (f1 a) (f2 a)) ->
  (forall b : BuyRequestBody,
     snd (post_buy (with_fetch W f1) b)
     = snd (post_buy (with_fetch W f2) b) /\
     effects (fst (post_buy (with_fetch W f1) b))
     = effects (fst (post_buy (with_fetch W f2) b)))
  /\
  (forall b : SellRequestBody,
     snd (post_sell (with_fetch W f1) b)
     = snd (post_sell (with_fetch W f2) b) /\
     effects (fst (post_sell (with_fetch W f1) b))
     = effects (fst (post_sell (with_fetch W f2) b))).
Proof.
  intros Hsame. split; intros b.
  - now apply buy_independent_of_k.
  - now apply sell_independent_of_k.
Qed.

(** ** The round trip at fixed reserves *)

Lemma quot_nonneg_bounds (a b : Z) :
  0 <= a -> 0 < b ->
  0 <= Z.quot a b /\ Z.quot a b * b <= a < (Z.quot a b + 1) * b.
Proof.
  intros Ha Hb. rewrite Z.quot_div_nonneg by lia.
  pose proof (Z.div_mod a b ltac:(lia)) as E.
  pose proof (Z.mod_pos_bound a b Hb) as Bd.
  assert (0 <= a / b) by (apply Z.div_pos; lia).
  nia.
Qed.

(** C3. At reserves [x > 0], [y > 0] with [x * y = k], for a lamport amount
    [0 < dx < x]: the buy calculation gives [(dx * y) / (x + dx)] tokens,
    the sell calculation asks [(dx * y) / (x - dx)] tokens for [dx], which
    is no fewer, and the SOL that the bought tokens are worth under the
    invariant at the same reserves is at most [dx]. *)
Theorem round_trip_never_profits (x y k dx : Z) :
  x * y = k -> 0 < x -> 0 < y -> 0 < dx < x ->
  exists bought required out out',
    buy_tokenAmountWithDecimals x y dx = Ok bought /\
    bought = Z.quot (dx * y) (x + dx) /\
    sell_tokenAmountWithDecimals x y dx = Ok required /\
    required = Z.quot (dx * y) (x - dx) /\
    0 <= bought <= required /\
    sell_solOut x y k bought = Ok out /\ out <= dx /\
    sell_solOut_product x y bought = Ok out' /\ out' <= dx.
Proof.
  intros Hk Hx Hy [Hdx Hlt].
  assert (Hxy : 0 <= dx * y) by (apply Z.mul_nonneg_nonneg; lia).
  destruct (quot_nonneg_bounds (dx * y) (x + dx)) as (Hb0 & Hb1 & Hb2);
    [assumption | lia |].
  destruct (quot_nonneg_bounds (dx * y) (x - dx)) as (Hr0 & Hr1 & Hr2);
    [assumption | lia |].
  set (bought := Z.quot (dx * y) (x + dx)) in *.
  set (required := Z.quot (dx * y) (x - dx)) in *.
  destruct (quot_nonneg_bounds k (y + bought)) as (Hq0 & Hq1 & Hq2);
    [subst k; apply Z.mul_nonneg_nonneg; lia | lia |].
  destruct (quot_nonneg_bounds (bought * x) (y + bought))
    as (Hp0 & Hp1 & Hp2); [apply Z.mul_nonneg_nonneg; lia | lia |].
  exists bought, required, (x - Z.quot k (y + bought)),
    (Z.quot (bought * x) (y + bought)).
  unfold buy_tokenAmountWithDecimals, sell_tokenAmountWithDecimals,
    sell_solOut, sell_solOut_product.
  rewrite !bigint_div_nonzero by lia.
  assert (Hmono : bought * (x - dx) <= bought * (x + dx))
    by (apply Z.mul_le_mono_nonneg_l; lia).
  assert (Hnn : 0 <= dx * bought) by (apply Z.mul_nonneg_nonneg; lia).
  repeat split; try reflexivity; try assumption.
  - apply Z.lt_succ_r, (Z.mul_lt_mono_pos_r (x - dx)); lia.
  - apply Z.lt_succ_r, (Z.mul_lt_mono_pos_r (y + bought)); lia.
  - apply Z.lt_succ_r, (Z.mul_lt_mono_pos_r (y + bought)); lia.
Qed.

Lemma round_trip_never_profits_witness :
  exists bought required out out',
    buy_tokenAmountWithDecimals 30000000000 1073000000000000 1000000000
      = Ok bought /\
    bought = Z.quot (1000000000 * 1073000000000000)
                    (30000000000 + 1000000000) /\
    sell_tokenAmountWithDecimals 30000000000 1073000000000000 1000000000
      = Ok required /\
    required = Z.quot (1000000000 * 1073000000000000)
                      (30000000000 - 1000000000) /\
    0 <= bought <= required /\
    sell_solOut 30000000000 1073000000000000
      (30000000000 * 1073000000000000) bought = Ok out /\
    out <= 1000000000 /\
    sell_solOut_product 30000000000 1073000000000000 bought = Ok out' /\
    out' <= 1000000000.
Proof.
  apply (round_trip_never_profits 30000000000 1073000000000000
           (30000000000 * 1073000000000000) 1000000000);
    [reflexivity | reflexivity | reflexivity | split; reflexivity].
Defined.

(** ** The account-layout decoder *)

Module DecoderFacts.
Import Decoder.
Local Open Scope list_scope.

Lemma BN_le_zeros (l : bytes) (n : nat) :
  BN_le (l ++ repeat Byte.x00 n) = BN_le l.
Proof.
  induction l as [| b l IH]; cbn [app BN_le].
  - induction n as [| n IHn]; cbn [repeat BN_le]; [reflexivity |].
    rewrite IHn. reflexivity.
  - now rewrite IH.
Qed.

Lemma skipn_repeat {A} (x : A) (i n : nat) :
  skipn i (repeat x n) = repeat x (n - i).
Proof.
  revert n. induction i as [| i IH]; intros [| n]; cbn; try reflexivity.
  apply IH.
Qed.

Lemma firstn_repeat {A} (x : A) (i n : nat) :
  firstn i (repeat x n) = repeat x (Nat.min i n).
Proof.
  revert n. induction i as [| i IH]; intros [| n]; cbn; try reflexivity.
  now rewrite IH.
Qed.

(** A slice of a zero-padded buffer is the slice of the buffer, padded. *)
Lemma slice_zeros (buf : bytes) (n : nat) (first last : Z) :
  exists m, slice (buf ++ repeat Byte.x00 n) first last
            = slice buf first last ++ repeat Byte.x00 m.
Proof.
  unfold slice. rewrite skipn_app, firstn_app, skipn_repeat, firstn_repeat.
  eexists. reflexivity.
Qed.

Lemma BN_le_slice_zeros (buf : bytes) (n : nat) (first last : Z) :
  BN_le (slice (buf ++ repeat Byte.x00 n) first last)
  = BN_le (slice buf first last).
Proof.
  destruct (slice_zeros buf n first last) as [m ->]. apply BN_le_zeros.
Qed.

Lemma readUInt32LE_zeros (buf : bytes) (n : nat) (offset v : Z) :
  readUInt32LE buf offset = Ok v ->
  readUInt32LE (buf ++ repeat Byte.x00 n) offset = Ok v.
Proof.
  unfold readUInt32LE. rewrite length_app, repeat_length.
  destruct (Z.leb_spec (offset + 4) (Z.of_nat (length buf))) as [H | H];
    [| discriminate].
  intros E. injection E as <-.
  destruct (Z.leb_spec (offset + 4) (Z.of_nat (length buf + n)))
    as [_ | H']; [| lia].
  now rewrite BN_le_slice_zeros.
Qed.

Lemma readUInt32LE_short (buf : bytes) (offset : Z) :
  Z.of_nat (length buf) < offset + 4 ->
  readUInt32LE buf offset = Throw "ERR_OUT_OF_RANGE".
Proof.
  intros H. unfold readUInt32LE.
  now destruct (Z.leb_spec (offset + 4) (Z.of_nat (length buf))); [lia |].
Qed.

Lemma readUInt32LE_long (buf : bytes) (offset : Z) :
  offset + 4 <= Z.of_nat (length buf) ->
  exists v, readUInt32LE buf offset = Ok v.
Proof.
  intros H. unfold readUInt32LE.
  destruct (Z.leb_spec (offset + 4) (Z.of_nat (length buf))); [| lia].
  eexists. reflexivity.
Qed.

(** C8 (as amended). Decoding fails, with a range error, exactly when one of
    the three 4-byte length prefixes lies beyond the end of the buffer: a
    buffer of fewer than 44 bytes, or one that ends before the second or
    the third prefix, is refused, and a buffer that holds the three
    prefixes decodes. The fixed-width fields after the strings are not
    checked against the length: a buffer that decodes gives the same result
    with any number of zero bytes appended, so bytes missing from the end
    read as zero. *)
Theorem decoder_checks_length_prefixes_only :
  (forall buf : bytes,
     Z.of_nat (length buf) < 44 ->
     decodeLaunchpadState buf = Throw "ERR_OUT_OF_RANGE")
  /\ (forall (buf : bytes) (l1 : Z),
     readUInt32LE buf 40 = Ok l1 ->
     Z.of_nat (length buf) < 48 + l1 ->
     decodeLaunchpadState buf = Throw "ERR_OUT_OF_RANGE")
  /\ (forall (buf : bytes) (l1 l2 : Z),
     readUInt32LE buf 40 = Ok l1 ->
     readUInt32LE buf (44 + l1) = Ok l2 ->
     Z.of_nat (length buf) < 52 + l1 + l2 ->
     decodeLaunchpadState buf = Throw "ERR_OUT_OF_RANGE")
  /\ (forall (buf : bytes) (l1 l2 : Z),
     readUInt32LE buf 40 = Ok l1 ->
     readUInt32LE buf (44 + l1) = Ok l2 ->
     52 + l1 + l2 <= Z.of_nat (length buf) ->
     exists r, decodeLaunchpadState buf = Ok r)
  /\ (forall (buf : bytes) (r : SpotPriceModel) (n : nat),
     decodeLaunchpadState buf = Ok r ->
     decodeLaunchpadState (buf ++ repeat Byte.x00 n) = Ok r).
Proof.
  split; [| split; [| split; [| split]]].
  - intros buf H. unfold decodeLaunchpadState.
    change (8 + 32) with 40. now rewrite readUInt32LE_short by lia.
  - intros buf l1 H1 H. unfold decodeLaunchpadState.
    change (8 + 32) with 40. rewrite H1.
    now rewrite readUInt32LE_short by lia.
  - intros buf l1 l2 H1 H2 H. unfold decodeLaunchpadState.
    change (8 + 32) with 40. rewrite H1.
    replace (40 + (4 + l1)) with (44 + l1) by lia. rewrite H2.
    now rewrite readUInt32LE_short by lia.
  - intros buf l1 l2 H1 H2 H. unfold decodeLaunchpadState.
    change (8 + 32) with 40. rewrite H1.
    replace (40 + (4 + l1)) with (44 + l1) by lia. rewrite H2.
    destruct (readUInt32LE_long buf (44 + l1 + (4 + l2))) as [l3 ->];
      [lia |].
    eexists. reflexivity.
  - intros buf r n. unfold decodeLaunchpadState.
    destruct (readUInt32LE buf (8 + 32)) as [l1 | e] eqn:H1;
      [| discriminate].
    rewrite (readUInt32LE_zeros _ n _ _ H1).
    destruct (readUInt32LE buf (8 + 32 + (4 + l1))) as [l2 | e] eqn:H2;
      [| discriminate].
    rewrite (readUInt32LE_zeros _ n _ _ H2).
    destruct (readUInt32LE buf (8 + 32 + (4 + l1) + (4 + l2)))
      as [l3 | e] eqn:H3; [| discriminate].
    rewrite (readUInt32LE_zeros _ n _ _ H3).
    rewrite !BN_le_slice_zeros. trivial.
Qed.

(** An account of 108 bytes whose last field, [tokensSoldRaw], is [2^56],
    and the same account with its last byte cut off: the cut buffer is
    decoded without any error, to a different number of tokens sold. *)
Lemma decoder_accepts_truncated_buffer :
  let full := repeat Byte.x00 107 ++ [Byte.x01] in
  let cut := repeat Byte.x00 107 in
  decodeLaunchpadState full
  = Ok {| tokensSoldRaw := 2 ^ 56; initialPriceLamports := 0; slope := 0 |}
  /\ Z.of_nat (length cut) < 108
  /\ decodeLaunchpadState cut
     = Ok {| tokensSoldRaw := 0; initialPriceLamports := 0; slope := 0 |}.
Proof. cbn zeta. repeat split; vm_compute; reflexivity. Qed.

Lemma decoder_checks_length_prefixes_only_witness :
  decodeLaunchpadState (repeat Byte.x00 43) = Throw "ERR_OUT_OF_RANGE".
Proof.
  apply (proj1 decoder_checks_length_prefixes_only (repeat Byte.x00 43)).
  reflexivity.
Defined.

End DecoderFacts.

(** ** The positivity guard and the amount validation, run *)

(** A buy whose amount converts to [0n] is rejected as too low. *)
Lemma buy_rejects_zero_amount (W : Collaborators) (addr buyer m v : string)
    (amount : Amount) (st : LaunchpadState) :
  fetchMaybeLaunchpadState W addr = Ok (Some st) ->
  mint st = Some m -> tokenVault st = Some v ->
  toBigInt W amount = Ok 0 ->
  virtualSolReserves st <> 0 -> virtualTokenReserves st <> 0 ->
  post_buy W {| buy_launchpadStateAddress := Some addr;
                buy_solAmount := Some amount;
                buy_buyer := Some buyer |}
  = ([EFetchLaunchpadState addr],
     json 400 (BError "SOL amount is too low to purchase any tokens.")).
Proof.
  intros Hf Hm Hv Hn Hx Hy.
  unfold post_buy, buy_body, fetch_state, required.
  cbn [buy_launchpadStateAddress buy_solAmount buy_buyer].
  name_messages. run. rewrite Hf. run. rewrite Hm, Hv. run.
  rewrite Hn. run.
  rewrite (proj2 (reserves_test _ _) (conj Hx Hy)). run.
  unfold buy_tokenAmountWithDecimals.
  rewrite bigint_div_nonzero by (cbn; lia). run.
  cbn [Z.mul Z.quot Z.quotrem fst Z.leb Z.compare]. run. reflexivity.
Qed.

(** C2. The guard of the buy and the sell route tests the scaled amount,
    before the division by [10^6]: on a launchpad with reserves
    [x = 30_000_000_000] and [y = 20_000_000], a buy of 1 SOL has the scaled
    amount [645_161], passes the guard and is answered with an instruction
    for [0] tokens, and so is a sale for 1 SOL, whose scaled amount is
    [689_655]; a buy of 0 SOL is rejected. *)
Theorem swap_guard_admits_zero_raw_amount :
  let W := Sample.world Sample.depleted in
  buy_tokenAmountWithDecimals 30000000000 20000000 1000000000 = Ok 645161
  /\ encodeBuyToken W 0
     = Ok [Byte.x01; Byte.x00; Byte.x00; Byte.x00; Byte.x00; Byte.x00;
           Byte.x00; Byte.x00; Byte.x00]
  /\ snd (post_buy W (Sample.buy Sample.one))
     = json 200 (BInstruction "Launchpad"
         (Sample.buy_instruction
            [Byte.x01; Byte.x00; Byte.x00; Byte.x00; Byte.x00; Byte.x00;
             Byte.x00; Byte.x00; Byte.x00])
         (Some (645161, 0)))
  /\ post_sell W (Sample.sell None (Some Sample.one))
     = ([EFetchLaunchpadState "State";
         ECalculationLog "Sell instruction calculation:"
           [1000000000; 30000000000; 20000000; 600000000000000000;
            689655; 0]],
        json 200 (BInstruction "Launchpad"
          (Sample.sell_instruction
             [Byte.x02; Byte.x00; Byte.x00; Byte.x00; Byte.x00; Byte.x00;
              Byte.x00; Byte.x00; Byte.x00])
          None))
  /\ post_buy W (Sample.buy Sample.zero)
     = ([EFetchLaunchpadState "State"],
        json 400 (BError "SOL amount is too low to purchase any tokens.")).
Proof. cbn zeta. repeat split; vm_compute; reflexivity. Qed.

(** C6. The validation of the sell route tests the truthiness of the two
    fields, and step 4 tests [solAmount !== undefined]: a request with
    [tokenAmount: 0] and [solAmount: 1] passes the validation, fetches the
    state and is answered with an instruction; one with [tokenAmount: 5n]
    and [solAmount: 0] passes it too, fetches the state, and is then
    refused for its SOL amount. A request with both amounts non-zero is
    refused before any fetch. *)
Theorem sell_validation_admits_both_amounts :
  let W := Sample.world Sample.fresh in
  post_sell W (Sample.sell (Some Sample.zero) (Some Sample.one))
  = ([EFetchLaunchpadState "State";
      ECalculationLog "Sell instruction calculation:"
        [1000000000; 30000000000; 1073000000000000;
         32190000000000000000000000; 37000000000000; 37000000]],
     json 200 (BInstruction "Launchpad"
       (Sample.sell_instruction
          [Byte.x02; Byte.x40; Byte.x93; Byte.x34; Byte.x02; Byte.x00;
           Byte.x00; Byte.x00; Byte.x00])
       None))
  /\ post_sell W (Sample.sell (Some (ABigInt 5)) (Some Sample.zero))
     = ([EFetchLaunchpadState "State"],
        json 400 (BError "SOL amount is too low to sell any tokens."))
  /\ post_sell W (Sample.sell (Some (ABigInt 5)) (Some Sample.one))
     = ([],
        json 400
          (BError "Provide either tokenAmount or solAmount, not both")).
Proof. cbn zeta. repeat split; vm_compute; reflexivity. Qed.

(** ** The scenarios of the specification, run *)

Lemma buy_amount_is_truncated_quotient_witness :
  snd (post_buy (Sample.world Sample.fresh) (Sample.buy Sample.one))
  = json 200 (BInstruction "Launchpad"
      (Sample.buy_instruction
         [Byte.x01; Byte.xa7; Byte.x26; Byte.x10; Byte.x02; Byte.x00;
          Byte.x00; Byte.x00; Byte.x00])
      (Some (34612903225806, 34612903))).
Proof.
  apply (proj1 buy_amount_is_truncated_quotient
           (Sample.world Sample.fresh) "State" "Buyer" "Mint" "TokenVault"
           "launchpad_authority/State" "sol_vault/State" "ata/Mint/Buyer"
           Sample.one Sample.fresh 1 30000000000 1073000000000000
           1000000000
           [Byte.x01; Byte.xa7; Byte.x26; Byte.x10; Byte.x02; Byte.x00;
            Byte.x00; Byte.x00; Byte.x00]);
    try reflexivity; discriminate.
Defined.

Lemma sell_by_sol_rejects_at_or_above_reserves_witness :
  is_error (snd (post_sell (Sample.world Sample.fresh)
                   (Sample.sell None (Some (ABigInt 30))))) = true /\
  instruction_of (snd (post_sell (Sample.world Sample.fresh)
                         (Sample.sell None (Some (ABigInt 30))))) = None /\
  never is_calculation
    (fst (post_sell (Sample.world Sample.fresh)
            (Sample.sell None (Some (ABigInt 30))))) = true.
Proof.
  apply (proj1 sell_by_sol_rejects_at_or_above_reserves
           (Sample.world Sample.fresh)
           (Sample.sell None (Some (ABigInt 30))) "State" (ABigInt 30)
           Sample.fresh 30 eq_refl eq_refl eq_refl eq_refl).
  discriminate.
Defined.

Lemma swap_routes_independent_of_k_witness :
  snd (post_buy
         (with_fetch (Sample.world Sample.fresh)
            (fun _ => Ok (Some Sample.fresh)))
         (Sample.buy Sample.one))
  = snd (post_buy
           (with_fetch (Sample.world Sample.fresh)
              (fun _ => Ok (Some
                 {| status := Trading;
                    virtualSolReserves := 30000000000;
                    virtualTokenReserves := 1073000000000000;
                    k := 7;
                    mint := Some "Mint";
                    tokenVault := Some "TokenVault";
                    solRaised := 0;
                    tokensSold := 0;
                    solRaiseTarget := 85000000000;
                    tokensForSale := 800000000;
                    platformAuthority := "Platform" |})))
           (Sample.buy Sample.one)).
Proof.
  apply (swap_routes_independent_of_k (Sample.world Sample.fresh)
           (fun _ => Ok (Some Sample.fresh))
           (fun _ => Ok (Some
              {| status := Trading;
                 virtualSolReserves := 30000000000;
                 virtualTokenReserves := 1073000000000000;
                 k := 7;
                 mint := Some "Mint";
                 tokenVault := Some "TokenVault";
                 solRaised := 0;
                 tokensSold := 0;
                 solRaiseTarget := 85000000000;
                 tokensForSale := 800000000;
                 platformAuthority := "Platform" |}))).
  intros a. apply same_fetch_state. repeat split.
Defined.

(** ** The integer square root *)

Module SqrtFacts.
Import Sqrt.

(** One Newton step from a positive [x] stays positive and above the
    root. *)
Lemma newton_step_bounds (n x : Z) :
  1 <= n -> 0 < x ->
  0 < Z.quot (Z.quot n x + x) 2 /\
  n < (Z.quot (Z.quot n x + x) 2 + 1) * (Z.quot (Z.quot n x + x) 2 + 1).
Proof.
  intros Hn Hx.
  destruct (quot_nonneg_bounds n x) as (Hq0 & Hq1 & Hq2); [lia | lia |].
  set (q := Z.quot n x) in *.
  destruct (quot_nonneg_bounds (q + x) 2) as (Hy0 & Hy1 & Hy2);
    [lia | lia |].
  set (y := Z.quot (q + x) 2) in *.
  assert (Hpos : 0 < y).
  { assert (2 <= q + x); [| lia].
    destruct (Z.eq_dec x 1) as [-> | Hne]; [| lia].
    assert (n < (q + 1) * 1) by lia. lia. }
  split; [exact Hpos |].
  assert (H2 : q + x + 1 <= 2 * (y + 1)) by lia.
  assert (Hsq : (q + x + 1) * (q + x + 1) <= (2 * (y + 1)) * (2 * (y + 1)))
    by (apply Z.mul_le_mono_nonneg; lia).
  assert (Ham : 4 * ((q + 1) * x) <= (q + x + 1) * (q + x + 1)).
  { pose proof (Z.square_nonneg (q + 1 - x)) as S. lia. }
  lia.
Qed.

(** The loop, from a positive [x0] above the root and the Newton step [x1]
    from it, ends on the root within [x0] rounds. *)
Lemma loop_finds_root (n : Z) (fuel : nat) :
  1 <= n ->
  forall x0 x1,
    0 < x0 -> n < (x0 + 1) * (x0 + 1) ->
    x1 = Z.quot (Z.quot n x0 + x0) 2 ->
    (Z.to_nat x0 <= fuel)%nat ->
    bigIntSqrt_loop fuel n x0 x1 = Some (Ok (Z.sqrt n)).
Proof.
  intros Hn. induction fuel as [| fuel IH]; intros x0 x1 Hx0 Hup Hx1 Hfuel.
  - lia.
  - destruct (newton_step_bounds n x0 Hn Hx0) as [Hpos Hup'].
    rewrite <- Hx1 in Hpos, Hup'.
    cbn [bigIntSqrt_loop].
    destruct (Z.ltb_spec x1 x0) as [Hlt | Hge].
    + rewrite bigint_div_nonzero by lia.
      rewrite bigint_div_nonzero by lia.
      apply IH; [assumption | assumption | reflexivity | lia].
    + f_equal. f_equal. symmetry. apply Z.sqrt_unique.
      split; [| lia].
      destruct (quot_nonneg_bounds n x0) as (Hq0 & Hq1 & Hq2);
        [lia | lia |].
      destruct (quot_nonneg_bounds (Z.quot n x0 + x0) 2)
        as (Hy0 & Hy1 & Hy2); [lia | lia |].
      rewrite <- Hx1 in Hy1, Hy2.
      assert (Hq : x0 <= Z.quot n x0) by lia.
      assert (x0 * x0 <= Z.quot n x0 * x0)
        by (apply Z.mul_le_mono_nonneg_r; lia).
      lia.
Qed.

(** X1. [bigIntSqrt] ends (within [n] rounds of its loop) and, for every
    [n >= 0] other than 2, returns the integer square root of [n]; it
    returns 2 for 2, and throws for a negative [n]. *)
Theorem bigIntSqrt_is_integer_root_except_at_2 :
  (forall (n : Z) (fuel : nat),
     0 <= n -> n <> 2 -> (Z.to_nat n <= fuel)%nat ->
     bigIntSqrt fuel n = Some (Ok (Z.sqrt n)) /\
     Z.sqrt n * Z.sqrt n <= n < (Z.sqrt n + 1) * (Z.sqrt n + 1))
  /\ (forall fuel : nat, bigIntSqrt fuel 2 = Some (Ok 2))
  /\ (forall (n : Z) (fuel : nat),
        n < 0 ->
        bigIntSqrt fuel n
        = Some (Throw "Cannot calculate square root of a negative number")).
Proof.
  split; [| split].
  - intros n fuel Hn Hne Hfuel.
    split; [| pose proof (Z.sqrt_spec n Hn) as S; cbv zeta in S; lia].
    unfold bigIntSqrt.
    destruct (Z.ltb_spec n 0) as [| _]; [lia |].
    destruct (Z.eqb_spec n 0) as [-> | Hn0]; [reflexivity |].
    rewrite bigint_div_nonzero by lia.
    destruct (quot_nonneg_bounds n 2) as (Hh0 & Hh1 & Hh2); [lia | lia |].
    set (h := Z.quot n 2) in *.
    destruct fuel as [| fuel]; [lia |].
    cbn [bigIntSqrt_loop].
    destruct (Z.ltb_spec (h + 1) n) as [Hlt | Hge].
    + rewrite bigint_div_nonzero by lia.
      rewrite bigint_div_nonzero by lia.
      apply loop_finds_root; [lia | lia | | reflexivity | lia].
      assert (0 <= h * h) by (apply Z.mul_nonneg_nonneg; lia). lia.
    + assert (n = 1) as -> by lia. reflexivity.
  - intros fuel. destruct fuel; reflexivity.
  - intros n fuel Hn. unfold bigIntSqrt.
    destruct (Z.ltb_spec n 0); [reflexivity | lia].
Qed.

Lemma bigIntSqrt_is_integer_root_except_at_2_witness :
  bigIntSqrt 17 17 = Some (Ok (Z.sqrt 17)) /\
  Z.sqrt 17 * Z.sqrt 17 <= 17 < (Z.sqrt 17 + 1) * (Z.sqrt 17 + 1).
Proof.
  apply (proj1 bigIntSqrt_is_integer_root_except_at_2 17 17%nat);
    [discriminate | discriminate | apply le_n].
Defined.

End SqrtFacts.

(** ** Bounds of the swap amounts *)

(** X2. At positive reserves a buy for a non-negative lamport amount gets a
    scaled amount that is non-negative and stays below the virtual token
    reserves, the raw amount is no larger, and a larger lamport amount
    never buys fewer tokens. *)
Theorem buy_amount_bounded_and_monotone (x y dx dx' : Z) :
  0 < x -> 0 < y -> 0 <= dx <= dx' ->
  exists bought bought',
    buy_tokenAmountWithDecimals x y dx = Ok bought /\
    buy_tokenAmountWithDecimals x y dx' = Ok bought' /\
    0 <= Z.quot bought 1000000 <= bought /\
    bought < y /\
    bought <= bought'.
Proof.
  intros Hx Hy [Hdx Hle].
  assert (Hxy : 0 <= dx * y) by (apply Z.mul_nonneg_nonneg; lia).
  assert (Hxy' : 0 <= dx' * y) by (apply Z.mul_nonneg_nonneg; lia).
  destruct (quot_nonneg_bounds (dx * y) (x + dx)) as (Hb0 & Hb1 & Hb2);
    [assumption | lia |].
  destruct (quot_nonneg_bounds (dx' * y) (x + dx')) as (Hc0 & Hc1 & Hc2);
    [assumption | lia |].
  unfold buy_tokenAmountWithDecimals.
  rewrite !bigint_div_nonzero by lia.
  set (b := Z.quot (dx * y) (x + dx)) in *.
  set (b' := Z.quot (dx' * y) (x + dx')) in *.
  destruct (quot_nonneg_bounds b 1000000) as (Hr0 & Hr1 & _);
    [assumption | lia |].
  exists b, b'. repeat split; try reflexivity; try lia.
  - apply (Z.mul_lt_mono_pos_r (x + dx)); [lia |].
    assert (dx * y < y * (x + dx)); [| lia].
    assert (0 < y * x) by (apply Z.mul_pos_pos; lia). lia.
  - apply Z.lt_succ_r. apply Z.nle_gt. intros Hgt.
    assert (H1 : (b' + 1) * (x + dx') <= b * (x + dx'))
      by (apply Z.mul_le_mono_nonneg_r; lia).
    assert (H2 : dx' * y * (x + dx) < b * (x + dx') * (x + dx))
      by (apply Z.mul_lt_mono_pos_r; lia).
    assert (H3 : b * (x + dx) * (x + dx') <= dx * y * (x + dx'))
      by (apply Z.mul_le_mono_nonneg_r; lia).
    assert (H4 : 0 <= (dx' - dx) * (y * x))
      by (apply Z.mul_nonneg_nonneg; [lia | apply Z.mul_nonneg_nonneg; lia]).
    lia.
Qed.

Lemma buy_amount_bounded_and_monotone_witness :
  exists bought bought',
    buy_tokenAmountWithDecimals 30000000000 1073000000000000 1000000000
      = Ok bought /\
    buy_tokenAmountWithDecimals 30000000000 1073000000000000 2000000000
      = Ok bought' /\
    0 <= Z.quot bought 1000000 <= bought /\
    bought < 1073000000000000 /\
    bought <= bought'.
Proof.
  apply (buy_amount_bounded_and_monotone 30000000000 1073000000000000
           1000000000 2000000000);
    [reflexivity | reflexivity | split; discriminate].
Defined.

(** ** Amounts that are not positive *)

Lemma quot_nonpos (a b : Z) : a <= 0 -> 0 < b -> Z.quot a b <= 0.
Proof.
  intros Ha Hb. replace a with (- - a) by lia.
  rewrite Z.quot_opp_l by lia.
  pose proof (Z.quot_pos (- a) b ltac:(lia) Hb). lia.
Qed.

(** The buy route as far as the calculation, for a request whose fields are
    present and whose state is initialised. *)
Lemma buy_runs_to_calculation (W : Collaborators) (addr buyer m v : string)
    (amount : Amount) (st : LaunchpadState) (n : Z) :
  fetchMaybeLaunchpadState W addr = Ok (Some st) ->
  mint st = Some m -> tokenVault st = Some v ->
  toBigInt W amount = Ok n ->
  virtualSolReserves st <> 0 -> virtualTokenReserves st <> 0 ->
  (virtualSolReserves st + n * 1000000000 = 0 ->
   post_buy W {| buy_launchpadStateAddress := Some addr;
                 buy_solAmount := Some amount;
                 buy_buyer := Some buyer |}
   = ([EFetchLaunchpadState addr],
      json 500 (BError "Division by zero")))
  /\
  (virtualSolReserves st + n * 1000000000 <> 0 ->
   Z.quot (n * 1000000000 * virtualTokenReserves st)
          (virtualSolReserves st + n * 1000000000) <= 0 ->
   post_buy W {| buy_launchpadStateAddress := Some addr;
                 buy_solAmount := Some amount;
                 buy_buyer := Some buyer |}
   = ([EFetchLaunchpadState addr],
      json 400 (BError "SOL amount is too low to purchase any tokens."))).
Proof.
  intros Hf Hm Hv Hn Hx Hy.
  unfold post_buy, buy_body, fetch_state, required.
  cbn [buy_launchpadStateAddress buy_solAmount buy_buyer].
  name_messages. run. rewrite Hf. run. rewrite Hm, Hv. run.
  rewrite Hn. run.
  rewrite (proj2 (reserves_test _ _) (conj Hx Hy)). run.
  unfold buy_tokenAmountWithDecimals, bigint_div, LAMPORTS_PER_SOL.
  split.
  - intros ->. cbn [Z.eqb]. run. reflexivity.
  - intros Hne Hle. rewrite (proj2 (Z.eqb_neq _ _) Hne). run.
    rewrite (proj2 (Z.leb_le _ _) Hle). run. reflexivity.
Qed.

(** X3. The buy route does not refuse a negative amount as such. At
    positive reserves [x], [y] and lamports [dx <= 0]: when [-x < dx] the
    request is answered 400 "too low"; when [dx = -x] the division throws
    and the answer is the 500 of the catch, with the message of the
    error, "Division by zero"; when [dx < -x] the quotient of two negative
    numbers is positive, the guard passes, and an instruction is
    answered. *)
Theorem buy_with_nonpositive_amount
    (W : Collaborators) (addr buyer m v : string) (amount : Amount)
    (st : LaunchpadState) (n : Z) :
  fetchMaybeLaunchpadState W addr = Ok (Some st) ->
  mint st = Some m -> tokenVault st = Some v ->
  toBigInt W amount = Ok n ->
  0 < virtualSolReserves st -> 0 < virtualTokenReserves st ->
  n <= 0 ->
  let x := virtualSolReserves st in
  let y := virtualTokenReserves st in
  let dx := n * 1000000000 in
  let request := {| buy_launchpadStateAddress := Some addr;
                    buy_solAmount := Some amount;
                    buy_buyer := Some buyer |} in
  (- x < dx ->
   post_buy W request
   = ([EFetchLaunchpadState addr],
      json 400 (BError "SOL amount is too low to purchase any tokens.")))
  /\ (dx = - x ->
      post_buy W request
      = ([EFetchLaunchpadState addr],
         json 500 (BError "Division by zero")))
  /\ (dx < - x ->
      0 < Z.quot (dx * y) (x + dx) /\
      forall authority vault account payload,
        getProgramDerivedAddress W "launchpad_authority" addr
          = Ok authority ->
        getProgramDerivedAddress W "sol_vault" addr = Ok vault ->
        getAssociatedTokenAddress W m buyer = Ok account ->
        encodeBuyToken W (Z.quot (Z.quot (dx * y) (x + dx)) 1000000)
          = Ok payload ->
        instruction_of (snd (post_buy W request))
        = Some {| programId := LAUNCHPAD_PROGRAM_ADDRESS W;
                  keys := buyTokenKeys addr authority vault v m buyer
                            account;
                  data := payload |}).
Proof.
  intros Hf Hm Hv Hn Hx Hy Hneg x y dx request.
  destruct (buy_runs_to_calculation W addr buyer m v amount st n
              Hf Hm Hv Hn ltac:(lia) ltac:(lia)) as [Hzero Hlow].
  fold x y dx in Hzero, Hlow.
  split; [| split].
  - intros Hgt. apply Hlow; [lia |].
    apply quot_nonpos; [| lia].
    apply Z.mul_nonpos_nonneg; lia.
  - intros E. apply Hzero. lia.
  - intros Hlt.
    assert (Hpos : 0 < Z.quot (dx * y) (x + dx)).
    { rewrite <- Z.quot_opp_opp by lia.
      apply Z.quot_str_pos. split; [lia |].
      assert (- dx * 1 <= - dx * y)
        by (apply Z.mul_le_mono_nonneg_l; lia).
      lia. }
    split; [exact Hpos |].
    intros authority vault account payload Ha Hs Ht He.
    unfold request.
    rewrite (buy_runs W addr buyer m v authority vault account amount st n
               x y dx payload Hf Hm Hv eq_refl eq_refl Hn eq_refl
               ltac:(lia) ltac:(lia) ltac:(lia) Hpos Ha Hs Ht He).
    reflexivity.
Qed.

Lemma buy_with_nonpositive_amount_witness :
  post_buy (Sample.world Sample.fresh) (Sample.buy (ABigInt (-29)))
  = ([EFetchLaunchpadState "State"],
     json 400 (BError "SOL amount is too low to purchase any tokens.")).
Proof.
  apply (buy_with_nonpositive_amount (Sample.world Sample.fresh)
           "State" "Buyer" "Mint" "TokenVault" (ABigInt (-29)) Sample.fresh
           (-29) eq_refl eq_refl eq_refl eq_refl eq_refl eq_refl);
    [discriminate | reflexivity].
Defined.



(** X5. A sale by token amount (no SOL amount in the request) passes the
    converted amount on as it is: no reserve is read or tested, nothing is
    calculated or logged, and the instruction carries the encoding of
    exactly that amount. *)
Theorem sell_by_tokens_passes_amount_through
    (W : Collaborators) (b : SellRequestBody)
    (addr seller m v vault account : string) (tokens : Amount)
    (st : LaunchpadState) (final : Z) (payload : bytes) :
  sell_launchpadStateAddress b = Some addr ->
  sell_seller b = Some seller ->
  sell_solAmount b = None ->
  sell_tokenAmount b = Some tokens ->
  truthy tokens = true ->
  fetchMaybeLaunchpadState W addr = Ok (Some st) ->
  mint st = Some m -> tokenVault st = Some v ->
  toBigInt W tokens = Ok final ->
  getProgramDerivedAddress W "sol_vault" addr = Ok vault ->
  getAssociatedTokenAddress W m seller = Ok account ->
  encodeSellToken W final = Ok payload ->
  post_sell W b
  = ([EFetchLaunchpadState addr],
     json 200 (BInstruction (LAUNCHPAD_PROGRAM_ADDRESS W)
       {| programId := LAUNCHPAD_PROGRAM_ADDRESS W;
          keys := sellTokenKeys addr vault v m seller account;
          data := payload |}
       None)).
Proof.
  intros Ha Hse Hs Ht Htruthy Hf Hm Hv Hn Hsv Hata He.
  unfold post_sell, sell_body, fetch_state, required.
  rewrite Ha, Hse, Hs, Ht. cbn [truthy_field]. rewrite Htruthy.
  cbn [negb andb]. name_messages. run. rewrite Hf. run.
  rewrite Hm, Hv. run. rewrite Hn. run. rewrite Hsv. run.
  rewrite Hata. run. rewrite He. run. reflexivity.
Qed.

Lemma sell_by_tokens_passes_amount_through_witness :
  post_sell
    (Sample.world (Sample.state Trading 0 0 "Platform"))
    (Sample.sell (Some (ABigInt 5)) None)
  = ([EFetchLaunchpadState "State"],
     json 200 (BInstruction "Launchpad"
       (Sample.sell_instruction
          [Byte.x02; Byte.x05; Byte.x00; Byte.x00; Byte.x00; Byte.x00;
           Byte.x00; Byte.x00; Byte.x00])
       None)).
Proof.
  apply (sell_by_tokens_passes_amount_through
           (Sample.world (Sample.state Trading 0 0 "Platform"))
           (Sample.sell (Some (ABigInt 5)) None)
           "State" "Seller" "Mint" "TokenVault" "sol_vault/State"
           "ata/Mint/Seller" (ABigInt 5)
           (Sample.state Trading 0 0 "Platform") 5);
    reflexivity.
Defined.

(** ** Requests that end before or at the state fetch *)

(** X6. No route calls the network for a request that lacks a required
    field: the buy and the sell route answer 400 naming the first missing
    field, the graduate and the two SAFE routes answer 400 for a missing or
    empty launchpad address, all without any effect, and the cache of the
    check-and-generate-safe route is left as it was. *)
Theorem missing_fields_end_before_any_effect (W : Collaborators) :
  (forall b : BuyRequestBody,
     buy_launchpadStateAddress b = None \/ buy_solAmount b = None
       \/ buy_buyer b = None ->
     exists field,
       post_buy W b
       = (nil, json 400 (BError (String.append "Missing field: " field))) /\
       (field = "launchpadStateAddress" /\ buy_launchpadStateAddress b = None
        \/ field = "solAmount" /\ buy_launchpadStateAddress b <> None
             /\ buy_solAmount b = None
        \/ field = "buyer" /\ buy_launchpadStateAddress b <> None
             /\ buy_solAmount b <> None /\ buy_buyer b = None))
  /\ (forall b : SellRequestBody,
     sell_launchpadStateAddress b = None \/ sell_seller b = None ->
     exists field,
       post_sell W b
       = (nil, json 400 (BError (String.append "Missing field: " field))) /\
       (field = "launchpadStateAddress"
          /\ sell_launchpadStateAddress b = None
        \/ field = "seller" /\ sell_launchpadStateAddress b <> None
             /\ sell_seller b = None))
  /\ (forall (body : option StateRequestBody) (cache : SafeCache),
     state_address body = None ->
     post_graduate W body
     = (nil, json 400 (BError "Missing field: launchpadStateAddress")) /\
     post_generate_safe W body
     = (nil, json 400 (BError "Missing field: launchpadStateAddress")) /\
     post_check_and_generate_safe W cache body
     = (nil, (cache,
              json 400 (BError "Missing field: launchpadStateAddress")))).
Proof.
  split; [| split].
  - intros [[a |] [s |] [u |]] H; cbn in H;
      try (exfalso; destruct H as [H | [H | H]]; discriminate H);
      unfold post_buy, buy_body, required;
      cbn [buy_launchpadStateAddress buy_solAmount buy_buyer];
      eexists; (split; [run; reflexivity |]); cbn;
      intuition congruence.
  - intros [[a |] t s [u |]] H; cbn in H;
      try (exfalso; destruct H as [H | H]; discriminate H);
      unfold post_sell, sell_body, required;
      cbn [sell_launchpadStateAddress sell_seller];
      eexists; (split; [run; reflexivity |]); cbn;
      intuition congruence.
  - intros body cache H.
    unfold post_graduate, graduate_body, post_generate_safe,
      generate_safe_body, post_check_and_generate_safe,
      check_and_generate_safe_body.
    rewrite H. repeat split.
Qed.

Lemma missing_fields_end_before_any_effect_witness :
  exists field,
    post_buy (Sample.world Sample.fresh)
      {| buy_launchpadStateAddress := Some "State";
         buy_solAmount := None;
         buy_buyer := None |}
    = (nil, json 400 (BError (String.append "Missing field: " field))) /\
    (field = "launchpadStateAddress" /\ Some "State" = None
     \/ field = "solAmount" /\ Some "State" <> None
          /\ @None Amount = None
     \/ field = "buyer" /\ Some "State" <> None
          /\ @None Amount <> None /\ @None string = None).
Proof.
  apply (proj1 (missing_fields_end_before_any_effect
                  (Sample.world Sample.fresh))
           {| buy_launchpadStateAddress := Some "State";
              buy_solAmount := None;
              buy_buyer := None |}).
  right. left. reflexivity.
Defined.

(** X7. When the launchpad account does not exist, each of the five routes
    answers 404 after the state fetch and does nothing else: no
    calculation, no submission, no bridge call, no change of the cache. *)
Theorem absent_account_is_not_found
    (W : Collaborators) (a : string) :
  fetchMaybeLaunchpadState W a = Ok None ->
  (forall amount buyer,
     post_buy W {| buy_launchpadStateAddress := Some a;
                   buy_solAmount := Some amount;
                   buy_buyer := Some buyer |}
     = ([EFetchLaunchpadState a],
        json 404 (BError "Launchpad state account not found")))
  /\ (forall b seller,
     sell_launchpadStateAddress b = Some a ->
     sell_seller b = Some seller ->
     xorb (truthy_field (sell_tokenAmount b))
          (truthy_field (sell_solAmount b)) = true ->
     post_sell W b
     = ([EFetchLaunchpadState a],
        json 404 (BError "Launchpad state account not found")))
  /\ (forall body a0 (cache : SafeCache),
     state_address body = Some a0 ->
     address W a0 = Ok a ->
     post_graduate W body
     = ([EFetchLaunchpadState a],
        json 404 (BError "Launchpad state account not found")) /\
     post_generate_safe W body
     = ([EFetchLaunchpadState a],
        json 404 (BError "Launchpad state account not found")) /\
     (cache !! a0 = None ->
      post_check_and_generate_safe W cache body
      = ([EFetchLaunchpadState a],
         (cache, json 404 (BError "Launchpad state account not found"))))).
Proof.
  intros Hf. split; [| split].
  - intros amount buyer.
    unfold post_buy, buy_body, fetch_state, required.
    cbn [buy_launchpadStateAddress buy_solAmount buy_buyer].
    name_messages. run. rewrite Hf. run. reflexivity.
  - intros b seller Ha Hse Hxor.
    unfold post_sell, sell_body, fetch_state, required.
    rewrite Ha, Hse.
    replace (negb (truthy_field (sell_tokenAmount b))
             && negb (truthy_field (sell_solAmount b))) with false
      by (destruct (truthy_field (sell_tokenAmount b)),
            (truthy_field (sell_solAmount b));
          try reflexivity; discriminate Hxor).
    replace (truthy_field (sell_tokenAmount b)
             && truthy_field (sell_solAmount b)) with false
      by (destruct (truthy_field (sell_tokenAmount b)),
            (truthy_field (sell_solAmount b));
          try reflexivity; discriminate Hxor).
    name_messages. run. rewrite Hf. run. reflexivity.
  - intros body a0 cache Hb Ha.
    unfold post_graduate, graduate_body, post_generate_safe,
      generate_safe_body, post_check_and_generate_safe,
      check_and_generate_safe_body, fetch_state.
    rewrite Hb, Ha. name_messages. run. rewrite Hf. run.
    repeat split. intros ->. run. reflexivity.
Qed.

Lemma absent_account_is_not_found_witness :
  post_buy (with_fetch (Sample.world Sample.fresh) (fun _ => Ok None))
    (Sample.buy Sample.one)
  = ([EFetchLaunchpadState "State"],
     json 404 (BError "Launchpad state account not found")).
Proof.
  apply (proj1 (absent_account_is_not_found
                  (with_fetch (Sample.world Sample.fresh)
                     (fun _ => Ok None))
                  "State" eq_refl)).
Defined.

(** ** Graduation, once the gate is passed *)

(** X8. A graduate request that passes the gate and the authority check
    fetches the state once, asks for a blockhash and, when it gets one,
    submits the two-account instruction once. A failing blockhash request
    is answered 500 and nothing is submitted; a failing submission is
    answered 500 with its message; a confirmed submission is answered 200
    with the signature, previous status Transition and new status Safe,
    the state not being fetched again. *)
Theorem graduate_submits_once
    (W : Collaborators) (body : option StateRequestBody)
    (a a' program pk : string) (st : LaunchpadState) :
  state_address body = Some a ->
  address W a = Ok a' ->
  fetchMaybeLaunchpadState W a' = Ok (Some st) ->
  status st = Transition ->
  platformAuthority st = PLATFORM_AUTHORITY_PUBLIC_KEY W ->
  PublicKey W (LAUNCHPAD_PROGRAM_ADDRESS W) = Ok program ->
  PublicKey W a = Ok pk ->
  let ix := {| programId := program;
               keys := [ writable pk;
                         signer_writable (PLATFORM_AUTHORITY_PUBLIC_KEY W) ];
               data := encodeGraduateToSafe W |} in
  (forall e, getLatestBlockhash W = Throw e ->
     post_graduate W body
     = ([EFetchLaunchpadState a'; EGetLatestBlockhash],
        json 500 (BFailure e)))
  /\ (forall recent e,
        getLatestBlockhash W = Ok recent ->
        sendAndConfirmTransaction W ix = Throw e ->
        post_graduate W body
        = ([EFetchLaunchpadState a'; EGetLatestBlockhash;
            ESendAndConfirmTransaction ix],
           json 500 (BFailure e)))
  /\ (forall recent signature,
        getLatestBlockhash W = Ok recent ->
        sendAndConfirmTransaction W ix = Ok signature ->
        post_graduate W body
        = ([EFetchLaunchpadState a'; EGetLatestBlockhash;
            ESendAndConfirmTransaction ix],
           json 200 (BGraduated signature a "Transition" "Safe"
                       (raise_info st)))).
Proof.
  intros Hb Ha Hf Hs Hp Hprog Hpk ix.
  split; [| split].
  - intros e Hr.
    unfold post_graduate, graduate_body, fetch_state.
    rewrite Hb, Ha. name_messages. run. rewrite Hf. run.
    rewrite Hs. cbn [LaunchpadStatus_eqb negb]. run.
    rewrite Hp, String.eqb_refl. cbn [negb]. run.
    rewrite Hprog. run. rewrite Hpk. run.
    rewrite Hr. run. reflexivity.
  - intros recent e Hr Hsend.
    unfold post_graduate, graduate_body, fetch_state.
    rewrite Hb, Ha. name_messages. run. rewrite Hf. run.
    rewrite Hs. cbn [LaunchpadStatus_eqb negb]. run.
    rewrite Hp, String.eqb_refl. cbn [negb]. run.
    rewrite Hprog. run. rewrite Hpk. run.
    rewrite Hr. run. fold ix. rewrite Hsend. run. reflexivity.
  - intros recent signature Hr Hsend.
    unfold post_graduate, graduate_body, fetch_state.
    rewrite Hb, Ha. name_messages. run. rewrite Hf. run.
    rewrite Hs. cbn [LaunchpadStatus_eqb negb]. run.
    rewrite Hp, String.eqb_refl. cbn [negb]. run.
    rewrite Hprog. run. rewrite Hpk. run.
    rewrite Hr. run. fold ix. rewrite Hsend. run. reflexivity.
Qed.

Lemma graduate_submits_once_witness :
  post_graduate
    (Sample.world (Sample.state Transition 30000000000 1073000000000000
                     "Platform"))
    Sample.request
  = ([EFetchLaunchpadState "State"; EGetLatestBlockhash;
      ESendAndConfirmTransaction
        {| programId := "Launchpad";
           keys := [ writable "State"; signer_writable "Platform" ];
           data := [Byte.x03] |}],
     json 200 (BGraduated "signature" "State" "Transition" "Safe"
                 (raise_info
                    (Sample.state Transition 30000000000 1073000000000000
                       "Platform")))).
Proof.
  apply (proj2 (proj2 (graduate_submits_once
           (Sample.world (Sample.state Transition 30000000000
                            1073000000000000 "Platform"))
           Sample.request "State" "State" "Launchpad" "State"
           (Sample.state Transition 30000000000 1073000000000000 "Platform")
           eq_refl eq_refl eq_refl eq_refl eq_refl eq_refl eq_refl))
         ("blockhash", 100) "signature" eq_refl eq_refl).
Defined.

(** ** The document bridge *)

(** X9. On a state in Transition the generate-safe route calls the bridge
    once, with the launchpad address of the request and the four on-chain
    figures of the fetched state, and reports what the bridge says: the
    document with 200, a refusal with 500 and the bridge's text, a failed
    call with the 500 of the catch. *)
Theorem generate_safe_reports_bridge
    (W : Collaborators) (body : option StateRequestBody) (a a' : string)
    (st : LaunchpadState) :
  state_address body = Some a ->
  address W a = Ok a' ->
  fetchMaybeLaunchpadState W a' = Ok (Some st) ->
  status st = Transition ->
  fst (post_generate_safe W body)
  = [EFetchLaunchpadState a';
     EBridgeGenerateSafe a
       {| info_solRaised := solRaised st;
          info_solTarget := solRaiseTarget st;
          info_tokensSold := tokensSold st;
          info_tokensForSale := tokensForSale st |}]
  /\ snd (post_generate_safe W body)
     = match bridgeGenerateSafe W a (raise_info st) with
       | Ok (BridgeOk doc) =>
           json 200 (BSafeGenerated a "Transition" doc (raise_info st))
       | Ok (BridgeNotOk errorText) =>
           json 500 (BErrorDetails
             "Failed to generate SAFE document via AI agent" errorText)
       | Throw e => json 500 (BFailure e)
       end.
Proof.
  intros Hb Ha Hf Hs.
  unfold post_generate_safe, generate_safe_body, fetch_state.
  rewrite Hb, Ha. run. rewrite Hf. run.
  rewrite Hs. cbn [LaunchpadStatus_eqb negb]. run.
  destruct (bridgeGenerateSafe W a (raise_info st)) as [[doc | txt] | e];
    run; split; reflexivity.
Qed.

Lemma generate_safe_reports_bridge_witness :
  snd (post_generate_safe
         (Sample.world (Sample.state Transition 30000000000
                          1073000000000000 "Platform"))
         Sample.request)
  = json 200 (BSafeGenerated "State" "Transition"
      {| pdfUrl := Some "safe.pdf"; filename := Some "safe.pdf" |}
      (raise_info (Sample.state Transition 30000000000 1073000000000000
                     "Platform"))).
Proof.
  apply (proj2 (generate_safe_reports_bridge
           (Sample.world (Sample.state Transition 30000000000
                            1073000000000000 "Platform"))
           Sample.request "State" "State"
           (Sample.state Transition 30000000000 1073000000000000 "Platform")
           eq_refl eq_refl eq_refl eq_refl)).
Defined.

(** ** The cache of generated documents *)

(** X10. Once the check-and-generate-safe route has generated a document
    whose URL and file name are both present and non-empty, the same
    request is answered from the cache: with that document, without
    validating the address, fetching the state or calling the bridge, and
    leaving the cache as it is. *)
Theorem check_and_generate_safe_is_idempotent
    (W W' : Collaborators) (cache : SafeCache)
    (body : option StateRequestBody) (a a' u f : string)
    (st : LaunchpadState) (doc : SafeDocument) :
  state_address body = Some a ->
  cache !! a = None ->
  address W a = Ok a' ->
  fetchMaybeLaunchpadState W a' = Ok (Some st) ->
  status st <> Trading ->
  bridgeGenerateSafe W a (raise_info st) = Ok (BridgeOk doc) ->
  cacheable doc = Some (u, f) ->
  let cache' := fst (snd (post_check_and_generate_safe W cache body)) in
  cache' = <[a := (u, f)]> cache /\
  post_check_and_generate_safe W' cache' body
  = (nil, (cache', json 200 (BCached
       "SAFE document already generated for this launchpad" (u, f)))).
Proof.
  intros Hb Hc Ha Hf Hs Hbridge Hdoc cache'.
  assert (E : cache' = <[a := (u, f)]> cache).
  { unfold cache', post_check_and_generate_safe,
      check_and_generate_safe_body, fetch_state.
    rewrite Hb, Hc, Ha. run. rewrite Hf. run.
    replace (LaunchpadStatus_eqb (status st) Transition
             || LaunchpadStatus_eqb (status st) Safe) with true
      by (destruct (status st); try reflexivity; now contradiction Hs).
    run. rewrite Hbridge, Hdoc. run. reflexivity. }
  split; [exact E |].
  rewrite E.
  unfold post_check_and_generate_safe, check_and_generate_safe_body.
  unfold SafeCache in *. rewrite Hb, lookup_insert_eq. run. reflexivity.
Qed.

Lemma check_and_generate_safe_is_idempotent_witness :
  let W := Sample.world (Sample.state Transition 30000000000
                           1073000000000000 "Platform") in
  let cache' :=
    fst (snd (post_check_and_generate_safe W ∅ Sample.request)) in
  cache' = <["State" := ("safe.pdf", "safe.pdf")]> ∅ /\
  post_check_and_generate_safe W cache' Sample.request
  = (nil, (cache', json 200 (BCached
       "SAFE document already generated for this launchpad"
       ("safe.pdf", "safe.pdf")))).
Proof.
  apply (check_and_generate_safe_is_idempotent
           (Sample.world (Sample.state Transition 30000000000
                            1073000000000000 "Platform"))
           (Sample.world (Sample.state Transition 30000000000
                            1073000000000000 "Platform"))
           ∅ Sample.request "State" "State" "safe.pdf" "safe.pdf"
           (Sample.state Transition 30000000000 1073000000000000 "Platform")
           {| pdfUrl := Some "safe.pdf"; filename := Some "safe.pdf" |}
           eq_refl (lookup_empty _) eq_refl eq_refl);
    [discriminate | reflexivity | reflexivity].
Defined.

(** ** The cache under overlapping requests *)

(** Without another request in between, the route that reads and stores in
    two phases leaves the cache the route run in one piece leaves, with the
    same effects and the same answer. *)
Lemma overlapping_agrees (W : Collaborators) (cache : SafeCache)
    (body : option StateRequestBody) :
  post_check_and_generate_safe W cache body
  = (fst (Overlap.post_check_and_generate_safe_overlapping W cache body),
     (Overlap.store
        (fst (snd (Overlap.post_check_and_generate_safe_overlapping
                     W cache body)))
        cache,
      snd (snd (Overlap.post_check_and_generate_safe_overlapping
                  W cache body)))).
Proof.
  unfold post_check_and_generate_safe, check_and_generate_safe_body,
    Overlap.post_check_and_generate_safe_overlapping,
    Overlap.check_and_generate_safe_phases, fetch_state.
  name_messages.
  destruct (state_address body) as [a |]; [| run; reflexivity].
  destruct (cache !! a) as [cached |]; [run; reflexivity |].
  destruct (address W a) as [a' | e]; run; [| reflexivity].
  destruct (fetchMaybeLaunchpadState W a') as [[st |] | e]; run;
    [| reflexivity | reflexivity].
  destruct (LaunchpadStatus_eqb (status st) Transition
            || LaunchpadStatus_eqb (status st) Safe); run; [| reflexivity].
  destruct (bridgeGenerateSafe W a (raise_info st)) as [[doc | txt] | e];
    run; [| reflexivity | reflexivity].
  destruct (cacheable doc) as [docInfo |]; reflexivity.
Qed.

(** What the route asks to store: a complete document of the bridge, under
    the launchpad address of the request, and only after a lookup that
    found nothing. *)
Lemma overlapping_store_inv (W : Collaborators) (seen : SafeCache)
    (body : option StateRequestBody) (a : string) (d : string * string) :
  fst (snd (Overlap.post_check_and_generate_safe_overlapping W seen body))
    = Some (a, d) ->
  state_address body = Some a /\ seen !! a = None /\
  exists a' st doc,
    address W a = Ok a' /\
    fetchMaybeLaunchpadState W a' = Ok (Some st) /\
    status st <> Trading /\
    bridgeGenerateSafe W a (raise_info st) = Ok (BridgeOk doc) /\
    cacheable doc = Some d.
Proof.
  destruct (Overlap.post_check_and_generate_safe_overlapping W seen body)
    as [t [w r]] eqn:Hrun.
  cbn [fst snd]. intros ->.
  unfold Overlap.post_check_and_generate_safe_overlapping,
    Overlap.check_and_generate_safe_phases, fetch_state in Hrun.
  name_messages. run_in Hrun.
  repeat (branch Hrun; try discriminate Hrun).
  destruct (cacheable doc) as [docInfo |] eqn:Hdoc; [| discriminate Hrun].
  injection Hrun as _ <- <- _.
  split; [reflexivity |]. split; [assumption |].
  do 3 eexists. repeat split; eauto.
  intros Hs. rewrite Hs in *. discriminate.
Qed.

(** The store asked for by a request that reaches the bridge and gets a
    document. *)
Lemma overlapping_runs (W : Collaborators) (seen : SafeCache)
    (body : option StateRequestBody) (a a' : string) (st : LaunchpadState)
    (doc : SafeDocument) :
  state_address body = Some a ->
  seen !! a = None ->
  address W a = Ok a' ->
  fetchMaybeLaunchpadState W a' = Ok (Some st) ->
  status st <> Trading ->
  bridgeGenerateSafe W a (raise_info st) = Ok (BridgeOk doc) ->
  fst (snd (Overlap.post_check_and_generate_safe_overlapping W seen body))
  = match cacheable doc with
    | Some d => Some (a, d)
    | None => None
    end.
Proof.
  intros Hb Hc Ha Hf Hs Hbridge.
  unfold Overlap.post_check_and_generate_safe_overlapping,
    Overlap.check_and_generate_safe_phases, fetch_state.
  rewrite Hb, Hc, Ha. run. rewrite Hf. run.
  replace (LaunchpadStatus_eqb (status st) Transition
           || LaunchpadStatus_eqb (status st) Safe) with true
    by (destruct (status st); try reflexivity; now contradiction Hs).
  run. rewrite Hbridge. run. reflexivity.
Qed.

(** X11. The check-and-generate-safe route reads the document cache once,
    at its start, and stores at most once, after its awaits, into the cache
    as it is by then. Whatever the request, the network and the requests
    that ran in between: it stores only under the launchpad address of its
    own request, only when its own lookup found nothing there, and only a
    document whose URL and file name are both present and non-empty; so no
    entry is ever removed and the entry of no other launchpad is changed.
    Without an overlapping request the cache it leaves is the cache of the
    route run in one piece and extends the cache it found. With one, a
    document may be replaced: of two overlapping requests for a launchpad
    not yet cached that both get a complete document, the document of the
    request that stores last is the one the cache keeps. *)
Theorem check_and_generate_safe_stores_at_own_address
    (W : Collaborators) (seen : SafeCache)
    (body : option StateRequestBody) :
  let run := Overlap.post_check_and_generate_safe_overlapping W seen body in
  let asked := fst (snd run) in
  (forall a d, asked = Some (a, d) ->
     state_address body = Some a /\ seen !! a = None /\
     exists a' st doc,
       address W a = Ok a' /\
       fetchMaybeLaunchpadState W a' = Ok (Some st) /\
       status st <> Trading /\
       bridgeGenerateSafe W a (raise_info st) = Ok (BridgeOk doc) /\
       cacheable doc = Some d)
  /\ (forall (current : SafeCache) (k : string),
        state_address body <> Some k ->
        Overlap.store asked current !! k = current !! k)
  /\ (forall (current : SafeCache) (k : string),
        current !! k <> None -> Overlap.store asked current !! k <> None)
  /\ (seen ⊆ Overlap.store asked seen /\
      post_check_and_generate_safe W seen body
      = (fst run, (Overlap.store asked seen, snd (snd run))))
  /\ (forall (W2 : Collaborators) (a a1 a2 : string)
        (st1 st2 : LaunchpadState) (doc1 doc2 : SafeDocument)
        (d1 d2 : string * string),
        state_address body = Some a ->
        seen !! a = None ->
        address W a = Ok a1 ->
        fetchMaybeLaunchpadState W a1 = Ok (Some st1) ->
        status st1 <> Trading ->
        bridgeGenerateSafe W a (raise_info st1) = Ok (BridgeOk doc1) ->
        cacheable doc1 = Some d1 ->
        address W2 a = Ok a2 ->
        fetchMaybeLaunchpadState W2 a2 = Ok (Some st2) ->
        status st2 <> Trading ->
        bridgeGenerateSafe W2 a (raise_info st2) = Ok (BridgeOk doc2) ->
        cacheable doc2 = Some d2 ->
        Overlap.store asked seen !! a = Some d1 /\
        Overlap.two_overlapping W W2 seen body body !! a = Some d2).
Proof.
  intros run asked. subst run asked.
  split; [| split; [| split; [| split]]].
  - intros a d Hasked.
    exact (overlapping_store_inv W seen body a d Hasked).
  - intros current k Hk.
    destruct (fst (snd (Overlap.post_check_and_generate_safe_overlapping
                          W seen body))) as [[a d] |] eqn:Hasked;
      [| reflexivity].
    destruct (overlapping_store_inv W seen body a d Hasked) as (Hb & _).
    cbn [Overlap.store]. unfold SafeCache in *.
    apply lookup_insert_ne. congruence.
  - intros current k Hk.
    destruct (fst (snd (Overlap.post_check_and_generate_safe_overlapping
                          W seen body))) as [[a d] |];
      cbn [Overlap.store]; [| assumption].
    unfold SafeCache in *. destruct (decide (a = k)) as [-> | Hne].
    + rewrite lookup_insert_eq. discriminate.
    + now rewrite lookup_insert_ne by assumption.
  - split; [| apply overlapping_agrees].
    destruct (fst (snd (Overlap.post_check_and_generate_safe_overlapping
                          W seen body))) as [[a d] |] eqn:Hasked;
      cbn [Overlap.store]; [| reflexivity].
    destruct (overlapping_store_inv W seen body a d Hasked) as (_ & Hc & _).
    unfold SafeCache in *. now apply insert_subseteq.
  - intros W2 a a1 a2 st1 st2 doc1 doc2 d1 d2
      Hb Hc Ha1 Hf1 Hs1 Hbridge1 Hdoc1 Ha2 Hf2 Hs2 Hbridge2 Hdoc2.
    unfold Overlap.two_overlapping.
    rewrite (overlapping_runs W seen body a a1 st1 doc1
               Hb Hc Ha1 Hf1 Hs1 Hbridge1), Hdoc1.
    rewrite (overlapping_runs W2 seen body a a2 st2 doc2
               Hb Hc Ha2 Hf2 Hs2 Hbridge2), Hdoc2.
    cbn [Overlap.store]. unfold SafeCache in *.
    now rewrite !lookup_insert_eq.
Qed.

(** ** The decoder on a well-formed account *)

Module LayoutFacts.
Import Decoder Layout.
Local Open Scope list_scope.

Lemma byte_of_Z_value (z : Z) :
  Z.of_N (Byte.to_N (Sample.byte_of_Z z)) = z mod 256.
Proof.
  unfold Sample.byte_of_Z.
  pose proof (Z.mod_pos_bound z 256 ltac:(lia)) as Hb.
  destruct (Byte.of_N (Z.to_N (z mod 256))) as [b |] eqn:E.
  - apply Byte.to_of_N in E. rewrite E. lia.
  - apply Byte.of_N_None_iff in E. lia.
Qed.

Lemma length_le (n : nat) (z : Z) : length (le n z) = n.
Proof.
  unfold le. revert z. induction n as [| n IH]; intros z; cbn;
    [reflexivity | now rewrite IH].
Qed.

Lemma BN_le_le (n : nat) (z : Z) :
  BN_le (le n z) = z mod 256 ^ Z.of_nat n.
Proof.
  unfold le. revert z. induction n as [| n IH]; intros z.
  - cbn. now rewrite Z.mod_1_r.
  - cbn [Sample.le_bytes BN_le]. rewrite IH, byte_of_Z_value.
    rewrite Nat2Z.inj_succ, Z.pow_succ_r by lia.
    rewrite Z.rem_mul_r by lia. reflexivity.
Qed.

Lemma BN_le_le_small (n : nat) (z : Z) :
  0 <= z < 256 ^ Z.of_nat n -> BN_le (le n z) = z.
Proof. intros H. rewrite BN_le_le. now apply Z.mod_small. Qed.

(** The slice that starts where [pre] ends. *)
Lemma slice_after (pre field post : bytes) (first last : Z) :
  first = Z.of_nat (length pre) ->
  last = first + Z.of_nat (length field) ->
  slice (pre ++ field ++ post) first last = field.
Proof.
  intros -> ->. unfold slice.
  rewrite Nat2Z.id.
  replace (Z.to_nat (Z.of_nat (length pre) + Z.of_nat (length field)
                     - Z.of_nat (length pre))) with (length field) by lia.
  rewrite skipn_app, skipn_all, Nat.sub_diag, skipn_O. cbn [app].
  rewrite firstn_app, firstn_all, Nat.sub_diag, firstn_O.
  apply app_nil_r.
Qed.

Lemma read_after (buf pre post : bytes) (z offset : Z) :
  buf = pre ++ le 4 z ++ post ->
  offset = Z.of_nat (length pre) ->
  0 <= z < 2 ^ 32 ->
  readUInt32LE buf offset = Ok z.
Proof.
  intros -> -> Hz. unfold readUInt32LE.
  rewrite !length_app, length_le.
  destruct (Z.leb_spec (Z.of_nat (length pre) + 4)
              (Z.of_nat (length pre + (4 + length post)))) as [_ | H];
    [| lia].
  rewrite (slice_after pre (le 4 z) post) by (rewrite ?length_le; lia).
  now rewrite BN_le_le_small.
Qed.

Lemma field_after (buf pre post : bytes) (n : nat) (z first last : Z) :
  buf = pre ++ le n z ++ post ->
  first = Z.of_nat (length pre) ->
  last = first + Z.of_nat n ->
  0 <= z < 256 ^ Z.of_nat n ->
  BN_le (slice buf first last) = z.
Proof.
  intros -> -> -> Hz.
  rewrite (slice_after pre (le n z) post) by (rewrite ?length_le; lia).
  now apply BN_le_le_small.
Qed.

(** The decoder on the bytes of a well-formed account. *)
Lemma decode_encode (a : Account) :
  well_formed a ->
  decodeLaunchpadState (encode a)
  = Ok {| tokensSoldRaw := sold a;
          initialPriceLamports := initialPrice a;
          slope := priceSlope a |}.
Proof.
  intros (Hd & Ha & Hn & Hs & Hu & Hp & Hsl & Hso).
  unfold decodeLaunchpadState.
  set (buf := encode a).
  set (n1 := Z.of_nat (length (name a))).
  set (n2 := Z.of_nat (length (symbol a))).
  set (n3 := Z.of_nat (length (uri a))).
  rewrite (read_after buf (discriminator a ++ authorityKey a)
             (name a ++ text (symbol a) ++ text (uri a)
              ++ le 8 (supply a) ++ le 8 (forSale a)
              ++ le 8 (initialPrice a) ++ le 16 (priceSlope a)
              ++ le 8 (raised a) ++ le 8 (sold a) ++ rest a) n1);
    [| unfold buf, encode, text; now rewrite <- !app_assoc
     | rewrite length_app, Hd, Ha; reflexivity
     | unfold n1; lia].
  rewrite (read_after buf
             (discriminator a ++ authorityKey a ++ text (name a))
             (symbol a ++ text (uri a)
              ++ le 8 (supply a) ++ le 8 (forSale a)
              ++ le 8 (initialPrice a) ++ le 16 (priceSlope a)
              ++ le 8 (raised a) ++ le 8 (sold a) ++ rest a) n2);
    [| unfold buf, encode, text; now rewrite <- !app_assoc
     | unfold text; rewrite !length_app, length_le, Hd, Ha; unfold n1; lia
     | unfold n2; lia].
  rewrite (read_after buf
             (discriminator a ++ authorityKey a ++ text (name a)
              ++ text (symbol a))
             (uri a
              ++ le 8 (supply a) ++ le 8 (forSale a)
              ++ le 8 (initialPrice a) ++ le 16 (priceSlope a)
              ++ le 8 (raised a) ++ le 8 (sold a) ++ rest a) n3);
    [| unfold buf, encode, text; now rewrite <- !app_assoc
     | unfold text; rewrite !length_app, !length_le, Hd, Ha;
       unfold n1, n2; lia
     | unfold n3; lia].
  cbv zeta.
  rewrite (field_after buf
             (discriminator a ++ authorityKey a ++ text (name a)
              ++ text (symbol a) ++ text (uri a)
              ++ le 8 (supply a) ++ le 8 (forSale a)
              ++ le 8 (initialPrice a) ++ le 16 (priceSlope a)
              ++ le 8 (raised a))
             (rest a) 8 (sold a));
    [| unfold buf, encode; now rewrite <- !app_assoc
     | unfold text; rewrite !length_app, !length_le, Hd, Ha;
       unfold n1, n2, n3; lia
     | lia
     | exact Hso].
  rewrite (field_after buf
             (discriminator a ++ authorityKey a ++ text (name a)
              ++ text (symbol a) ++ text (uri a)
              ++ le 8 (supply a) ++ le 8 (forSale a))
             (le 16 (priceSlope a) ++ le 8 (raised a) ++ le 8 (sold a)
              ++ rest a) 8 (initialPrice a));
    [| unfold buf, encode; now rewrite <- !app_assoc
     | unfold text; rewrite !length_app, !length_le, Hd, Ha;
       unfold n1, n2, n3; lia
     | lia
     | exact Hp].
  rewrite (field_after buf
             (discriminator a ++ authorityKey a ++ text (name a)
              ++ text (symbol a) ++ text (uri a)
              ++ le 8 (supply a) ++ le 8 (forSale a)
              ++ le 8 (initialPrice a))
             (le 8 (raised a) ++ le 8 (sold a) ++ rest a)
             16 (priceSlope a));
    [| unfold buf, encode; now rewrite <- !app_assoc
     | unfold text; rewrite !length_app, !length_le, Hd, Ha;
       unfold n1, n2, n3; lia
     | lia
     | exact Hsl].
  reflexivity.
Qed.

(** X12. The decoder reads back what the layout holds: for an account with
    an 8-byte discriminator, a 32-byte authority, three length-prefixed
    strings of any content, and fields within their widths, the decoded
    initial price, slope and tokens sold are those of the account, whatever
    the strings, the skipped fields and the bytes after the last field
    are. *)
Theorem decoder_reads_back_layout (a : Account) :
  well_formed a ->
  decodeLaunchpadState (encode a)
  = Ok {| tokensSoldRaw := sold a;
          initialPriceLamports := initialPrice a;
          slope := priceSlope a |}.
Proof. exact (decode_encode a). Qed.

Lemma demo_account_well_formed : well_formed Demo.account.
Proof. repeat split; vm_compute; (reflexivity || discriminate). Qed.

Lemma decoder_reads_back_layout_witness :
  decodeLaunchpadState (encode Demo.account)
  = Ok {| tokensSoldRaw := 1000; initialPriceLamports := 28; slope := 3 |}.
Proof.
  apply (decoder_reads_back_layout Demo.account).
  repeat split; vm_compute; (reflexivity || discriminate).
Defined.

(** ** The spot-price route *)

(** X13. For a well-formed account held at the requested address the
    spot-price route answers with the price of a full token in lamports,
    [(initialPrice + slope * tokensSold) * 10^6], computed exactly, with
    the breakdown of that sum; the price is never below the initial price
    and never falls when more tokens are sold. *)
Theorem spot_price_is_linear_in_tokens_sold
    (W : Collaborators) (L : Price.Library) (pk key : string)
    (a : Account) :
  pk <> "" ->
  PublicKey W pk = Ok key ->
  Price.getAccountInfo L key = Ok (Some (encode a)) ->
  well_formed a ->
  let price := (initialPrice a + priceSlope a * sold a) * 1000000 in
  Price.get_current_price W L pk
  = Price.PriceOk (Price.lamportsToSol L price) price
      {| Price.dbg_initialPriceLamports := initialPrice a;
         Price.dbg_tokensSoldRaw := sold a;
         Price.dbg_slope := priceSlope a;
         Price.dbg_priceIncreaseLamports := priceSlope a * sold a;
         Price.dbg_currentPriceAtomicLamports :=
           initialPrice a + priceSlope a * sold a |}
  /\ initialPrice a * 1000000 <= price
  /\ forall more : Z,
       sold a <= more ->
       price <= (initialPrice a + priceSlope a * more) * 1000000.
Proof.
  intros Hpk Hkey Hacc Hwf price.
  split; [| split].
  - unfold Price.get_current_price.
    destruct pk as [| c pk']; [now contradiction Hpk |].
    rewrite Hkey, Hacc, (decode_encode a Hwf).
    reflexivity.
  - destruct Hwf as (_ & _ & _ & _ & _ & Hp & Hsl & Hso).
    assert (0 <= priceSlope a * sold a)
      by (apply Z.mul_nonneg_nonneg; lia).
    unfold price. lia.
  - intros more Hmore.
    destruct Hwf as (_ & _ & _ & _ & _ & Hp & Hsl & Hso).
    assert (priceSlope a * sold a <= priceSlope a * more)
      by (apply Z.mul_le_mono_nonneg_l; lia).
    unfold price. lia.
Qed.

Lemma spot_price_is_linear_in_tokens_sold_witness :
  Price.get_current_price (Sample.world Sample.fresh)
    (Demo.price_library (Some (encode Demo.account))) "State"
  = Price.PriceOk (S754_zero false) 3028000000
      {| Price.dbg_initialPriceLamports := 28;
         Price.dbg_tokensSoldRaw := 1000;
         Price.dbg_slope := 3;
         Price.dbg_priceIncreaseLamports := 3000;
         Price.dbg_currentPriceAtomicLamports := 3028 |}.
Proof.
  apply (spot_price_is_linear_in_tokens_sold (Sample.world Sample.fresh)
           (Demo.price_library (Some (encode Demo.account)))
           "State" "State" Demo.account);
    [discriminate | reflexivity | reflexivity |].
  repeat split; vm_compute; (reflexivity || discriminate).
Defined.

(** X14. The spot-price route tells three failures apart and no more: an
    empty address is answered 400, an address that holds no account 404,
    and every other failure (an address that is no public key, a failing
    RPC call, an account too short for its first length prefix) the same
    500 that does not say which. *)
Theorem spot_price_failures
    (W : Collaborators) (L : Price.Library) (pk : string) :
  (pk = "" ->
   Price.get_current_price W L pk
   = Price.PriceError 400 "launchpadPubkey is required")
  /\ (pk <> "" ->
      (forall e, PublicKey W pk = Throw e ->
         Price.get_current_price W L pk = Price.failed) /\
      (forall key, PublicKey W pk = Ok key ->
         (forall e, Price.getAccountInfo L key = Throw e ->
            Price.get_current_price W L pk = Price.failed) /\
         (Price.getAccountInfo L key = Ok None ->
            Price.get_current_price W L pk
            = Price.PriceError 404
                "Launchpad account not found on-chain.") /\
         (forall buf, Price.getAccountInfo L key = Ok (Some buf) ->
            Z.of_nat (length buf) < 44 ->
            Price.get_current_price W L pk = Price.failed))).
Proof.
  split.
  - intros ->. reflexivity.
  - intros Hpk. destruct pk as [| c pk']; [now contradiction Hpk |].
    unfold Price.get_current_price. split.
    + intros e ->. reflexivity.
    + intros key ->. repeat split.
      * intros e ->. reflexivity.
      * intros ->. reflexivity.
      * intros buf -> Hshort.
        unfold decodeLaunchpadState.
        rewrite DecoderFacts.readUInt32LE_short by lia.
        reflexivity.
Qed.

Lemma spot_price_failures_witness :
  Price.get_current_price (Sample.world Sample.fresh)
    (Demo.price_library None) "State"
  = Price.PriceError 404 "Launchpad account not found on-chain.".
Proof.
  refine (proj1 (proj2 (proj2 (proj2
            (spot_price_failures (Sample.world Sample.fresh)
               (Demo.price_library None) "State") _) "State" eq_refl))
            eq_refl).
  discriminate.
Defined.

End LayoutFacts.

(** ** The build route *)

Module BuildFacts.
Import Build.

(** X15. For a request with every field present and amounts that convert,
    the build route answers with two instructions for the launchpad
    program. Initialize lists state and authority (both signer, writable)
    and the system program; createToken lists state (writable), the
    launchpad authority (read-only), mint (signer, writable), the metadata
    account (writable), token vault and authority (signer, writable), then
    the system, token, rent and metadata programs (read-only). The
    launchpad authority is derived from the bytes of the text
    "launchpad_authority" and the state address, the seeds of the buy
    route; the metadata account from "metadata", the metadata program and
    the mint; and the initialize data carries the fixed platform
    authority. *)
Theorem build_answers_two_instructions
    (W : Collaborators) (L : Library)
    (authority launchpadState mint tokenVault name symbol uri : string)
    (totalSupply tokensForSale initialPrice solRaiseTarget : Amount)
    (supply forSale price target : Z)
    (payload : bytes) (launchpadAuthority metadataAccount : string) :
  toBigInt W totalSupply = Ok supply ->
  toBigInt W tokensForSale = Ok forSale ->
  toBigInt W initialPrice = Ok price ->
  toBigInt W solRaiseTarget = Ok target ->
  encodeInitialize L
    {| arg_raiseTokenName := name;
       arg_raiseTokenSymbol := symbol;
       arg_uri := uri;
       arg_totalSupply := supply;
       arg_tokensForSale := forSale;
       arg_initialPriceLamportsPerToken := price;
       arg_solRaiseTarget := target;
       arg_platformAuthority :=
         "5FQZcz1ja7ohFxBgjfbhnSCg9Juxvqj6TNAaDuzjF2XX" |} = Ok payload ->
  derive L (LAUNCHPAD_PROGRAM_ADDRESS W)
    [ SeedBytes (tag_numbers "launchpad_authority");
      SeedAddress launchpadState ] = Ok launchpadAuthority ->
  derive L METADATA_PROGRAM_ID
    [ SeedBytes (tag_numbers "metadata");
      SeedAddress METADATA_PROGRAM_ID;
      SeedAddress mint ] = Ok metadataAccount ->
  post_build W L
    {| Build.authority := Some authority;
       Build.launchpadState := Some launchpadState;
       mintKey := Some mint;
       tokenVaultKey := Some tokenVault;
       raiseTokenName := Some name;
       raiseTokenSymbol := Some symbol;
       raiseTokenUri := Some uri;
       Build.totalSupply := Some totalSupply;
       tokensForSaleField := Some tokensForSale;
       initialPriceLamportsPerToken := Some initialPrice;
       solRaiseTargetField := Some solRaiseTarget |}
  = (nil,
     Built (LAUNCHPAD_PROGRAM_ADDRESS W)
       {| programId := LAUNCHPAD_PROGRAM_ADDRESS W;
          keys :=
            [ {| pubkey := launchpadState;
                 isSigner := true; isWritable := true |};
              {| pubkey := authority;
                 isSigner := true; isWritable := true |};
              {| pubkey := SYSTEM_PROGRAM_ID;
                 isSigner := false; isWritable := false |} ];
          data := payload |}
       {| programId := LAUNCHPAD_PROGRAM_ADDRESS W;
          keys :=
            [ {| pubkey := launchpadState;
                 isSigner := false; isWritable := true |};
              {| pubkey := launchpadAuthority;
                 isSigner := false; isWritable := false |};
              {| pubkey := mint; isSigner := true; isWritable := true |};
              {| pubkey := metadataAccount;
                 isSigner := false; isWritable := true |};
              {| pubkey := tokenVault;
                 isSigner := true; isWritable := true |};
              {| pubkey := authority;
                 isSigner := true; isWritable := true |};
              {| pubkey := SYSTEM_PROGRAM_ID;
                 isSigner := false; isWritable := false |};
              {| pubkey := TOKEN_PROGRAM_ID;
                 isSigner := false; isWritable := false |};
              {| pubkey := SYSVAR_RENT_ID;
                 isSigner := false; isWritable := false |};
              {| pubkey := METADATA_PROGRAM_ID;
                 isSigner := false; isWritable := false |} ];
          data := encodeCreateToken L |}).
Proof.
  intros Hs Hf Hp Ht He Hla Hmd.
  unfold post_build, build_body, getMetadataPDA, needed.
  cbn [Build.authority Build.launchpadState mintKey tokenVaultKey
       raiseTokenName raiseTokenSymbol raiseTokenUri Build.totalSupply
       tokensForSaleField initialPriceLamportsPerToken solRaiseTargetField].
  run. rewrite Hs. run. rewrite Hf. run. rewrite Hp. run. rewrite Ht. run.
  change PLATFORM_AUTHORITY
    with "5FQZcz1ja7ohFxBgjfbhnSCg9Juxvqj6TNAaDuzjF2XX".
  rewrite He. run.
  change [108; 97; 117; 110; 99; 104; 112; 97; 100; 95; 97; 117; 116; 104;
          111; 114; 105; 116; 121]
    with (tag_numbers "launchpad_authority").
  rewrite Hla. run.
  change [109; 101; 116; 97; 100; 97; 116; 97]
    with (tag_numbers "metadata").
  rewrite Hmd. run. reflexivity.
Qed.

Lemma build_answers_two_instructions_witness :
  fst (post_build (Sample.world Sample.fresh) Demo.library
         Demo.build_request) = nil
  /\ exists initialize createToken,
       snd (post_build (Sample.world Sample.fresh) Demo.library
              Demo.build_request)
       = Built "Launchpad" initialize createToken /\
       map pubkey (keys createToken)
       = [ "State"; "Launchpad/launchpad_authority/State"; "Mint";
           "metaqbxxUerdq28cj1RbAWkYQm3ybzjb6a8bt518x1s/metadata/metaqbxxUerdq28cj1RbAWkYQm3ybzjb6a8bt518x1s/Mint";
           "TokenVault"; "Creator"; SYSTEM_PROGRAM_ID; TOKEN_PROGRAM_ID;
           SYSVAR_RENT_ID; METADATA_PROGRAM_ID ].
Proof.
  unfold Demo.build_request.
  rewrite (build_answers_two_instructions (Sample.world Sample.fresh)
             Demo.library "Creator" "State" "Mint" "TokenVault" "Token"
             "TKN" "https://example.com/token.json"
             (ABigInt 1000000000) (ABigInt 800000000) (ABigInt 28)
             (ABigInt 85000000000) 1000000000 800000000 28 85000000000
             [Byte.x00; Byte.x00; Byte.xca; Byte.x9a; Byte.x3b; Byte.x00;
              Byte.x00; Byte.x00; Byte.x00]
             "Launchpad/launchpad_authority/State"
             "metaqbxxUerdq28cj1RbAWkYQm3ybzjb6a8bt518x1s/metadata/metaqbxxUerdq28cj1RbAWkYQm3ybzjb6a8bt518x1s/Mint"
             eq_refl eq_refl eq_refl eq_refl eq_refl eq_refl eq_refl).
  split; [reflexivity |]. eexists. eexists. split; reflexivity.
Defined.

(** A finished run of the build route that stopped at a missing field or
    at a throw. *)
Ltac stopped H :=
  solve [injection H as <- <-; cbn;
         split; [intros name Hname;
                 (discriminate Hname || (injection Hname as <-; reflexivity))
                | split; [intros Hnone r Hr;
                          (discriminate Hnone
                           || (injection Hr as <-; reflexivity))
                         | intros p i c Hbuilt; discriminate Hbuilt]]].

(** X16. A build request that lacks fields is answered 400 "Missing field:"
    with the name of the first field it lacks, in the order authority,
    launchpadState, mint, tokenVault, raiseTokenName, raiseTokenSymbol,
    raiseTokenUri, totalSupply, tokensForSale,
    initialPriceLamportsPerToken, solRaiseTarget. A request that has all
    eleven is never answered 400: when it is not answered with the two
    instructions (a conversion, an encoder or a derivation threw) the
    answer is the 500 of the catch. Two instructions are answered only for
    a request that has all eleven fields. *)
Theorem build_names_first_missing_field (W : Collaborators) (L : Library)
    (b : BuildRequestBody) :
  (forall name : string,
     BuildFields.first_missing b = Some name ->
     post_build W L b
     = (nil, Failed (json 400
                       (BError (String.append "Missing field: " name)))))
  /\ (BuildFields.first_missing b = None ->
      forall r : Response,
        snd (post_build W L b) = Failed r -> code r = 500)
  /\ (forall program initialize createToken,
        snd (post_build W L b) = Built program initialize createToken ->
        BuildFields.first_missing b = None).
Proof.
  destruct (post_build W L b) as [t r] eqn:Hrun. cbn [fst snd].
  destruct b as [o1 o2 o3 o4 o5 o6 o7 o8 o9 o10 o11].
  unfold BuildFields.first_missing, BuildFields.required_fields.
  cbn [Build.authority Build.launchpadState mintKey tokenVaultKey
       raiseTokenName raiseTokenSymbol raiseTokenUri Build.totalSupply
       tokensForSaleField initialPriceLamportsPerToken solRaiseTargetField].
  unfold post_build, build_body, getMetadataPDA, needed in Hrun.
  cbn [Build.authority Build.launchpadState mintKey tokenVaultKey
       raiseTokenName raiseTokenSymbol raiseTokenUri Build.totalSupply
       tokensForSaleField initialPriceLamportsPerToken solRaiseTargetField]
    in Hrun.
  run_in Hrun.
  repeat (branch Hrun; try stopped Hrun).
  injection Hrun as <- <-. cbn.
  split; [intros name Hname; discriminate Hname |].
  split; [intros _ r Hr; discriminate Hr | reflexivity].
Qed.

End BuildFacts.

(** ** The display helpers *)

Module FormatFacts.
Import Format.
Local Open Scope list_scope.

Lemma slice_prefix (s : text) (n : Z) :
  0 <= n -> slice s 0 (Some n) = firstn (Z.to_nat n) s.
Proof.
  intros Hn. unfold slice, clamp.
  destruct (Z.ltb_spec 0 0) as [| _]; [lia |].
  destruct (Z.ltb_spec n 0) as [| _]; [lia |].
  rewrite (Z.min_l 0) by lia. cbn [Z.to_nat]. rewrite skipn_O, Z.sub_0_r.
  destruct (Z.le_gt_cases n (Z.of_nat (length s))) as [Hle | Hgt].
  - now rewrite Z.min_l by lia.
  - rewrite Z.min_r by lia. rewrite Nat2Z.id.
    rewrite !firstn_all2 by lia. reflexivity.
Qed.

Lemma slice_suffix (s : text) (n : nat) :
  (0 < n)%nat ->
  slice s (- Z.of_nat n) None = skipn (length s - n) s.
Proof.
  intros Hn. unfold slice, clamp.
  destruct (Z.ltb_spec (- Z.of_nat n) 0) as [_ |]; [| lia].
  replace (Z.to_nat (Z.max (Z.of_nat (length s) + - Z.of_nat n) 0))
    with (length s - n)%nat by lia.
  apply firstn_all2. rewrite length_skipn. lia.
Qed.

Lemma slice_drop_last (s : text) (n : nat) :
  (0 < n)%nat ->
  slice s 0 (Some (- Z.of_nat n)) = firstn (length s - n) s.
Proof.
  intros Hn. unfold slice, clamp.
  destruct (Z.ltb_spec 0 0) as [| _]; [lia |].
  destruct (Z.ltb_spec (- Z.of_nat n) 0) as [_ |]; [| lia].
  rewrite (Z.min_l 0) by lia. cbn [Z.to_nat]. rewrite skipn_O, Z.sub_0_r.
  f_equal. lia.
Qed.

(** X17. [formatTokenAddress] shows the first six and the last four code
    units of an address around three dots; an address of ten or more code
    units always comes out 13 long, a shorter one has its ends overlap (its
    whole text appears on one side or on both), and a missing or empty
    address gives "N/A". *)
Theorem formatTokenAddress_keeps_both_ends :
  (forall a : text,
     a <> nil ->
     formatTokenAddress (Some a)
     = firstn 6 a ++ list_ascii_of_string "..." ++ skipn (length a - 4) a
     /\ length (formatTokenAddress (Some a))
        = (Nat.min 6 (length a) + 3 + Nat.min 4 (length a))%nat)
  /\ formatTokenAddress None = list_ascii_of_string "N/A"
  /\ formatTokenAddress (Some nil) = list_ascii_of_string "N/A".
Proof.
  split; [| split; reflexivity].
  intros a Ha.
  assert (E : formatTokenAddress (Some a)
              = firstn 6 a ++ dots ++ skipn (length a - 4) a).
  { destruct a as [| c a']; [now contradiction Ha |].
    unfold formatTokenAddress.
    rewrite (slice_prefix (c :: a') 6) by lia.
    change (-4) with (- Z.of_nat 4).
    rewrite (slice_suffix (c :: a') 4) by lia. reflexivity. }
  split; [exact E |].
  rewrite E, !length_app, length_firstn, length_skipn. cbn [dots length
    list_ascii_of_string]. lia.
Qed.

Lemma formatTokenAddress_keeps_both_ends_witness :
  formatTokenAddress
    (Some (list_ascii_of_string
             "5FQZcz1ja7ohFxBgjfbhnSCg9Juxvqj6TNAaDuzjF2XX"))
  = list_ascii_of_string "5FQZcz...F2XX".
Proof.
  refine (eq_trans
    (proj1 (proj1 formatTokenAddress_keeps_both_ends
              (list_ascii_of_string
                 "5FQZcz1ja7ohFxBgjfbhnSCg9Juxvqj6TNAaDuzjF2XX") _)) _).
  - discriminate.
  - reflexivity.
Defined.

Lemma formatTokenName_unfold (d : text) (m : Z) :
  d <> nil ->
  formatTokenName (Some d) (Some m)
  = if m <? Z.of_nat (length d)
    then slice d 0 (Some m) ++ dots
    else d.
Proof. intros Hd. destruct d; [now contradiction Hd | reflexivity]. Qed.

(** X18. [formatTokenName] leaves a description of at most [maxLength] (20
    by default) code units as it is and cuts a longer one to its first
    [maxLength] code units followed by three dots, so that for a
    non-negative [maxLength] the result is never longer than
    [maxLength + 3] nor than the description plus three; with a negative
    [maxLength] it drops that many code units from the end and adds the
    dots. *)
Theorem formatTokenName_bounds (d : text) (m : Z) :
  d <> nil ->
  (Z.of_nat (length d) <= m ->
   formatTokenName (Some d) (Some m) = d)
  /\ (0 <= m < Z.of_nat (length d) ->
      formatTokenName (Some d) (Some m)
      = firstn (Z.to_nat m) d ++ list_ascii_of_string "..."
      /\ Z.of_nat (length (formatTokenName (Some d) (Some m))) = m + 3)
  /\ (m < 0 ->
      formatTokenName (Some d) (Some m)
      = firstn (length d - Z.to_nat (- m)) d ++ list_ascii_of_string "...")
  /\ formatTokenName (Some d) None = formatTokenName (Some d) (Some 20)
  /\ (0 <= m ->
      Z.of_nat (length (formatTokenName (Some d) (Some m)))
        <= Z.min (Z.of_nat (length d) + 3) (m + 3)).
Proof.
  intros Hd.
  pose proof (formatTokenName_unfold d m Hd) as U.
  assert (Hshort : Z.of_nat (length d) <= m ->
                   formatTokenName (Some d) (Some m) = d).
  { intros H. rewrite U.
    destruct (Z.ltb_spec m (Z.of_nat (length d))); [lia | reflexivity]. }
  assert (Hlong : 0 <= m < Z.of_nat (length d) ->
            formatTokenName (Some d) (Some m)
            = firstn (Z.to_nat m) d ++ dots
            /\ Z.of_nat (length (formatTokenName (Some d) (Some m)))
               = m + 3).
  { intros H.
    assert (E : formatTokenName (Some d) (Some m)
                = firstn (Z.to_nat m) d ++ dots).
    { rewrite U.
      destruct (Z.ltb_spec m (Z.of_nat (length d))); [| lia].
      now rewrite slice_prefix by lia. }
    split; [exact E |].
    rewrite E, length_app, length_firstn. cbn [dots length
      list_ascii_of_string]. lia. }
  split; [exact Hshort |]. split; [exact Hlong |].
  split; [| split].
  - intros Hneg. rewrite U.
    destruct (Z.ltb_spec m (Z.of_nat (length d))); [| lia].
    replace m with (- Z.of_nat (Z.to_nat (- m))) at 1 by lia.
    rewrite slice_drop_last by lia. reflexivity.
  - destruct d; [now contradiction Hd | reflexivity].
  - intros Hm.
    destruct (Z.le_gt_cases (Z.of_nat (length d)) m) as [Hle | Hgt].
    + rewrite (Hshort Hle). lia.
    + destruct (Hlong (conj Hm Hgt)) as [_ ->]. lia.
Qed.

Lemma formatTokenName_bounds_witness :
  formatTokenName
    (Some (list_ascii_of_string "abcdefghijklmnopqrstu")) (Some 20)
  = list_ascii_of_string "abcdefghijklmnopqrst..."
  /\ Z.of_nat (length (formatTokenName
       (Some (list_ascii_of_string "abcdefghijklmnopqrstu")) (Some 20)))
     = 20 + 3.
Proof.
  refine (proj1 (proj2 (formatTokenName_bounds
            (list_ascii_of_string "abcdefghijklmnopqrstu") 20 _)) _).
  - discriminate.
  - split; [discriminate | reflexivity].
Defined.

End FormatFacts.

(** ** More on the cache of generated documents *)

(** X19. A document that the bridge returns without a URL or without a
    file name (or with an empty one) is still answered with 200 by the
    check-and-generate-safe route, but it is not stored: the cache is left
    as it was, so the next request for the launchpad calls the bridge
    again. *)
Theorem check_and_generate_safe_skips_partial_document
    (W : Collaborators) (cache : SafeCache)
    (body : option StateRequestBody) (a a' : string)
    (st : LaunchpadState) (doc : SafeDocument) :
  state_address body = Some a ->
  cache !! a = None ->
  address W a = Ok a' ->
  fetchMaybeLaunchpadState W a' = Ok (Some st) ->
  status st <> Trading ->
  bridgeGenerateSafe W a (raise_info st) = Ok (BridgeOk doc) ->
  truthy_string (pdfUrl doc) && truthy_string (filename doc) = false ->
  let run := post_check_and_generate_safe W cache body in
  fst (snd run) = cache /\
  code (snd (snd run)) = 200 /\
  fst (post_check_and_generate_safe W (fst (snd run)) body)
  = [EFetchLaunchpadState a'; EBridgeGenerateSafe a (raise_info st)].
Proof.
  intros Hb Hc Ha Hf Hs Hbridge Hdoc run.
  assert (Hnone : cacheable doc = None).
  { unfold cacheable. destruct doc as [[u |] [f |]]; cbn in *;
      try reflexivity. now rewrite Hdoc. }
  assert (E : run
    = ([EFetchLaunchpadState a'; EBridgeGenerateSafe a (raise_info st)],
       (cache, json 200 (BCheckGenerated
          (String.append "SAFE document generated for "
             (String.append (LaunchpadStatus_name (status st)) " status"))
          (LaunchpadStatus_eqb (status st) Transition)
          (LaunchpadStatus_name (status st)) doc)))).
  { unfold run, post_check_and_generate_safe,
      check_and_generate_safe_body, fetch_state.
    rewrite Hb, Hc, Ha. run. rewrite Hf. run.
    replace (LaunchpadStatus_eqb (status st) Transition
             || LaunchpadStatus_eqb (status st) Safe) with true
      by (destruct (status st); try reflexivity; now contradiction Hs).
    run. rewrite Hbridge, Hnone. run. reflexivity. }
  fold run. rewrite E. cbn [fst snd code json].
  repeat split. fold run. now rewrite E.
Qed.

Lemma check_and_generate_safe_skips_partial_document_witness :
  let W := Demo.world_with_bridge Demo.graduated
             {| pdfUrl := Some "safe.pdf"; filename := None |} in
  let run := post_check_and_generate_safe W ∅ Sample.request in
  fst (snd run) = ∅ /\
  code (snd (snd run)) = 200 /\
  fst (post_check_and_generate_safe W (fst (snd run)) Sample.request)
  = [EFetchLaunchpadState "State";
     EBridgeGenerateSafe "State" (raise_info Demo.graduated)].
Proof.
  cbv zeta.
  refine (check_and_generate_safe_skips_partial_document
            (Demo.world_with_bridge Demo.graduated
               {| pdfUrl := Some "safe.pdf"; filename := None |})
            ∅ Sample.request "State" "State" Demo.graduated
            {| pdfUrl := Some "safe.pdf"; filename := None |}
            eq_refl (lookup_empty _) eq_refl eq_refl _ eq_refl eq_refl).
  discriminate.
Defined.

Lemma check_and_generate_safe_stores_at_own_address_witness :
  let W1 := Demo.world_with_bridge Demo.graduated
              {| pdfUrl := Some "first.pdf"; filename := Some "first.pdf" |} in
  let W2 := Demo.world_with_bridge Demo.graduated
              {| pdfUrl := Some "second.pdf";
                 filename := Some "second.pdf" |} in
  Overlap.store
    (fst (snd (Overlap.post_check_and_generate_safe_overlapping
                 W1 ∅ Sample.request)))
    ∅ !! "State" = Some ("first.pdf", "first.pdf")
  /\ Overlap.two_overlapping W1 W2 ∅ Sample.request Sample.request !! "State"
     = Some ("second.pdf", "second.pdf").
Proof.
  cbv zeta.
  refine (proj2 (proj2 (proj2 (proj2
            (check_and_generate_safe_stores_at_own_address
               (Demo.world_with_bridge Demo.graduated
                  {| pdfUrl := Some "first.pdf";
                     filename := Some "first.pdf" |})
               ∅ Sample.request))))
            (Demo.world_with_bridge Demo.graduated
               {| pdfUrl := Some "second.pdf";
                  filename := Some "second.pdf" |})
            "State" "State" "State" Demo.graduated Demo.graduated
            {| pdfUrl := Some "first.pdf"; filename := Some "first.pdf" |}
            {| pdfUrl := Some "second.pdf"; filename := Some "second.pdf" |}
            ("first.pdf", "first.pdf") ("second.pdf", "second.pdf")
            eq_refl (lookup_empty _) eq_refl eq_refl _ eq_refl eq_refl
            eq_refl eq_refl _ eq_refl eq_refl);
    discriminate.
Defined.

Lemma build_names_first_missing_field_witness :
  Build.post_build (Sample.world Sample.fresh) Demo.library
    {| Build.authority := Some "Creator";
       Build.launchpadState := Some "State";
       Build.mintKey := None;
       Build.tokenVaultKey := Some "TokenVault";
       Build.raiseTokenName := Some "Token";
       Build.raiseTokenSymbol := Some "TKN";
       Build.raiseTokenUri := Some "https://example.com/token.json";
       Build.totalSupply := None;
       Build.tokensForSaleField := Some (ABigInt 800000000);
       Build.initialPriceLamportsPerToken := Some (ABigInt 28);
       Build.solRaiseTargetField := None |}
  = (nil, Build.Failed (json 400 (BError "Missing field: mint"))).
Proof.
  exact (proj1 (BuildFacts.build_names_first_missing_field
                  (Sample.world Sample.fresh) Demo.library
                  {| Build.authority := Some "Creator";
                     Build.launchpadState := Some "State";
                     Build.mintKey := None;
                     Build.tokenVaultKey := Some "TokenVault";
                     Build.raiseTokenName := Some "Token";
                     Build.raiseTokenSymbol := Some "TKN";
                     Build.raiseTokenUri :=
                       Some "https://example.com/token.json";
                     Build.totalSupply := None;
                     Build.tokensForSaleField := Some (ABigInt 800000000);
                     Build.initialPriceLamportsPerToken := Some (ABigInt 28);
                     Build.solRaiseTargetField := None |})
           "mint" eq_refl).
Defined.
